(** * ghananewsinbrief: the Discovery and Delivery workflows

    A shallow embedding of [src/worker/utils.ts],
    [src/worker/workflows/gh-news-processor.ts],
    [src/workflows/joy-news-scraper.ts] and [src/worker/index.ts], and the
    properties of the two workflows that the specification states.

    Conventions of the embedding.
    - JavaScript strings are [string]s holding the UTF-8 bytes of the text;
      a surrogate without its pair, which has no UTF-8 form, is held as the
      three bytes of its generalised encoding.
    - An [async] function is a computation [M A]: it takes the [World] it
      starts in and gives an [Outcome] (a returned value or a raised
      exception) with the world it leaves behind.
    - Everything outside the repository (the model call, the HTTP client,
      the key-value store, the workflow engine's instance creation, the
      JavaScript [Date]) is reached through a [Services] record whose replies
      are arbitrary; a theorem quantified over [Services] holds for every
      behaviour of the outside world.
    - The world records every external call in [trace], in call order, and
      every console line in [console].
    - A JavaScript object used as a dictionary keyed by URL is the finite
      map [gmap string _] of its own properties; a read of a key it does
      not own finds what every object inherits from [Object.prototype].
    - The transport errors of the key-value store are outside the model,
      and so are the step timeouts, which are real time. *)

From Stdlib Require Import ZArith String Ascii List Bool Lia.
From stdpp Require Import base option list gmap strings.

Local Open Scope string_scope.
Local Open Scope list_scope.
Local Open Scope Z_scope.

(** ** JavaScript values *)

(** Exceptions, by constructor. [External] stands for whatever an outside
    call throws (network errors, HTTP errors, schema validation errors). *)
Inductive Exn : Type :=
| Error (message : string)
| RangeError (message : string)
| TypeError (message : string)
| URIError (message : string)
| External (what : string).

Inductive Outcome (A : Type) : Type :=
| Returned (a : A)
| Raised (e : Exn).
Arguments Returned {A} a.
Arguments Raised {A} e.

(** Truthiness of a string: only the empty string is falsy. *)
Definition truthy (s : string) : bool :=
  match s with
  | EmptyString => false
  | String _ _ => true
  end.

(** Truthiness of a [string | null | undefined]. *)
Definition truthy_opt (o : option string) : bool :=
  match o with
  | Some s => truthy s
  | None => false
  end.

(** [a || b] on strings. *)
Definition or_else (a : option string) (b : string) : string :=
  match a with
  | Some s => if truthy s then s else b
  | None => b
  end.

Definition nl : string := String "010"%char EmptyString.

(** ** Plain objects used as dictionaries

    The names every object literal inherits from [Object.prototype]: a read
    of one of them on an object that does not own it finds a function (for
    [__proto__], the prototype object), which is truthy and has none of the
    properties this program reads. *)
Definition Object_prototype : list string :=
  ["constructor"; "__defineGetter__"; "__defineSetter__"; "hasOwnProperty";
   "__lookupGetter__"; "__lookupSetter__"; "isPrototypeOf";
   "propertyIsEnumerable"; "toString"; "valueOf"; "__proto__";
   "toLocaleString"].

Definition inherited (key : string) : bool :=
  existsb (String.eqb key) Object_prototype.

(** ** encodeURI

    The text [encodeURI] returns: bytes of the unreserved and reserved sets
    are kept, every other byte of the UTF-8 text becomes [%XX]. The call
    itself, which throws on a string it cannot encode, is [call_encodeURI]
    below. *)
Definition hex_digit (n : N) : ascii :=
  match n with
  | 0%N => "0" | 1%N => "1" | 2%N => "2" | 3%N => "3"
  | 4%N => "4" | 5%N => "5" | 6%N => "6" | 7%N => "7"
  | 8%N => "8" | 9%N => "9" | 10%N => "A" | 11%N => "B"
  | 12%N => "C" | 13%N => "D" | 14%N => "E" | _ => "F"
  end%char.

Definition uri_kept (c : ascii) : bool :=
  let n := N_of_ascii c in
  ((65 <=? n) && (n <=? 90) || (97 <=? n) && (n <=? 122)
   || (48 <=? n) && (n <=? 57))%N
  || existsb (Ascii.eqb c)
       [";"; ","; "/"; "?"; ":"; "@"; "&"; "="; "+"; "$"; "-"; "_"; ".";
        "!"; "~"; "*"; "'"; "("; ")"; "#"]%char.

Fixpoint encodeURI (s : string) : string :=
  match s with
  | EmptyString => EmptyString
  | String c rest =>
      if uri_kept c then String c (encodeURI rest)
      else
        let n := N_of_ascii c in
        String "%" (String (hex_digit (n / 16)) (String (hex_digit (n mod 16))
          (encodeURI rest)))
  end.

(** The string holds a surrogate without its pair: the byte [ED] followed
    by a byte from [A0] to [BF]. (In UTF-8 proper [ED] is followed by a byte
    below [A0], and a pair of surrogates is one code point of four bytes.) *)
Fixpoint lone_surrogate (s : string) : bool :=
  match s with
  | EmptyString => false
  | String c rest =>
      match rest with
      | EmptyString => false
      | String d _ =>
          ((N_of_ascii c =? 237) && (160 <=? N_of_ascii d)
           && (N_of_ascii d <=? 191))%N
          || lone_surrogate rest
      end
  end.

(** Every byte of the string is below 128. *)
Fixpoint ascii_only (s : string) : bool :=
  match s with
  | EmptyString => true
  | String c rest => (N_of_ascii c <? 128)%N && ascii_only rest
  end.

(** ** src/types.ts *)

Record Article : Type := {
  title : string;
  url : string;
  date_published : string;
  content : string;
  image_url : option string;
}.

Record ScraperParams : Type := {
  main_url : option string;
  feed_url : option string;
}.

Record ProcessorParams : Type := {
  article : Article;
  reprocess : option bool;
}.

(** ** The outside world *)

(** A Telegram [sendPhoto] request as [ky.post] receives it: the JSON body
    and the client options. *)
Record SendPhoto : Type := {
  endpoint : string;
  chat_id : string;
  photo : string;
  caption : string;
  parse_mode : string;
  reply_markup_text : string;
  reply_markup_url : string;
  timeout : Z;
  retry_limit : nat;
  retry_methods : list string;
}.

(** A [ky.get] request: the URL and the client options. *)
Record GetRequest : Type := {
  get_url : string;
  get_timeout : Z;
  get_retry : nat;
}.

Record TelegramResult : Type := {
  ok : bool;
  description : option string;
}.

(** One [<item>] of the parsed feed document; a missing child is [None]. *)
Record RssItem : Type := {
  item_link : option string;
  item_title : option string;
  item_pubDate : option string;
  item_description : option string;
  item_media_content : option (option string);
}.

(** The value written to the cache before [JSON.stringify]. *)
Record Metadata : Type := {
  processed_at : string;
  meta_title : string;
  meta_url : string;
  meta_summary : string;
}.

(** An entry of a [createBatch] call. *)
Record BatchEntry : Type := {
  batch_id : string;
  batch_article : Article;
}.

(** What an outside call answers, and the time it took (milliseconds). *)
Record Reply (A : Type) : Type := {
  outcome : Outcome A;
  elapsed : Z;
}.
Arguments outcome {A} _.
Arguments elapsed {A} _.

(** Replies are indexed by the number of external calls made so far, so
    that the same request may be answered differently each time. *)
Record Services : Type := {
  (** [generateObject]: the [summary] field of the validated object. *)
  generateObject : nat -> string -> string -> Reply string;
  (** One HTTP request of [ky.post(...).json()] on the Telegram API, with
      the body read. *)
  ky_post_json : nat -> SendPhoto -> Reply TelegramResult;
  (** [ky.get(url, options)] followed by [response.text()]: the answer of
      the call, after the requests the client repeated inside it (up to
      [retry] times, [GET] being a method it retries). *)
  ky_get_text : nat -> GetRequest -> Reply string;
  (** The [HTMLRewriter] pass over a page: the [href] attribute of each
      anchor matching [div.home-post-list-title a], in document order;
      [None] is an anchor without the attribute. *)
  HTMLRewriter_hrefs : string -> Outcome (list (option string));
  (** [parser.parse(xml)] followed by the path [rss?.channel?.item]:
      [None] when the path is missing or is not an array. *)
  XMLParser_items : string -> Outcome (option (list RssItem));
  (** [crypto.randomUUID()], by draw number. *)
  randomUUID : nat -> string;
  (** The time value of [new Date(s)]; [None] is the invalid date. *)
  Date_parse : string -> option Z;
  (** [toISOString] of a valid time value. *)
  ISO_string : Z -> string;
  (** [JSON.stringify] of the cache metadata. *)
  JSON_stringify : Metadata -> string;
  (** The retry limit the engine gives a step that configures none. *)
  default_retry_limit : nat;
}.

(** What the trace records: the start of each attempt of a step, and each
    external call with its answer. An [EvSendPhoto] is one HTTP request to
    Telegram; an [EvGet] is one [ky.get] call, whatever the client did
    inside it. *)
Inductive Event : Type :=
| EvStep (name : string)
| EvKVGet (key : string) (answer : option string)
| EvKVGetBulk (keys : list string)
| EvKVPut (key value : string) (expirationTtl : Z)
| EvGenerateObject (model prompt : string) (answer : Outcome string)
| EvSendPhoto (req : SendPhoto) (answer : Outcome TelegramResult)
| EvGet (target : string) (answer : Outcome string)
| EvCreateBatch (batch : list BatchEntry).

(** A cache row: the stored text and the instant (milliseconds) at which
    the store drops it. *)
Record KVEntry : Type := {
  kv_value : string;
  kv_expiration : Z;
}.

Record World : Type := {
  now : Z;
  GH_NEWS_CACHE : gmap string KVEntry;
  trace : list Event;
  console : list string;
  uuids_drawn : nat;
}.

(** ** The computation monad *)

Definition M (A : Type) : Type := World -> Outcome A * World.

Definition ret {A} (a : A) : M A := fun w => (Returned a, w).

Definition throw {A} (e : Exn) : M A := fun w => (Raised e, w).

Definition bind {A B} (m : M A) (k : A -> M B) : M B :=
  fun w =>
    match m w with
    | (Returned a, w') => k a w'
    | (Raised e, w') => (Raised e, w')
    end.

Notation "'await' x <- m ; k" := (bind m (fun x => k))
  (at level 10, x name, m at level 100, k at level 200,
   format "'[v' 'await'  x  <-  m ; '/' k ']'").
Notation "'await_' m ; k" := (bind m (fun _ => k))
  (at level 10, m at level 100, k at level 200,
   format "'[v' 'await_'  m ; '/' k ']'").

(** [try { body } catch (e) { handler e }]. *)
Definition try_catch {A} (body : M A) (handler : Exn -> M A) : M A :=
  fun w =>
    match body w with
    | (Returned a, w') => (Returned a, w')
    | (Raised e, w') => handler e w'
    end.

Definition record_event (ev : Event) (w : World) : World :=
  {| now := now w; GH_NEWS_CACHE := GH_NEWS_CACHE w;
     trace := trace w ++ [ev]; console := console w;
     uuids_drawn := uuids_drawn w |}.

Definition advance (dt : Z) (w : World) : World :=
  {| now := now w + dt; GH_NEWS_CACHE := GH_NEWS_CACHE w;
     trace := trace w; console := console w;
     uuids_drawn := uuids_drawn w |}.

(** An outside call: answered by the service, and recorded with its
    answer; the clock moves by the time the call took. *)
Definition external {A} (ev : Outcome A -> Event) (reply : nat -> Reply A)
  : M A :=
  fun w =>
    let r := reply (List.length (trace w)) in
    (outcome r, advance (elapsed r) (record_event (ev (outcome r)) w)).

(** [console.log] and [console.error]. *)
Definition console_log (line : string) : M unit :=
  fun w =>
    (Returned tt,
     {| now := now w; GH_NEWS_CACHE := GH_NEWS_CACHE w;
        trace := trace w; console := console w ++ [line];
        uuids_drawn := uuids_drawn w |}).

(** [new Date()] as a time value. *)
Definition Date_now : M Z := fun w => (Returned (now w), w).

(** A call of [encodeURI]: a [URIError] on a lone surrogate. *)
Definition call_encodeURI (s : string) : M string :=
  if lone_surrogate s then throw (URIError "URI malformed")
  else ret (encodeURI s).

(** ** The key-value store *)

(** A row is live strictly before its expiration instant. *)
Definition kv_lookup (t : Z) (kv : gmap string KVEntry) (key : string)
  : option string :=
  match kv !! key with
  | Some e => if t <? kv_expiration e then Some (kv_value e) else None
  | None => None
  end.

Definition kv_insert (t : Z) (key value : string) (ttl : Z)
  (kv : gmap string KVEntry) : gmap string KVEntry :=
  <[key := {| kv_value := value; kv_expiration := t + 1000 * ttl |}]> kv.

(** [KV.get(key)]: the stored text, or null. *)
Definition KV_get (key : string) : M (option string) :=
  fun w =>
    let cached := kv_lookup (now w) (GH_NEWS_CACHE w) key in
    (Returned cached, record_event (EvKVGet key cached) w).

(** The most keys the store accepts in one bulk read, and what it throws at
    more. *)
Definition KV_bulk_limit : nat := 100.

Definition KV_bulk_error : Exn :=
  External "KV bulk get: more than 100 keys".

(** [KV.get(keys)]: a [Map] with one binding per requested key. *)
Definition KV_get_bulk (keys : list string)
  : M (gmap string (option string)) :=
  fun w =>
    if (KV_bulk_limit <? List.length keys)%nat
    then (Raised KV_bulk_error, record_event (EvKVGetBulk keys) w)
    else
      (Returned
         (list_to_map
            (map (fun k => (k, kv_lookup (now w) (GH_NEWS_CACHE w) k)) keys)),
       record_event (EvKVGetBulk keys) w).

(** [KV.put(key, value, { expirationTtl })]. *)
Definition KV_put (key value : string) (expirationTtl : Z) : M unit :=
  fun w =>
    (Returned tt,
     record_event (EvKVPut key value expirationTtl)
       {| now := now w;
          GH_NEWS_CACHE :=
            kv_insert (now w) key value expirationTtl (GH_NEWS_CACHE w);
          trace := trace w; console := console w;
          uuids_drawn := uuids_drawn w |}).

(** ** The workflow engine's [step.do] *)

Inductive Backoff : Type := Constant | Linear | Exponential.

Record StepConfig : Type := {
  retries_limit : nat;
  retries_delay : string;
  retries_backoff : Backoff;
  step_timeout : option string;
}.

(** A step body that raises is run again, up to [retries] more times; the
    last exception is the step's. The result of a body that returns is the
    step's result, and the body is not run again. *)
Fixpoint attempt {A} (name : string) (retries : nat) (body : M A) : M A :=
  fun w =>
    match body (record_event (EvStep name) w) with
    | (Returned a, w') => (Returned a, w')
    | (Raised e, w') =>
        match retries with
        | O => (Raised e, w')
        | S r => attempt name r body w'
        end
    end.

Definition step_do {A} (name : string) (config : StepConfig) (body : M A)
  : M A :=
  attempt name (retries_limit config) body.

(** [step.do(name, body)], with the engine's own retry limit. *)
Definition step_do_default {A} (svc : Services) (name : string) (body : M A)
  : M A :=
  attempt name (default_retry_limit svc) body.

(** ** src/worker/utils.ts *)

Module Utils.

Definition GEMINI_MODEL : string := "gemini-2.0-flash".

Definition summary_prompt (content : string) : string :=
  "Provide 2 paragraphs summarizing the following article:"
  +:+ nl +:+ nl +:+ content.

(** [summarizeArticle]: the model's summary, or null when anything in the
    call raises. *)
Definition summarizeArticle (svc : Services) (content : string)
  : M (option string) :=
  try_catch
    (await summary <-
       external (EvGenerateObject GEMINI_MODEL (summary_prompt content))
         (fun n => generateObject svc n GEMINI_MODEL
                     (summary_prompt content));
     ret (Some summary))
    (fun error =>
       await_ console_log "Summarization failed:";
       ret None).

Definition fallbackImageUrl : string :=
  "https://images.unsplash.com/photo-1504711434969-e33886168f5c?ixlib=rb-4.0.3&q=80&fm=jpg&crop=entropy&cs=tinysrgb&w=800&h=400&fit=crop".

Definition sendPhoto_request (botToken channelId message image articleUrl
  : string) (retries : nat) : SendPhoto :=
  {| endpoint := "https://api.telegram.org/bot" +:+ botToken +:+ "/sendPhoto";
     chat_id := channelId;
     photo := image;
     caption := message;
     parse_mode := "HTML";
     reply_markup_text := "Read more";
     reply_markup_url := articleUrl;
     timeout := 30000;
     retry_limit := retries;
     retry_methods := ["POST"] |}.

(** The requests [ky] may add to a failed one: [retry.limit], when the
    lower-case name of the request's method is listed in [retry.methods],
    and none otherwise. *)
Definition ky_retries (method : string) (req : SendPhoto) : nat :=
  if existsb (String.eqb method) (retry_methods req) then retry_limit req
  else 0%nat.

(** One request, repeated while it fails and retries are left. (Which
    failures the client repeats is its own matter; here, all.) *)
Fixpoint ky_request (svc : Services) (req : SendPhoto) (retries : nat)
  : M TelegramResult :=
  fun w =>
    match external (EvSendPhoto req) (fun n => ky_post_json svc n req) w with
    | (Returned result, w') => (Returned result, w')
    | (Raised e, w') =>
        match retries with
        | O => (Raised e, w')
        | S n => ky_request svc req n w'
        end
    end.

(** [ky.post(url, options).json()]. *)
Definition post (svc : Services) (req : SendPhoto) : M TelegramResult :=
  ky_request svc req (ky_retries "post" req).

(** [sendTelegramMessage]. The inner [try] returns [Some true] where the
    source returns from the function, and [None] where control falls
    through to the fallback image. *)
Definition sendTelegramMessage (svc : Services)
  (botToken channelId message imageUrl articleUrl : string) : M bool :=
  try_catch
    (await encodedImageUrl <- call_encodeURI imageUrl;
     await first <-
       try_catch
         (await result <-
            post svc (sendPhoto_request botToken channelId message
                        encodedImageUrl articleUrl 2);
          if ok result then ret (Some true)
          else
            await_ console_log "Using fallback image due to error:";
            ret None)
         (fun photoError =>
            await_ console_log "Using fallback image due to error:";
            ret None);
     match first with
     | Some sent => ret sent
     | None =>
         await fallbackResult <-
           post svc (sendPhoto_request botToken channelId message
                       fallbackImageUrl articleUrl 3);
         if negb (ok fallbackResult) then
           await_ console_log "Telegram fallback photo error:";
           ret false
         else ret true
     end)
    (fun error =>
       await_ console_log "Error sending Telegram message:";
       ret false).

(** [getCurrentUTCDate]. *)
Definition getCurrentUTCDate : M Z := Date_now.

End Utils.

(** The bindings of [Env] that are plain strings. *)
Record Env : Type := {
  TELEGRAM_BOT_TOKEN : string;
  TELEGRAM_CHANNEL_ID : string;
}.

(** ** src/worker/workflows/gh-news-processor.ts *)

Module GHNewsProcessorWorkflow.

Definition CACHE_KEY_PREFIX : string := "article:".

Definition cacheKey (articleUrl : string) : string :=
  CACHE_KEY_PREFIX +:+ articleUrl.

(** The two shapes of the object [run] returns. *)
Inductive Result : Type :=
| Skipped (success skipped : bool) (reason url : string)
| Processed (success : bool) (url title summary : string)
    (telegramSent : bool) (processedAt : string).

Definition generate_summary_config : StepConfig :=
  {| retries_limit := 3; retries_delay := "5 second";
     retries_backoff := Exponential; step_timeout := Some "1 minute" |}.

Definition send_telegram_message_config : StepConfig :=
  {| retries_limit := 5; retries_delay := "10 second";
     retries_backoff := Exponential; step_timeout := Some "2 minutes" |}.

Definition mark_as_processed_config : StepConfig :=
  {| retries_limit := 3; retries_delay := "3 second";
     retries_backoff := Exponential; step_timeout := None |}.

Definition ttl : Z := 86400.

Definition summary_error (a : Article) : Exn :=
  Error ("Failed to generate summary for article: " +:+ url a).

Definition send_error (a : Article) : Exn :=
  Error ("Failed to send Telegram message for article: " +:+ url a).

Definition emoji : string := "📰".

Definition telegram_message (a : Article) (summary : string) : string :=
  emoji +:+ " <b>" +:+ title a +:+ "</b>" +:+ nl +:+ nl
  +:+ "<i>" +:+ summary +:+ "</i>".

(** Step 1 body. *)
Definition check_if_processed (a : Article) : M bool :=
  await cached <- KV_get (cacheKey (url a));
  ret (bool_decide (cached <> None)).

(** Step 4 body. *)
Definition send_telegram_message (svc : Services) (env : Env)
  (a : Article) (telegramMessage : string) : M bool :=
  let imageUrl := or_else (image_url a) Utils.fallbackImageUrl in
  await encodedImageUrl <- call_encodeURI imageUrl;
  Utils.sendTelegramMessage svc (TELEGRAM_BOT_TOKEN env)
    (TELEGRAM_CHANNEL_ID env) telegramMessage encodedImageUrl (url a).

(** Step 5 body; [true] stands for the object [{ success: true }]. *)
Definition mark_as_processed (svc : Services) (a : Article)
  (summary : string) : M bool :=
  await t <- Date_now;
  let metadata :=
    {| processed_at := ISO_string svc t; meta_title := title a;
       meta_url := url a; meta_summary := summary |} in
  await_ KV_put (cacheKey (url a)) (JSON_stringify svc metadata) ttl;
  ret true.

(** Steps 2 to 5 and the final result. *)
Definition deliver (svc : Services) (env : Env) (a : Article)
  : M Result :=
  await summary <-
    step_do "generate_summary" generate_summary_config
      (Utils.summarizeArticle svc (content a));
  if negb (truthy_opt summary) then throw (summary_error a)
  else
    let summary := default "" summary in
    await telegramMessage <-
      step_do_default svc "create_message"
        (ret (telegram_message a summary));
    await sendResult <-
      step_do "send_telegram_message" send_telegram_message_config
        (send_telegram_message svc env a telegramMessage);
    if negb sendResult then throw (send_error a)
    else
      await_ step_do "mark_as_processed" mark_as_processed_config
               (mark_as_processed svc a summary);
      await t <- Date_now;
      ret (Processed true (url a) (title a) summary true
             (ISO_string svc t)).

Definition run (svc : Services) (env : Env) (payload : ProcessorParams)
  : M Result :=
  let a := article payload in
  let reprocess := default false (reprocess payload) in
  if negb reprocess then
    await isProcessed <-
      step_do_default svc "check_if_processed" (check_if_processed a);
    if isProcessed then
      ret (Skipped true true "Article already processed" (url a))
    else deliver svc env a
  else deliver svc env a.

End GHNewsProcessorWorkflow.

(** ** src/workflows/joy-news-scraper.ts *)

Module JoyNewsScraperWorkflow.

Definition CACHE_KEY_PREFIX : string := "article:".
Definition DEFAULT_MAIN_URL : string := "https://www.myjoyonline.com/".
Definition DEFAULT_FEED_URL : string := "https://www.myjoyonline.com/feed/".

Definition cacheKey (link : string) : string := CACHE_KEY_PREFIX +:+ link.

(** A value of the dictionary [parseRSSFeed] builds. *)
Record FeedEntry : Type := {
  fe_title : string;
  fe_link : string;
  fe_published : string;
  fe_summary : string;
  fe_media_content : list string;
}.

Definition entry_of_item (link : string) (item : RssItem) : FeedEntry :=
  {| fe_title := or_else (item_title item) "";
     fe_link := link;
     fe_published := or_else (item_pubDate item) "";
     fe_summary := or_else (item_description item) "";
     fe_media_content :=
       match item_media_content item with
       | Some media => [or_else media ""]
       | None => []
       end |}.

(** The loop of [parseRSSFeed]: a later item replaces an earlier one
    with the same link. *)
Definition add_item (entries : gmap string FeedEntry) (item : RssItem)
  : gmap string FeedEntry :=
  match item_link item with
  | Some link =>
      if truthy link then <[link := entry_of_item link item]> entries
      else entries
  | None => entries
  end.

Definition parseRSSFeed (svc : Services) (xml : string)
  : M (gmap string FeedEntry) :=
  try_catch
    (match XMLParser_items svc xml with
     | Raised e => throw e
     | Returned None => ret ∅
     | Returned (Some items) => ret (fold_left add_item items ∅)
     end)
    (fun error =>
       await_ console_log "Error parsing RSS feed:";
       ret ∅).

Definition ky_get_request (target : string) : GetRequest :=
  {| get_url := target; get_timeout := 10000; get_retry := 2 |}.

Definition ky_get (svc : Services) (target : string) : M string :=
  external (EvGet target)
    (fun n => ky_get_text svc n (ky_get_request target)).

(** The [element] handler: anchors with a non-empty [href]. *)
Definition pushed_links (hrefs : list (option string)) : list string :=
  omap (fun href => if truthy_opt href then href else None) hrefs.

Definition scrapeMainPage (svc : Services) (target : string)
  : M (list string) :=
  try_catch
    (await html <- ky_get svc target;
     match HTMLRewriter_hrefs svc html with
     | Raised e => throw e
     | Returned hrefs => ret (pushed_links hrefs)
     end)
    (fun error =>
       await_ console_log ("Failed to fetch or parse " +:+ target +:+ ":");
       ret []).

Definition scrapeFeed (svc : Services) (target : string)
  : M (gmap string FeedEntry) :=
  try_catch
    (await xml <- ky_get svc target;
     parseRSSFeed svc xml)
    (fun error =>
       await_ console_log
                ("Failed to fetch or parse feed " +:+ target +:+ ":");
       ret ∅).

Definition fetch_config : StepConfig :=
  {| retries_limit := 3; retries_delay := "5 second";
     retries_backoff := Exponential; step_timeout := None |}.

(** [cachedValues.get(cacheKey) !== null]: a key the [Map] does not hold
    reads as undefined, which is not null. *)
Definition not_null (cachedValues : gmap string (option string))
  (key : string) : bool :=
  match cachedValues !! key with
  | Some None => false
  | _ => true
  end.

(** [processed[link] = flag]: assigning a boolean to [__proto__] changes
    nothing. *)
Definition set_flag (link : string) (flag : bool)
  (processed : gmap string bool) : gmap string bool :=
  if String.eqb link "__proto__" then processed
  else <[link := flag]> processed.

(** Step 3 body. *)
Definition check_processed_articles (articleLinks : list string)
  : M (gmap string bool) :=
  if decide (List.length articleLinks = 0%nat) then ret ∅
  else
    let cacheKeys := map cacheKey articleLinks in
    await cachedValues <- KV_get_bulk cacheKeys;
    ret (fold_left
           (fun processed link =>
              set_flag link (not_null cachedValues (cacheKey link)) processed)
           articleLinks ∅).

(** [processedArticles[link]] as a condition: the flag the object owns, or
    the inherited property, which is truthy. *)
Definition flagged (processedArticles : gmap string bool) (link : string)
  : bool :=
  match processedArticles !! link with
  | Some flag => flag
  | None => inherited link
  end.

(** What the loop of step 4 reads from an inherited property: every field
    is undefined. *)
Definition inherited_entry : FeedEntry :=
  {| fe_title := ""; fe_link := ""; fe_published := ""; fe_summary := "";
     fe_media_content := [] |}.

(** [feedEntries[link]]. *)
Definition entry_at (feedEntries : gmap string FeedEntry) (link : string)
  : option FeedEntry :=
  match feedEntries !! link with
  | Some entry => Some entry
  | None => if inherited link then Some inherited_entry else None
  end.

(** [new Date(s).toISOString()]: a [RangeError] on the invalid date. *)
Definition Date_toISOString (svc : Services) (s : string) : M string :=
  match Date_parse svc s with
  | Some t => ret (ISO_string svc t)
  | None => throw (RangeError "Invalid time value")
  end.

(** The [for] loop of step 4, with [articles] the array built so far. *)
Fixpoint prepare_loop (svc : Services)
  (processedArticles : gmap string bool)
  (feedEntries : gmap string FeedEntry)
  (links : list string) (articles : list Article) : M (list Article) :=
  match links with
  | [] => ret articles
  | link :: rest =>
      if flagged processedArticles link then
        await_ console_log
                 ("Skipping already processed article: " +:+ link);
        prepare_loop svc processedArticles feedEntries rest articles
      else
        match entry_at feedEntries link with
        | None =>
            await_ console_log ("Article not found in feed: " +:+ link);
            prepare_loop svc processedArticles feedEntries rest articles
        | Some entry =>
            await datePublished <-
              (if truthy (fe_published entry)
               then Date_toISOString svc (fe_published entry)
               else
                 await t <- Utils.getCurrentUTCDate;
                 ret (ISO_string svc t));
            prepare_loop svc processedArticles feedEntries rest
              (articles ++
               [{| title := or_else (Some (fe_title entry)) "";
                   url := link;
                   date_published := datePublished;
                   content := or_else (Some (fe_summary entry)) "";
                   image_url :=
                     Some (or_else (head (fe_media_content entry)) "") |}])
        end
  end.

(** Step 4 body. *)
Definition prepare_articles (svc : Services)
  (processedArticles : gmap string bool)
  (feedEntries : gmap string FeedEntry) (articleLinks : list string)
  : M (list Article) :=
  prepare_loop svc processedArticles feedEntries articleLinks [].

Definition crypto_randomUUID (svc : Services) : M string :=
  fun w =>
    (Returned (randomUUID svc (uuids_drawn w)),
     {| now := now w; GH_NEWS_CACHE := GH_NEWS_CACHE w;
        trace := trace w; console := console w;
        uuids_drawn := S (uuids_drawn w) |}).

(** [articlesToProcess.map(article => ({ id: crypto.randomUUID(), ... }))]. *)
Fixpoint batch_data (svc : Services) (articles : list Article)
  : M (list BatchEntry) :=
  match articles with
  | [] => ret []
  | a :: rest =>
      await id <- crypto_randomUUID svc;
      await entries <- batch_data svc rest;
      ret ({| batch_id := id; batch_article := a |} :: entries)
  end.

(** [GH_NEWS_PROCESSOR_WORKFLOW.createBatch]: one instance per entry,
    carrying the entry's id. *)
Definition createBatch (batch : list BatchEntry) : M (list string) :=
  fun w => (Returned (map batch_id batch),
            record_event (EvCreateBatch batch) w).

Record Triggered : Type := {
  trig_url : string;
  processor_id : string;
  status : string;
}.

(** [instances.map((instance, index) => ...)]: reading [.url] of a
    missing array element is a [TypeError]. *)
Fixpoint triggered_from (articlesToProcess : list Article) (index : nat)
  (instances : list string) : M (list Triggered) :=
  match instances with
  | [] => ret []
  | instance :: rest =>
      match articlesToProcess !! index with
      | None => throw (TypeError "Cannot read properties of undefined")
      | Some a =>
          await tail <- triggered_from articlesToProcess (S index) rest;
          ret ({| trig_url := url a; processor_id := instance;
                  status := "triggered" |} :: tail)
      end
  end.

(** Step 5 body. *)
Definition trigger_processors (svc : Services)
  (articlesToProcess : list Article) : M (list Triggered) :=
  if decide (List.length articlesToProcess = 0%nat) then ret []
  else
    await batchData <- batch_data svc articlesToProcess;
    await instances <- createBatch batchData;
    triggered_from articlesToProcess 0 instances.

Record Result : Type := {
  success : bool;
  total_links : nat;
  total_processed : nat;
  processors : list Triggered;
  timestamp : string;
}.

(** Step 1. *)
Definition fetch_article_links (svc : Services)
  (payload : option ScraperParams) : M (list string) :=
  let mainUrl := or_else (payload ≫= main_url) DEFAULT_MAIN_URL in
  step_do "fetch_article_links" fetch_config (scrapeMainPage svc mainUrl).

(** Step 2. *)
Definition fetch_feed_entries (svc : Services)
  (payload : option ScraperParams) : M (gmap string FeedEntry) :=
  let feedUrl := or_else (payload ≫= feed_url) DEFAULT_FEED_URL in
  step_do "fetch_feed_entries" fetch_config (scrapeFeed svc feedUrl).

Definition run (svc : Services) (payload : option ScraperParams)
  : M Result :=
  await articleLinks <- fetch_article_links svc payload;
  await feedEntries <- fetch_feed_entries svc payload;
  await processedArticles <-
    step_do_default svc "check_processed_articles"
      (check_processed_articles articleLinks);
  await articlesToProcess <-
    step_do_default svc "prepare_articles"
      (prepare_articles svc processedArticles feedEntries articleLinks);
  await processorResults <-
    step_do_default svc "trigger_processors"
      (trigger_processors svc articlesToProcess);
  await t <- Utils.getCurrentUTCDate;
  ret {| success := true;
         total_links := List.length articleLinks;
         total_processed := List.length articlesToProcess;
         processors := processorResults;
         timestamp := ISO_string svc t |}.

End JoyNewsScraperWorkflow.

(** * Specification vocabulary *)

(** The cache holds a live (non-expired) entry for the article's URL. *)
Definition live (w : World) (articleUrl : string) : Prop :=
  kv_lookup (now w) (GH_NEWS_CACHE w) ("article:" +:+ articleUrl) <> None.

Definition is_live (t : Z) (kv : gmap string KVEntry) (u : string) : bool :=
  bool_decide (kv_lookup t kv ("article:" +:+ u) <> None).


(** ** Reading a trace *)

Definition is_put (ev : Event) : bool :=
  match ev with EvKVPut _ _ _ => true | _ => false end.

Definition is_send (ev : Event) : bool :=
  match ev with EvSendPhoto _ _ => true | _ => false end.

Definition is_summarize (ev : Event) : bool :=
  match ev with EvGenerateObject _ _ _ => true | _ => false end.

Definition is_cache_read (ev : Event) : bool :=
  match ev with EvKVGet _ _ | EvKVGetBulk _ => true | _ => false end.

(** The Telegram API answered [ok: true]. *)
Definition delivered (o : Outcome TelegramResult) : bool :=
  match o with Returned r => ok r | Raised _ => false end.

Definition sent_ok (ev : Event) : bool :=
  match ev with EvSendPhoto _ o => delivered o | _ => false end.

(** What [summarizeArticle] makes of the model's answer. *)
Definition summary_of (o : Outcome string) : option string :=
  match o with Returned s => Some s | Raised _ => None end.

(** The answer passes the orchestrator's [!summary] test. *)
Definition usable (o : Outcome string) : bool :=
  match o with Returned s => truthy s | Raised _ => false end.

(** The names of the step attempts, in order. *)
Definition steps_of (evs : list Event) : list string :=
  omap (fun ev => match ev with EvStep name => Some name | _ => None end) evs.

(** The article URLs handed to [createBatch], in order. *)
Definition triggered_urls (evs : list Event) : list string :=
  flat_map
    (fun ev =>
       match ev with
       | EvCreateBatch batch => map (fun b => url (batch_article b)) batch
       | _ => []
       end) evs.

(** ** The shapes of a Delivery run *)

Definition first_request (botToken channelId message imageUrl articleUrl
  : string) : SendPhoto :=
  Utils.sendPhoto_request botToken channelId message (encodeURI imageUrl)
    articleUrl 2.

Definition fallback_request (botToken channelId message articleUrl : string)
  : SendPhoto :=
  Utils.sendPhoto_request botToken channelId message Utils.fallbackImageUrl
    articleUrl 3.

(** The calls of one [sendTelegramMessage] and the boolean it returns. *)
Inductive SendShape (first fallback : SendPhoto)
  : list Event -> bool -> Prop :=
| SentFirst o1 :
    delivered o1 = true ->
    SendShape first fallback [EvSendPhoto first o1] true
| TriedFallback o1 o2 sent :
    delivered o1 = false ->
    sent = delivered o2 ->
    SendShape first fallback
      [EvSendPhoto first o1; EvSendPhoto fallback o2] sent.

Definition summarize_event (a : Article) (o : Outcome string) : Event :=
  EvGenerateObject "gemini-2.0-flash"
    ("Provide 2 paragraphs summarizing the following article:"
     +:+ nl +:+ nl +:+ content a) o.

Definition first_send (env : Env) (a : Article) (s : string) : SendPhoto :=
  first_request (TELEGRAM_BOT_TOKEN env) (TELEGRAM_CHANNEL_ID env)
    (GHNewsProcessorWorkflow.telegram_message a s)
    (encodeURI (or_else (image_url a) Utils.fallbackImageUrl)) (url a).

Definition fallback_send (env : Env) (a : Article) (s : string)
  : SendPhoto :=
  fallback_request (TELEGRAM_BOT_TOKEN env) (TELEGRAM_CHANNEL_ID env)
    (GHNewsProcessorWorkflow.telegram_message a s) (url a).

Definition metadata_at (svc : Services) (a : Article) (s : string) (t : Z)
  : string :=
  JSON_stringify svc
    {| processed_at := ISO_string svc t; meta_title := title a;
       meta_url := url a; meta_summary := s |}.

(** Steps 2 to 5 of a Delivery run started on cache [kv]: the outcome, the
    final world and the events it adds. *)
Inductive DeliverShape (svc : Services) (env : Env) (a : Article)
  (kv : gmap string KVEntry)
  : Outcome GHNewsProcessorWorkflow.Result -> World -> list Event -> Prop :=
| NoSummary o w' :
    usable o = false ->
    GH_NEWS_CACHE w' = kv ->
    DeliverShape svc env a kv
      (Raised (GHNewsProcessorWorkflow.summary_error a)) w'
      [EvStep "generate_summary"; summarize_event a o]
| Unencodable s w' :
    truthy s = true ->
    lone_surrogate (or_else (image_url a) Utils.fallbackImageUrl) = true ->
    GH_NEWS_CACHE w' = kv ->
    DeliverShape svc env a kv (Raised (URIError "URI malformed")) w'
      ([EvStep "generate_summary"; summarize_event a (Returned s);
        EvStep "create_message"] ++
       repeat (EvStep "send_telegram_message") 6)
| NotSent s sends w' :
    truthy s = true ->
    lone_surrogate (or_else (image_url a) Utils.fallbackImageUrl) = false ->
    SendShape (first_send env a s) (fallback_send env a s) sends false ->
    GH_NEWS_CACHE w' = kv ->
    DeliverShape svc env a kv
      (Raised (GHNewsProcessorWorkflow.send_error a)) w'
      ([EvStep "generate_summary"; summarize_event a (Returned s);
        EvStep "create_message"; EvStep "send_telegram_message"] ++ sends)
| Sent s sends w' :
    truthy s = true ->
    lone_surrogate (or_else (image_url a) Utils.fallbackImageUrl) = false ->
    SendShape (first_send env a s) (fallback_send env a s) sends true ->
    GH_NEWS_CACHE w' =
      kv_insert (now w') ("article:" +:+ url a)
        (metadata_at svc a s (now w')) 86400 kv ->
    DeliverShape svc env a kv
      (Returned (GHNewsProcessorWorkflow.Processed true (url a) (title a) s
                   true (ISO_string svc (now w')))) w'
      ([EvStep "generate_summary"; summarize_event a (Returned s);
        EvStep "create_message"; EvStep "send_telegram_message"] ++ sends ++
       [EvStep "mark_as_processed";
        EvKVPut ("article:" +:+ url a) (metadata_at svc a s (now w')) 86400]).

Definition idempotency_check (a : Article) (cached : option string)
  : list Event :=
  [EvStep "check_if_processed"; EvKVGet ("article:" +:+ url a) cached].

(** A whole Delivery run. *)
Inductive RunShape (svc : Services) (env : Env) (p : ProcessorParams)
  (w : World)
  : Outcome GHNewsProcessorWorkflow.Result -> World -> list Event -> Prop :=
| AlreadyProcessed cached w' :
    reprocess p <> Some true ->
    kv_lookup (now w) (GH_NEWS_CACHE w) ("article:" +:+ url (article p))
      = Some cached ->
    GH_NEWS_CACHE w' = GH_NEWS_CACHE w ->
    RunShape svc env p w
      (Returned (GHNewsProcessorWorkflow.Skipped true true
                   "Article already processed" (url (article p)))) w'
      (idempotency_check (article p) (Some cached))
| NotYetProcessed out w' evs :
    reprocess p <> Some true ->
    kv_lookup (now w) (GH_NEWS_CACHE w) ("article:" +:+ url (article p))
      = None ->
    DeliverShape svc env (article p) (GH_NEWS_CACHE w) out w' evs ->
    RunShape svc env p w out w' (idempotency_check (article p) None ++ evs)
| Reprocessed out w' evs :
    reprocess p = Some true ->
    DeliverShape svc env (article p) (GH_NEWS_CACHE w) out w' evs ->
    RunShape svc env p w out w' evs.

(** ** Article assembly, read off the loop of step 4 *)

(** Worlds that differ at most in their console. *)
Record quiet (w w' : World) : Prop := {
  quiet_now : now w' = now w;
  quiet_cache : GH_NEWS_CACHE w' = GH_NEWS_CACHE w;
  quiet_trace : trace w' = trace w;
  quiet_uuids : uuids_drawn w' = uuids_drawn w;
}.

(** Worlds with the same cache and the same instances triggered so far. *)
Record untouched (w w' : World) : Prop := {
  untouched_cache : GH_NEWS_CACHE w' = GH_NEWS_CACHE w;
  untouched_triggered : triggered_urls (trace w') = triggered_urls (trace w);
}.

(** The feed entry has a publish date that [new Date] cannot read. *)
Definition unconvertible (svc : Services)
  (entry : JoyNewsScraperWorkflow.FeedEntry) : Prop :=
  truthy (JoyNewsScraperWorkflow.fe_published entry) = true
  /\ Date_parse svc (JoyNewsScraperWorkflow.fe_published entry) = None.

(** [date_published] of an assembled article, at clock [t]. *)
Definition date_text (svc : Services) (t : Z) (published : string) : string :=
  if truthy published
  then from_option (ISO_string svc) "" (Date_parse svc published)
  else ISO_string svc t.

Definition article_of (svc : Services) (t : Z) (link : string)
  (entry : JoyNewsScraperWorkflow.FeedEntry) : Article :=
  {| title := JoyNewsScraperWorkflow.fe_title entry;
     url := link;
     date_published :=
       date_text svc t (JoyNewsScraperWorkflow.fe_published entry);
     content := JoyNewsScraperWorkflow.fe_summary entry;
     image_url :=
       Some (or_else
               (head (JoyNewsScraperWorkflow.fe_media_content entry)) "") |}.

Definition assemble (svc : Services) (t : Z) (processed : gmap string bool)
  (feed : gmap string JoyNewsScraperWorkflow.FeedEntry) (link : string)
  : option Article :=
  if JoyNewsScraperWorkflow.flagged processed link then None
  else article_of svc t link <$> JoyNewsScraperWorkflow.entry_at feed link.

(** What step 3 makes step 4 see for a listed link: its cache entry is
    live, or it is [__proto__], whose flag is not kept. *)
Definition marked (t : Z) (kv : gmap string KVEntry) (u : string) : bool :=
  String.eqb u "__proto__" || is_live t kv u.

(** The URL has no live cache entry and the feed mapping holds it. *)
Definition eligible (w : World)
  (feed : gmap string JoyNewsScraperWorkflow.FeedEntry) (u : string) : bool :=
  negb (is_live (now w) (GH_NEWS_CACHE w) u)
  && bool_decide (is_Some (feed !! u)).

Definition triggered_record (a : Article) (instance : string)
  : JoyNewsScraperWorkflow.Triggered :=
  {| JoyNewsScraperWorkflow.trig_url := url a;
     JoyNewsScraperWorkflow.processor_id := instance;
     JoyNewsScraperWorkflow.status := "triggered" |}.

(** The console line of step 4 for a link it does not assemble. *)
Definition log_line (processed : gmap string bool)
  (feed : gmap string JoyNewsScraperWorkflow.FeedEntry) (link : string)
  : option string :=
  if JoyNewsScraperWorkflow.flagged processed link
  then Some ("Skipping already processed article: " +:+ link)
  else
    match JoyNewsScraperWorkflow.entry_at feed link with
    | None => Some ("Article not found in feed: " +:+ link)
    | Some _ => None
    end.

(** ** Concrete services and worlds for the examples *)

Module Sample.

Definition page_a : string := "https://x/a".
Definition page_b : string := "https://x/b".
Definition page_c : string := "https://x/c".

Definition stamp : string := "Mon, 02 Nov 2026 12:00:00 GMT".

(** [new Date] on the two strings the examples use: [stamp] is a valid
    date, ["soon"] is not. *)
Definition parse_date (s : string) : option Z :=
  if String.eqb s stamp then Some 1793620800000 else None.

(** [toISOString] on the two time values the examples use. *)
Definition iso_string (t : Z) : string :=
  if t =? 1793620800000 then "2026-11-02T12:00:00.000Z"
  else "1970-01-01T00:00:00.000Z".

(** A stand-in for [JSON.stringify]: the fields, separated. *)
Definition stringify (m : Metadata) : string :=
  processed_at m +:+ "|" +:+ meta_title m +:+ "|" +:+ meta_url m
  +:+ "|" +:+ meta_summary m.

(** Services in which every call takes no time: the model answers
    [summary], the Telegram API answers [post], the listing page holds
    [hrefs] and the feed holds [items]. *)
Definition services (summary : Outcome string)
  (post : SendPhoto -> Outcome TelegramResult)
  (hrefs : list (option string)) (items : list RssItem) : Services :=
  {| generateObject := fun _ _ _ => {| outcome := summary; elapsed := 0 |};
     ky_post_json := fun _ req => {| outcome := post req; elapsed := 0 |};
     ky_get_text :=
       fun _ req => {| outcome := Returned (get_url req); elapsed := 0 |};
     HTMLRewriter_hrefs := fun _ => Returned hrefs;
     XMLParser_items := fun _ => Returned (Some items);
     randomUUID := fun n => "instance-" +:+ String.concat "" (repeat "i" n);
     Date_parse := parse_date;
     ISO_string := iso_string;
     JSON_stringify := stringify;
     default_retry_limit := 5 |}.

Definition accepted : Outcome TelegramResult :=
  Returned {| ok := true; description := None |}.

Definition rejected : Outcome TelegramResult :=
  Returned {| ok := false; description := Some "wrong file identifier" |}.

Definition item (link pubDate : string) : RssItem :=
  {| item_link := Some link; item_title := Some "Headline";
     item_pubDate := Some pubDate; item_description := Some "Body";
     item_media_content := Some (Some "https://x/img.jpg") |}.

Definition env : Env :=
  {| TELEGRAM_BOT_TOKEN := "token"; TELEGRAM_CHANNEL_ID := "@channel" |}.

Definition article_a : Article :=
  {| title := "Headline"; url := page_a;
     date_published := "2026-11-02T12:00:00.000Z"; content := "Body";
     image_url := Some "https://x/img.jpg" |}.

(** An empty cache at instant 0. *)
Definition fresh : World :=
  {| now := 0; GH_NEWS_CACHE := ∅; trace := []; console := [];
     uuids_drawn := 0 |}.

(** The cache holds [key], written at instant 0 for 24 hours. *)
Definition holding (key : string) : World :=
  {| now := 0;
     GH_NEWS_CACHE := kv_insert 0 key "delivered" 86400 ∅;
     trace := []; console := []; uuids_drawn := 0 |}.

(** Every service works. *)
Definition working : Services :=
  services (Returned "Two paragraphs.") (fun _ => accepted) [] [].


(** Working services whose listing page holds [hrefs] and whose feed
    holds [items]. *)
Definition site (hrefs : list (option string)) (items : list RssItem)
  : Services :=
  services (Returned "Two paragraphs.") (fun _ => accepted) hrefs items.


(** Three links; the feed lacks the second. *)
Definition three : Services :=
  site [Some page_a; Some page_b; Some page_c]
    [item page_a stamp; item page_c stamp].

(** One link, whose feed entry carries a date that is not one. *)
Definition undated : Services :=
  site [Some page_a] [item page_a "soon"].

(** As [undated], followed by a link the feed lacks. *)
Definition undated_then_absent : Services :=
  site [Some page_a; Some page_b] [item page_a "soon"].

Definition unit_a : ProcessorParams :=
  {| article := article_a; reprocess := None |}.


End Sample.

(** * The routes, the schedule and the single-photo utilities *)

(** ** src/worker/utils.ts, the single-photo variant

    The file also holds a variant of its two functions that names another
    model and sends the photo once, without a fallback image. *)

Module UtilsSinglePhoto.

Definition GEMINI_MODEL : string := "gemini-2.5-flash-preview-04-17".

Definition summarizeArticle (svc : Services) (content : string)
  : M (option string) :=
  try_catch
    (await summary <-
       external (EvGenerateObject GEMINI_MODEL (Utils.summary_prompt content))
         (fun n => generateObject svc n GEMINI_MODEL
                     (Utils.summary_prompt content));
     ret (Some summary))
    (fun error =>
       await_ console_log "Summarization failed:";
       ret None).

(** [sendTelegramMessage], on an image URL that can be encoded: its caller
    passes the output of [encodeURI]. *)
Definition sendTelegramMessage (svc : Services)
  (botToken channelId message imageUrl articleUrl : string) : M bool :=
  try_catch
    (let encodedImageUrl := encodeURI imageUrl in
     await result <-
       Utils.post svc (Utils.sendPhoto_request botToken channelId message
                         encodedImageUrl articleUrl 3);
     if negb (ok result) then
       await_ console_log "Telegram API error:";
       ret false
     else ret true)
    (fun error =>
       await_ console_log "Error sending Telegram message:";
       ret false).

End UtilsSinglePhoto.

(** ** src/worker/index.ts

    The handlers of the HTTP routes and of the schedule. A handler takes the
    calls made on the workflow bindings so far and the world, and gives its
    response with what it leaves behind. *)

Module Index.

(** The JSON body of [POST /api/workflows/processor]. *)
Record ProcessorBody : Type := {
  body_url : option string;
  body_title : option string;
  body_content : option string;
  body_image_url : option string;
  body_reprocess : option bool;
}.

(** The objects the handlers pass to [c.json]. *)
Inductive Payload : Type :=
| ScraperStarted (success : bool) (workflow_id message : string)
| ProcessorStarted (success : bool) (workflow_id message : string)
    (reprocessing : bool)
| Failure (success : bool) (error : string)
| StatusReport (success : bool) (workflow_id workflow_type status : string).

Record Response : Type := {
  http_status : nat;
  payload : Payload;
}.

(** A call on a workflow binding, with its answer: the id of the created
    instance, or for [get] the instance (null when there is none) as the
    outcome of its [status()]. *)
Inductive Call : Type :=
| CreateScraper (id : string) (params : option ScraperParams)
    (answer : Outcome string)
| CreateProcessor (id : string) (params : ProcessorParams)
    (answer : Outcome string)
| GetInstance (workflow id : string)
    (answer : Outcome (option (Outcome string))).

(** The two workflow bindings, answering by call number. *)
Record Workflows : Type := {
  scraper_create : nat -> string -> option ScraperParams -> Outcome string;
  processor_create : nat -> string -> ProcessorParams -> Outcome string;
  instance_get : nat -> string -> string -> Outcome (option (Outcome string));
}.

(** What a handler leaves behind: the calls made so far and the world. *)
Definition Server : Type := (list Call * World)%type.

(** [error instanceof Error ? error.message : 'Unknown error']; every
    exception of the embedding is an [Error] object. *)
Definition message_of (e : Exn) : string :=
  match e with
  | Error m | RangeError m | TypeError m | URIError m | External m => m
  end.

Definition failed (code : nat) (error : string) : Response :=
  {| http_status := code; payload := Failure false error |}.

Definition logged (line : string) (w : World) : World :=
  snd (console_log line w).

(** [crypto.randomUUID()]: the next draw. *)
Definition draw (svc : Services) (w : World) : string * World :=
  (randomUUID svc (uuids_drawn w),
   snd (JoyNewsScraperWorkflow.crypto_randomUUID svc w)).

(** [app.post('/api/workflows/scraper')]; [body] is the outcome of
    [c.req.json()], replaced by the empty object when it fails. *)
Definition start_scraper (wf : Workflows) (svc : Services)
  (body : Outcome ScraperParams) (s : Server) : Response * Server :=
  let '(calls, w) := s in
  let params :=
    match body with
    | Returned b => b
    | Raised _ => {| main_url := None; feed_url := None |}
    end in
  let '(id, w1) := draw svc w in
  let answer := scraper_create wf (List.length calls) id (Some params) in
  let calls1 := calls ++ [CreateScraper id (Some params) answer] in
  match answer with
  | Returned instance =>
      ({| http_status := 200;
          payload := ScraperStarted true instance
                       "News scraper workflow started" |},
       (calls1, w1))
  | Raised error =>
      (failed 500 (message_of error),
       (calls1, logged "Error starting scraper workflow:" w1))
  end.

(** [app.post('/api/workflows/processor')]. *)
Definition start_processor (wf : Workflows) (svc : Services)
  (body : Outcome ProcessorBody) (s : Server) : Response * Server :=
  let '(calls, w) := s in
  match body with
  | Raised error =>
      (failed 500 (message_of error),
       (calls, logged "Error starting processor workflow:" w))
  | Returned b =>
      let reprocess := default false (body_reprocess b) in
      if negb (truthy_opt (body_url b)) || negb (truthy_opt (body_title b))
         || negb (truthy_opt (body_content b))
      then
        (failed 400
           "Missing required parameters: url, title, and content are required",
         (calls, w))
      else
        let article :=
          {| url := default "" (body_url b);
             title := default "" (body_title b);
             content := default "" (body_content b);
             image_url := Some (or_else (body_image_url b) "");
             date_published := ISO_string svc (now w) |} in
        let '(id, w1) := draw svc w in
        let params := {| article := article; reprocess := Some reprocess |} in
        let answer := processor_create wf (List.length calls) id params in
        let calls1 := calls ++ [CreateProcessor id params answer] in
        match answer with
        | Returned instance =>
            ({| http_status := 200;
                payload := ProcessorStarted true instance
                             "News processor workflow started"
                             (if reprocess then true else false) |},
             (calls1, w1))
        | Raised error =>
            (failed 500 (message_of error),
             (calls1, logged "Error starting processor workflow:" w1))
        end
  end.

Definition quote : string := String "034" EmptyString.

Definition invalid_type : string :=
  "Invalid workflow type. Use " +:+ quote +:+ "scraper" +:+ quote +:+ " or "
  +:+ quote +:+ "processor" +:+ quote.

(** [app.get('/api/workflows/:type/:id')]. *)
Definition get_status (wf : Workflows) (type id : string) (s : Server)
  : Response * Server :=
  let '(calls, w) := s in
  let workflow :=
    if String.eqb type "scraper" then Some "JOY_NEWS_SCRAPER_WORKFLOW"
    else if String.eqb type "processor"
         then Some "GH_NEWS_PROCESSOR_WORKFLOW"
         else None in
  match workflow with
  | None => (failed 400 invalid_type, (calls, w))
  | Some binding =>
      let answer := instance_get wf (List.length calls) binding id in
      let calls1 := calls ++ [GetInstance binding id answer] in
      match answer with
      | Raised error =>
          (failed 500 (message_of error),
           (calls1, logged "Error getting workflow status:" w))
      | Returned None =>
          (failed 404 "Workflow instance not found", (calls1, w))
      | Returned (Some (Raised error)) =>
          (failed 500 (message_of error),
           (calls1, logged "Error getting workflow status:" w))
      | Returned (Some (Returned status)) =>
          ({| http_status := 200;
              payload := StatusReport true id type status |},
           (calls1, w))
      end
  end.

(** The [scheduled] handler: the instance is created without params. *)
Definition scheduled (wf : Workflows) (svc : Services) (s : Server)
  : Server :=
  let '(calls, w) := s in
  let '(id, w1) := draw svc w in
  let answer := scraper_create wf (List.length calls) id None in
  let calls1 := calls ++ [CreateScraper id None answer] in
  match answer with
  | Returned instance =>
      (calls1, logged "Scheduled news scraping started:" w1)
  | Raised error => (calls1, logged "Error in scheduled scraping:" w1)
  end.

End Index.

(** ** Vocabulary for whole runs *)

(** Every byte of the text is one [encodeURI] keeps. *)
Fixpoint all_kept (s : string) : bool :=
  match s with
  | EmptyString => true
  | String c rest => uri_kept c && all_kept rest
  end.

(** The number of bytes [encodeURI] escapes. *)
Fixpoint escaped (s : string) : nat :=
  match s with
  | EmptyString => 0%nat
  | String c rest => ((if uri_kept c then 0 else 1) + escaped rest)%nat
  end.

Definition is_fetch (ev : Event) : bool :=
  match ev with EvGet _ _ => true | _ => false end.

Definition is_batch (ev : Event) : bool :=
  match ev with EvCreateBatch _ => true | _ => false end.



Definition main_target (payload : option ScraperParams) : string :=
  match payload with
  | Some {| main_url := Some u |} =>
      if truthy u then u else "https://www.myjoyonline.com/"
  | _ => "https://www.myjoyonline.com/"
  end.

Definition feed_target (payload : option ScraperParams) : string :=
  match payload with
  | Some {| feed_url := Some u |} =>
      if truthy u then u else "https://www.myjoyonline.com/feed/"
  | _ => "https://www.myjoyonline.com/feed/"
  end.

(** [unconvertible], as a test. *)
Definition unreadable (svc : Services)
  (entry : JoyNewsScraperWorkflow.FeedEntry) : bool :=
  truthy (JoyNewsScraperWorkflow.fe_published entry)
  && negb (bool_decide
             (is_Some (Date_parse svc
                         (JoyNewsScraperWorkflow.fe_published entry)))).

(** Some link that step 4 selects has a date that does not convert. *)
Definition blocked (svc : Services) (w : World)
  (feed : gmap string JoyNewsScraperWorkflow.FeedEntry)
  (links : list string) : bool :=
  existsb
    (fun u =>
       negb (marked (now w) (GH_NEWS_CACHE w) u)
       && from_option (unreadable svc) false
            (JoyNewsScraperWorkflow.entry_at feed u)) links.

(** The bulk read of step 3: none for an empty listing. *)
Definition bulk_read (links : list string) : list Event :=
  match links with
  | [] => []
  | _ => [EvKVGetBulk (map (fun link => "article:" +:+ link) links)]
  end.

(** The listing is longer than the store reads at once. *)
Definition crowded (links : list string) : bool :=
  (100 <? List.length links)%nat.

(** The attempts of step 3 on a listing the store rejects. *)
Definition rejected_reads (svc : Services) (links : list string)
  : list Event :=
  concat
    (repeat
       [EvStep "check_processed_articles";
        EvKVGetBulk (map (fun link => "article:" +:+ link) links)]
       (S (default_retry_limit svc))).

(** The batch of step 5, drawing ids from draw number [n] on. *)
Fixpoint batch_of (svc : Services) (n : nat) (articles : list Article)
  : list BatchEntry :=
  match articles with
  | [] => []
  | a :: rest =>
      {| batch_id := randomUUID svc n; batch_article := a |}
        :: batch_of svc (S n) rest
  end.

(** The [createBatch] call of step 5: none for an empty batch. *)
Definition batch_call (batch : list BatchEntry) : list Event :=
  match batch with
  | [] => []
  | _ => [EvCreateBatch batch]
  end.

(** The articles step 4 assembles in world [w]. *)
Definition selected (svc : Services) (w : World)
  (feed : gmap string JoyNewsScraperWorkflow.FeedEntry)
  (links : list string) : list Article :=
  omap (fun u =>
          if marked (now w) (GH_NEWS_CACHE w) u then None
          else article_of svc (now w) u
                 <$> JoyNewsScraperWorkflow.entry_at feed u) links.

(** The console line step 4 leaves for a listed link, if any. *)
Definition notice (w : World)
  (feed : gmap string JoyNewsScraperWorkflow.FeedEntry) (u : string)
  : option string :=
  if marked (now w) (GH_NEWS_CACHE w) u
  then Some ("Skipping already processed article: " +:+ u)
  else
    match JoyNewsScraperWorkflow.entry_at feed u with
    | None => Some ("Article not found in feed: " +:+ u)
    | Some _ => None
    end.

Definition triggered_of (b : BatchEntry) : JoyNewsScraperWorkflow.Triggered :=
  triggered_record (batch_article b) (batch_id b).

(** The body names a URL, a title and a content. *)
Definition complete (b : Index.ProcessorBody) : bool :=
  truthy_opt (Index.body_url b) && truthy_opt (Index.body_title b)
  && truthy_opt (Index.body_content b).

(** The params the processor route creates an instance with. *)
Definition requested (b : Index.ProcessorBody) (stamp : string)
  : ProcessorParams :=
  {| article :=
       {| title := default "" (Index.body_title b);
          url := default "" (Index.body_url b);
          date_published := stamp;
          content := default "" (Index.body_content b);
          image_url := Some (or_else (Index.body_image_url b) "") |};
     reprocess := Some (default false (Index.body_reprocess b)) |}.

(** ** Sample data for the routes and the edge cases *)

Module Scenario.


(** The listing page is empty. *)
Definition bare : Services := Sample.site [] [Sample.item Sample.page_a Sample.stamp].



(** Bindings that create what they are asked to. *)
Definition bindings : Index.Workflows :=
  {| Index.scraper_create := fun _ id _ => Returned id;
     Index.processor_create := fun _ id _ => Returned id;
     Index.instance_get := fun _ _ _ => Returned None |}.

Definition body_a : Index.ProcessorBody :=
  {| Index.body_url := Some Sample.page_a;
     Index.body_title := Some "Headline";
     Index.body_content := Some "Body";
     Index.body_image_url := None;
     Index.body_reprocess := None |}.

Definition untitled : Index.ProcessorBody :=
  {| Index.body_url := Some Sample.page_a;
     Index.body_title := Some "";
     Index.body_content := Some "Body";
     Index.body_image_url := None;
     Index.body_reprocess := None |}.

(** The code unit D800 on its own, as JSON.parse reads the escape of it. *)
Definition lone : string :=
  String "237" (String "160" (String "128" EmptyString)).

(** An article whose image URL is that code unit. *)
Definition unencodable : ProcessorParams :=
  {| article :=
       {| title := "Headline"; url := Sample.page_a;
          date_published := "2026-11-02T12:00:00.000Z"; content := "Body";
          image_url := Some lone |};
     reprocess := None |}.

(** Telegram cannot be reached: every request fails in the network. *)
Definition offline : Services :=
  Sample.services (Returned "Two paragraphs.")
    (fun _ => Raised (External "fetch failed")) [] [].

(** A listing of 101 links. *)
Definition long_listing : Services :=
  Sample.site (repeat (Some Sample.page_a) 101)
    [Sample.item Sample.page_a Sample.stamp].

(** The listing links [constructor], which the feed does not hold. *)
Definition inheriting : Services :=
  Sample.site [Some "constructor"] [].

End Scenario.

(** * Properties *)

(** ** Running computations *)

Lemma bind_returned {A B} (m : M A) (k : A -> M B) w a w1 :
  m w = (Returned a, w1) -> bind m k w = k a w1.
Proof. intros H. unfold bind. rewrite H. reflexivity. Qed.

Lemma bind_raised {A B} (m : M A) (k : A -> M B) w e w1 :
  m w = (Raised e, w1) -> bind m k w = (Raised e, w1).
Proof. intros H. unfold bind. rewrite H. reflexivity. Qed.

(** A body that returns is attempted once, whatever the retry limit. *)
Lemma attempt_returned {A} name n (body : M A) w a w' :
  body (record_event (EvStep name) w) = (Returned a, w') ->
  attempt name n body w = (Returned a, w').
Proof. intros H. destruct n; simpl; rewrite H; reflexivity. Qed.

Lemma step_returned {A} name config (body : M A) w a w' :
  body (record_event (EvStep name) w) = (Returned a, w') ->
  step_do name config body w = (Returned a, w').
Proof. apply attempt_returned. Qed.

Lemma step_default_returned {A} svc name (body : M A) w a w' :
  body (record_event (EvStep name) w) = (Returned a, w') ->
  step_do_default svc name body w = (Returned a, w').
Proof. apply attempt_returned. Qed.

(** A body that raises is attempted [1 + n] times: the engine does retry. *)
Lemma attempt_always_raising {A} name e n w :
  exists w',
    attempt (A:=A) name n (throw e) w = (Raised e, w')
    /\ trace w' = trace w ++ repeat (EvStep name) (S n).
Proof.
  revert w. induction n as [|n IH]; intros w.
  - eexists. split; reflexivity.
  - destruct (IH (record_event (EvStep name) w)) as (w' & Hrun & Ht).
    exists w'. split.
    + cbn [attempt]. unfold throw at 1. exact Hrun.
    + rewrite Ht. cbn. rewrite <- app_assoc. reflexivity.
Qed.

(** A body that raises from every world, leaving all but the console as it
    was, exhausts the retries. *)
Lemma attempt_raising {A} name (body : M A) e :
  (forall w, exists w', body w = (Raised e, w') /\ quiet w w') ->
  forall n w,
  exists w',
    attempt name n body w = (Raised e, w')
    /\ now w' = now w
    /\ GH_NEWS_CACHE w' = GH_NEWS_CACHE w
    /\ uuids_drawn w' = uuids_drawn w
    /\ trace w' = trace w ++ repeat (EvStep name) (S n).
Proof.
  intros Hbody. induction n as [|n IH]; intros w.
  - destruct (Hbody (record_event (EvStep name) w))
      as (w' & Hrun & [Hn Hc Ht Hu]).
    exists w'. cbn [attempt]. rewrite Hrun. repeat split; auto.
  - destruct (Hbody (record_event (EvStep name) w))
      as (w1 & Hrun & [Hn Hc Ht Hu]).
    destruct (IH w1) as (w' & Hrest & Hn' & Hc' & Hu' & Ht').
    cbn in Hn, Hc, Ht, Hu.
    exists w'. cbn [attempt]. rewrite Hrun.
    split; [exact Hrest|]. split; [congruence|]. split; [congruence|].
    split; [congruence|].
    rewrite Ht', Ht. cbn. rewrite <- app_assoc. reflexivity.
Qed.

Ltac answer f :=
  match goal with
  | |- context [f ?svc ?n ?req] =>
      let dt := fresh "dt" in
      destruct (f svc n req) as [[?|?] dt]; cbn
  end.

Ltac is_ok :=
  match goal with
  | |- context [ok ?r] =>
      is_var r; let Hok := fresh "Hok" in destruct (ok r) eqn:Hok; cbn
  end.

Ltac new_events :=
  cbn [trace record_event advance]; rewrite <- ?app_assoc; reflexivity.

Ltac use_delivered :=
  repeat match goal with
    | Hd : delivered _ = _ |- _ => rewrite Hd in *; clear Hd
    | Hd : _ = delivered _ |- _ => rewrite <- Hd in *; clear Hd
    end.

Ltac invert_shapes :=
  repeat match goal with
    | H : RunShape _ _ _ _ _ _ _ |- _ => inversion H; subst; clear H
    | H : DeliverShape _ _ _ _ _ _ _ |- _ => inversion H; subst; clear H
    | H : SendShape _ _ _ _ |- _ => inversion H; subst; clear H
    end.

(** ** utils.ts *)

Lemma summarizeArticle_run svc c w :
  exists o w',
    Utils.summarizeArticle svc c w = (Returned (summary_of o), w')
    /\ trace w' = trace w ++
         [EvGenerateObject Utils.GEMINI_MODEL (Utils.summary_prompt c) o]
    /\ GH_NEWS_CACHE w' = GH_NEWS_CACHE w.
Proof.
  unfold Utils.summarizeArticle, try_catch, bind, external.
  match goal with
  | |- context [generateObject ?s ?n ?m ?p] =>
      destruct (generateObject s n m p) as [o dt]
  end.
  exists o. destruct o; cbn; eexists; (split; [reflexivity|]);
    split; try new_events; reflexivity.
Qed.

(** The requests of this program list the method as [POST], which is not
    the name [ky] looks for: no request is repeated. *)
Lemma no_retries tok ch msg img u n :
  Utils.ky_retries "post" (Utils.sendPhoto_request tok ch msg img u n)
  = 0%nat.
Proof. reflexivity. Qed.

Lemma post_once svc tok ch msg img u n w :
  Utils.post svc (Utils.sendPhoto_request tok ch msg img u n) w
  = external (EvSendPhoto (Utils.sendPhoto_request tok ch msg img u n))
      (fun k => ky_post_json svc k (Utils.sendPhoto_request tok ch msg img u n))
      w.
Proof.
  unfold Utils.post. rewrite no_retries. cbn [Utils.ky_request].
  destruct (external _ _ w) as [[result|e] w']; reflexivity.
Qed.

(** What [encodeURI] returns is plain ASCII: it can be encoded again. *)
Lemma hex_digit_ascii n : (N_of_ascii (hex_digit n) <? 128)%N = true.
Proof.
  destruct n as [|p]; [reflexivity|].
  do 4 (destruct p as [p|p|]; try reflexivity).
Qed.

Lemma uri_kept_ascii c : uri_kept c = true -> (N_of_ascii c <? 128)%N = true.
Proof.
  destruct c as [[] [] [] [] [] [] [] []]; vm_compute; congruence.
Qed.

Lemma encodeURI_ascii s : ascii_only (encodeURI s) = true.
Proof.
  induction s as [|c rest IH]; [reflexivity|].
  cbn [encodeURI]. destruct (uri_kept c) eqn:Hc.
  - cbn [ascii_only]. rewrite (uri_kept_ascii c Hc), IH. reflexivity.
  - cbn [ascii_only]. rewrite !hex_digit_ascii, IH. reflexivity.
Qed.

Lemma ascii_no_surrogate s :
  ascii_only s = true -> lone_surrogate s = false.
Proof.
  induction s as [|c rest IH]; [reflexivity|].
  cbn [ascii_only lone_surrogate]. intros H.
  apply andb_true_iff in H as [Hc Hrest].
  destruct rest as [|d rest']; [reflexivity|].
  rewrite (IH Hrest), orb_false_r.
  apply N.ltb_lt in Hc.
  destruct (N.eqb_spec (N_of_ascii c) 237) as [Heq|]; [lia|reflexivity].
Qed.

Lemma encodeURI_no_surrogate s : lone_surrogate (encodeURI s) = false.
Proof. apply ascii_no_surrogate, encodeURI_ascii. Qed.

Lemma sendTelegramMessage_shape svc tok ch msg img u w :
  lone_surrogate img = false ->
  exists sent w' evs,
    Utils.sendTelegramMessage svc tok ch msg img u w = (Returned sent, w')
    /\ trace w' = trace w ++ evs
    /\ GH_NEWS_CACHE w' = GH_NEWS_CACHE w
    /\ SendShape (first_request tok ch msg img u)
         (fallback_request tok ch msg u) evs sent.
Proof.
  intros Hfine.
  unfold Utils.sendTelegramMessage, try_catch, bind, call_encodeURI.
  rewrite Hfine. cbn [ret]. rewrite !post_once.
  unfold external.
  answer ky_post_json; [is_ok|]; rewrite ?post_once; unfold external;
    try (answer ky_post_json; [is_ok|]).
  all: do 3 eexists; split; [reflexivity|]; split; [new_events|];
    split; [reflexivity|].
  all: first [ by apply SentFirst | by eapply TriedFallback ].
Qed.

(** An image URL that cannot be encoded: [sendTelegramMessage] catches the
    [URIError], makes no request and returns false. *)
Lemma sendTelegramMessage_unencodable svc tok ch msg img u w :
  lone_surrogate img = true ->
  exists w',
    Utils.sendTelegramMessage svc tok ch msg img u w = (Returned false, w')
    /\ trace w' = trace w
    /\ GH_NEWS_CACHE w' = GH_NEWS_CACHE w
    /\ console w' = console w ++ ["Error sending Telegram message:"].
Proof.
  intros Hlone.
  unfold Utils.sendTelegramMessage, try_catch, bind, call_encodeURI.
  rewrite Hlone. eexists. split; [reflexivity|]. repeat split.
Qed.

(** For an image URL it can encode, [sendTelegramMessage] never raises. It
    first posts the supplied image (encoded); when that request fails, by an
    exception or by an answer that is not ok, it posts exactly once more,
    with the fixed fallback image, and nothing else changes in the request.
    It returns true exactly when one of the requests it made was answered
    ok, so false only when both failed. Each request carries a retry limit
    of its own, 2 and 3, and is made once: the send makes one HTTP request
    or two, never more. *)
Lemma fallback_image_tried_once svc botToken channelId message imageUrl
  articleUrl w :
  lone_surrogate imageUrl = false ->
  let first := first_request botToken channelId message imageUrl articleUrl in
  let fallback := fallback_request botToken channelId message articleUrl in
  exists sent w' evs o1,
    Utils.sendTelegramMessage svc botToken channelId message imageUrl
      articleUrl w = (Returned sent, w')
    /\ trace w' = trace w ++ evs
    /\ (delivered o1 = true -> evs = [EvSendPhoto first o1])
    /\ (delivered o1 = false ->
        exists o2, evs = [EvSendPhoto first o1; EvSendPhoto fallback o2])
    /\ sent = existsb sent_ok evs
    /\ photo first = encodeURI imageUrl
    /\ retry_limit first = 2%nat
    /\ photo fallback =
         "https://images.unsplash.com/photo-1504711434969-e33886168f5c?ixlib=rb-4.0.3&q=80&fm=jpg&crop=entropy&cs=tinysrgb&w=800&h=400&fit=crop"
    /\ retry_limit fallback = 3%nat
    /\ (endpoint fallback, chat_id fallback, caption fallback,
        reply_markup_url fallback)
       = (endpoint first, chat_id first, caption first,
          reply_markup_url first).
Proof.
  intros Hfine first fallback.
  destruct (sendTelegramMessage_shape svc botToken channelId message imageUrl
              articleUrl w Hfine)
    as (sent & w' & evs & Hrun & Htrace & _ & Hshape).
  fold first fallback in Hshape.
  inversion Hshape as [o1 Hfirst | o1 o2 ? Hfirst Hsent]; subst.
  - exists true, w', [EvSendPhoto first o1], o1.
    split; [exact Hrun|]. split; [exact Htrace|].
    split; [reflexivity|]. split; [congruence|].
    split; [cbn; rewrite Hfirst; reflexivity|]. repeat split.
  - exists (delivered o2), w',
      [EvSendPhoto first o1; EvSendPhoto fallback o2], o1.
    split; [exact Hrun|]. split; [exact Htrace|].
    split; [congruence|]. split; [eauto|].
    split; [cbn; rewrite Hfirst; cbn; rewrite orb_false_r; reflexivity|].
    repeat split.
Qed.

Lemma fallback_image_tried_once_witness :
  exists sent w' evs,
    Utils.sendTelegramMessage Scenario.offline "token" "@channel" "Hello"
      "https://x/img.jpg" "https://x/a" Sample.fresh = (Returned sent, w')
    /\ trace w' = trace Sample.fresh ++ evs
    /\ sent = existsb sent_ok evs.
Proof.
  destruct (fallback_image_tried_once Scenario.offline "token" "@channel"
              "Hello" "https://x/img.jpg" "https://x/a" Sample.fresh)
    as (sent & w' & evs & o1 & Hrun & Htrace & _ & _ & Hsent & _).
  - vm_compute. reflexivity.
  - exists sent, w', evs. split; [exact Hrun|]. split; [exact Htrace|].
    exact Hsent.
Defined.

(** C6, the failing input: Telegram cannot be reached, so both requests
    fail in the network. The request with the supplied image carries a retry
    limit of 2 and the one with the fallback image a limit of 3, but both
    list the method as [POST] and the client looks for [post]: neither
    request is repeated. The send makes two requests in all and returns
    false; the retry budgets govern nothing. *)
Lemma retry_budgets_never_used :
  fst (Utils.sendTelegramMessage Scenario.offline "token" "@channel" "Hello"
         "https://x/img.jpg" "https://x/a" Sample.fresh)
    = Returned false
  /\ trace (snd (Utils.sendTelegramMessage Scenario.offline "token"
                   "@channel" "Hello" "https://x/img.jpg" "https://x/a"
                   Sample.fresh))
     = [EvSendPhoto
          (first_request "token" "@channel" "Hello" "https://x/img.jpg"
             "https://x/a")
          (Raised (External "fetch failed"));
        EvSendPhoto
          (fallback_request "token" "@channel" "Hello" "https://x/a")
          (Raised (External "fetch failed"))]
  /\ retry_limit
       (first_request "token" "@channel" "Hello" "https://x/img.jpg"
          "https://x/a") = 2%nat
  /\ retry_limit (fallback_request "token" "@channel" "Hello" "https://x/a")
     = 3%nat
  /\ retry_methods
       (first_request "token" "@channel" "Hello" "https://x/img.jpg"
          "https://x/a") = ["POST"]
  /\ Utils.ky_retries "post"
       (first_request "token" "@channel" "Hello" "https://x/img.jpg"
          "https://x/a") = 0%nat
  /\ Utils.ky_retries "post"
       (fallback_request "token" "@channel" "Hello" "https://x/a") = 0%nat.
Proof. repeat split; vm_compute; reflexivity. Qed.

(** ** gh-news-processor.ts *)

Lemma deliver_shape svc env a w :
  exists out w' evs,
    GHNewsProcessorWorkflow.deliver svc env a w = (out, w')
    /\ trace w' = trace w ++ evs
    /\ DeliverShape svc env a (GH_NEWS_CACHE w) out w' evs.
Proof.
  destruct (summarizeArticle_run svc (content a)
              (record_event (EvStep "generate_summary") w))
    as (o & w1 & Hsum & Ht1 & Hk1).
  unfold GHNewsProcessorWorkflow.deliver.
  rewrite (bind_returned _ _ _ _ _ (step_returned _ _ _ _ _ _ Hsum)).
  destruct (usable o) eqn:Huse.
  - destruct o as [s|]; [|discriminate].
    cbn [summary_of truthy_opt default from_option id].
    cbn [usable] in Huse. rewrite Huse. cbn [negb].
    erewrite bind_returned by (apply step_default_returned; reflexivity).
    destruct (lone_surrogate
                (or_else (image_url a) Utils.fallbackImageUrl)) eqn:Hlone.
    { destruct (attempt_raising "send_telegram_message"
                  (GHNewsProcessorWorkflow.send_telegram_message svc env a
                     (GHNewsProcessorWorkflow.telegram_message a s))
                  (URIError "URI malformed")) with
        (n := 5%nat) (w := record_event (EvStep "create_message") w1)
        as (w2 & Hsend & _ & Hk2 & _ & Ht2).
      { intros w0. exists w0. split; [|split; reflexivity].
        unfold GHNewsProcessorWorkflow.send_telegram_message, bind,
          call_encodeURI.
        rewrite Hlone. reflexivity. }
      unfold step_do at 1.
      cbn [retries_limit GHNewsProcessorWorkflow.send_telegram_message_config].
      rewrite (bind_raised _ _ _ _ _ Hsend).
      do 3 eexists. split; [reflexivity|]. split.
      { rewrite Ht2. cbn [trace record_event]. rewrite Ht1.
        cbn [trace record_event]. rewrite <- !app_assoc. reflexivity. }
      apply Unencodable; auto. rewrite Hk2. cbn. exact Hk1. }
    destruct (sendTelegramMessage_shape svc (TELEGRAM_BOT_TOKEN env)
                (TELEGRAM_CHANNEL_ID env)
                (GHNewsProcessorWorkflow.telegram_message a s)
                (encodeURI (or_else (image_url a) Utils.fallbackImageUrl))
                (url a)
                (record_event (EvStep "send_telegram_message")
                   (record_event (EvStep "create_message") w1))
                (encodeURI_no_surrogate _))
      as (sent & w2 & sends & Hsend & Ht2 & Hk2 & Hshape).
    assert (GHNewsProcessorWorkflow.send_telegram_message svc env a
              (GHNewsProcessorWorkflow.telegram_message a s)
              (record_event (EvStep "send_telegram_message")
                 (record_event (EvStep "create_message") w1))
            = (Returned sent, w2)) as Hstep.
    { unfold GHNewsProcessorWorkflow.send_telegram_message, bind,
        call_encodeURI.
      rewrite Hlone. exact Hsend. }
    rewrite (bind_returned _ _ _ _ _ (step_returned _ _ _ _ _ _ Hstep)).
    destruct sent; cbn [negb].
    + erewrite bind_returned
        by (apply step_returned;
            unfold GHNewsProcessorWorkflow.mark_as_processed, bind, Date_now,
              KV_put; reflexivity).
      erewrite bind_returned by reflexivity.
      do 3 eexists. split; [reflexivity|].
      split.
      { cbn. rewrite Ht2. cbn. rewrite Ht1. cbn. rewrite <- !app_assoc.
        reflexivity. }
      apply Sent; auto. cbn. rewrite Hk2. cbn. rewrite Hk1. reflexivity.
    + do 3 eexists. split; [reflexivity|]. split.
      { rewrite Ht2. cbn. rewrite Ht1. cbn. rewrite <- !app_assoc.
        reflexivity. }
      apply NotSent; auto. rewrite Hk2. cbn. rewrite Hk1. reflexivity.
  - assert (truthy_opt (summary_of o) = false) as Hfalsy.
    { destruct o; simpl in *; auto. }
    rewrite Hfalsy. cbn [negb].
    do 3 eexists. split; [reflexivity|]. split.
    { rewrite Ht1. cbn. rewrite <- !app_assoc. reflexivity. }
    apply NoSummary; auto.
Qed.

Lemma check_if_processed_run a w :
  GHNewsProcessorWorkflow.check_if_processed a w =
    (Returned (is_live (now w) (GH_NEWS_CACHE w) (url a)),
     record_event
       (EvKVGet ("article:" +:+ url a)
          (kv_lookup (now w) (GH_NEWS_CACHE w) ("article:" +:+ url a)))
       w).
Proof. reflexivity. Qed.

Lemma run_shape svc env p w :
  exists out w' evs,
    GHNewsProcessorWorkflow.run svc env p w = (out, w')
    /\ trace w' = trace w ++ evs
    /\ RunShape svc env p w out w' evs.
Proof.
  unfold GHNewsProcessorWorkflow.run.
  destruct (reprocess p) as [[|]|] eqn:Hflag;
    cbn [default from_option id negb].
  - destruct (deliver_shape svc env (article p) w)
      as (out & w' & evs & H & Ht & Hs).
    exists out, w', evs. repeat split; auto. by apply Reprocessed.
  - erewrite bind_returned
      by apply step_default_returned, check_if_processed_run.
    unfold is_live. cbn [now GH_NEWS_CACHE record_event].
    destruct (kv_lookup (now w) (GH_NEWS_CACHE w)
                ("article:" +:+ url (article p))) as [cached|] eqn:Hc.
    + rewrite bool_decide_eq_true_2 by congruence.
      do 3 eexists. split; [reflexivity|]. split.
      { cbn. rewrite <- app_assoc. reflexivity. }
      apply AlreadyProcessed; auto; congruence.
    + rewrite bool_decide_eq_false_2 by congruence.
      match goal with
      | |- context [GHNewsProcessorWorkflow.deliver svc env ?a ?w1] =>
          destruct (deliver_shape svc env a w1)
            as (out & w' & evs & H & Ht & Hs)
      end.
      do 3 eexists. split; [exact H|]. split.
      { rewrite Ht. cbn. rewrite <- !app_assoc. reflexivity. }
      apply NotYetProcessed; auto; congruence.
  - erewrite bind_returned
      by apply step_default_returned, check_if_processed_run.
    unfold is_live. cbn [now GH_NEWS_CACHE record_event].
    destruct (kv_lookup (now w) (GH_NEWS_CACHE w)
                ("article:" +:+ url (article p))) as [cached|] eqn:Hc.
    + rewrite bool_decide_eq_true_2 by congruence.
      do 3 eexists. split; [reflexivity|]. split.
      { cbn. rewrite <- app_assoc. reflexivity. }
      apply AlreadyProcessed; auto; congruence.
    + rewrite bool_decide_eq_false_2 by congruence.
      match goal with
      | |- context [GHNewsProcessorWorkflow.deliver svc env ?a ?w1] =>
          destruct (deliver_shape svc env a w1)
            as (out & w' & evs & H & Ht & Hs)
      end.
      do 3 eexists. split; [exact H|]. split.
      { rewrite Ht. cbn. rewrite <- !app_assoc. reflexivity. }
      apply NotYetProcessed; auto; congruence.
Qed.

(** C1: when the article's URL has a live cache entry and reprocess is not
    set, the run returns exactly the skipped result for that URL; the only
    events of the run are the idempotency step and its cache read, so the
    Summarizer and the Notifier are not called and nothing is written to the
    cache. *)
Theorem live_entry_skips_delivery svc env p w :
  reprocess p <> Some true ->
  live w (url (article p)) ->
  exists cached w',
    GHNewsProcessorWorkflow.run svc env p w =
      (Returned (GHNewsProcessorWorkflow.Skipped true true
                   "Article already processed" (url (article p))), w')
    /\ trace w' = trace w ++
         [EvStep "check_if_processed";
          EvKVGet ("article:" +:+ url (article p)) (Some cached)]
    /\ GH_NEWS_CACHE w' = GH_NEWS_CACHE w.
Proof.
  intros Hflag Hlive.
  destruct (run_shape svc env p w) as (out & w' & evs & Hrun & Htrace & Hshape).
  inversion Hshape as [cached ? _ Hc Hkv | ? ? ? _ Hc _ | ? ? ? Hforce _];
    subst; try congruence.
  exists cached, w'. auto.
Qed.

Lemma live_entry_skips_delivery_witness :
  reprocess Sample.unit_a <> Some true
  /\ live (Sample.holding "article:https://x/a") (url Sample.article_a)
  /\ exists cached w',
       GHNewsProcessorWorkflow.run Sample.working Sample.env
         Sample.unit_a (Sample.holding "article:https://x/a") =
         (Returned (GHNewsProcessorWorkflow.Skipped true true
                      "Article already processed" (url Sample.article_a)),
          w')
       /\ trace w' =
            trace (Sample.holding "article:https://x/a") ++
            [EvStep "check_if_processed";
             EvKVGet ("article:" +:+ url Sample.article_a) (Some cached)]
       /\ GH_NEWS_CACHE w' =
            GH_NEWS_CACHE (Sample.holding "article:https://x/a").
Proof.
  split; [discriminate|]. split; [vm_compute; discriminate|].
  apply (live_entry_skips_delivery Sample.working Sample.env
           Sample.unit_a (Sample.holding "article:https://x/a"));
    [discriminate|vm_compute; discriminate].
Defined.

(** In every run, a cache write comes after a Telegram request that was
    answered ok, and no run that raises has written to the cache. When the send step was reached and no request was
    answered ok, the run raises and writes nothing: the error names the
    article URL when the image URL can be encoded, and is the [URIError] of
    [encodeURI], after no request at all, when it cannot. *)
Lemma record_only_after_successful_send svc env p w :
  exists out w' evs,
    GHNewsProcessorWorkflow.run svc env p w = (out, w')
    /\ trace w' = trace w ++ evs
    /\ (forall i ev, evs !! i = Some ev -> is_put ev = true ->
          exists j sent, (j < i)%nat /\ evs !! j = Some sent
                         /\ sent_ok sent = true)
    /\ (In "send_telegram_message" (steps_of evs) ->
        existsb sent_ok evs = false ->
        (if lone_surrogate
              (or_else (image_url (article p)) Utils.fallbackImageUrl)
         then out = Raised (URIError "URI malformed")
              /\ existsb is_send evs = false
         else out = Raised (Error ("Failed to send Telegram message for article: "
                                   +:+ url (article p))))
        /\ existsb is_put evs = false
        /\ GH_NEWS_CACHE w' = GH_NEWS_CACHE w)
    /\ (forall e, out = Raised e ->
        existsb is_put evs = false /\ GH_NEWS_CACHE w' = GH_NEWS_CACHE w).
Proof.
  destruct (run_shape svc env p w) as (out & w' & evs & Hrun & Htrace & Hshape).
  exists out, w', evs. split; [exact Hrun|]. split; [exact Htrace|].
  split; [|split].
  - intros i ev Hi Hput.
    invert_shapes; cbn in Hi.
    all: repeat (destruct i as [|i]; cbn in Hi; simplify_eq; try discriminate).
    all: cbn in Hput; try discriminate.
    all: let found j :=
           (exists j; eexists; (split; [lia|]); (split; [reflexivity|]);
            cbn; congruence) in
         first [ found 4%nat | found 5%nat | found 6%nat | found 7%nat ].
  - intros Hreached Hnone.
    invert_shapes; cbn in Hreached, Hnone; use_delivered; cbn in Hnone;
      try discriminate; try (exfalso; intuition congruence).
    all: repeat match goal with
           | H : lone_surrogate _ = _ |- _ => rewrite H; clear H
           end.
    all: split; [first [reflexivity | split; reflexivity]|];
      split; [cbn; reflexivity|]; assumption.
  - intros e He.
    invert_shapes; try discriminate; cbn; use_delivered; auto.
Qed.

(** C3, the failing input: an article whose image URL is a surrogate
    without its pair, as a manual request can supply it. [encodeURI] throws
    on it in the send step, outside any [try]: the step fails on each of its
    six attempts without a Telegram request, and the run ends in the
    [URIError], which does not name the article URL. Nothing is written. *)
Lemma unencodable_image_ends_in_URIError :
  lone_surrogate Scenario.lone = true
  /\ fst (GHNewsProcessorWorkflow.run Sample.working Sample.env
            Scenario.unencodable Sample.fresh)
     = Raised (URIError "URI malformed")
  /\ fst (GHNewsProcessorWorkflow.run Sample.working Sample.env
            Scenario.unencodable Sample.fresh)
     <> Raised (GHNewsProcessorWorkflow.send_error
                  (article Scenario.unencodable))
  /\ steps_of
       (trace (snd (GHNewsProcessorWorkflow.run Sample.working Sample.env
                      Scenario.unencodable Sample.fresh)))
     = ["check_if_processed"; "generate_summary"; "create_message";
        "send_telegram_message"; "send_telegram_message";
        "send_telegram_message"; "send_telegram_message";
        "send_telegram_message"; "send_telegram_message"]
  /\ existsb is_send
       (trace (snd (GHNewsProcessorWorkflow.run Sample.working Sample.env
                      Scenario.unencodable Sample.fresh)))
     = false
  /\ GH_NEWS_CACHE
       (snd (GHNewsProcessorWorkflow.run Sample.working Sample.env
               Scenario.unencodable Sample.fresh))
     = ∅.
Proof.
  split; [reflexivity|]. split; [vm_compute; reflexivity|].
  split; [vm_compute; discriminate|].
  repeat split; vm_compute; reflexivity.
Qed.

(** C5: in every run in which the model call behind [summarizeArticle]
    yields null, the run raises the error naming the article URL, no Telegram
    call is made and nothing is written to the cache. *)
Theorem null_summary_is_fatal svc env p w :
  exists out w' evs,
    GHNewsProcessorWorkflow.run svc env p w = (out, w')
    /\ trace w' = trace w ++ evs
    /\ (forall model prompt o,
          In (EvGenerateObject model prompt o) evs ->
          summary_of o = None ->
          out = Raised (Error ("Failed to generate summary for article: "
                               +:+ url (article p)))
          /\ existsb is_send evs = false
          /\ existsb is_put evs = false
          /\ GH_NEWS_CACHE w' = GH_NEWS_CACHE w).
Proof.
  destruct (run_shape svc env p w) as (out & w' & evs & Hrun & Htrace & Hshape).
  exists out, w', evs. split; [exact Hrun|]. split; [exact Htrace|].
  intros model prompt o Hin Hnull.
  invert_shapes; cbn in Hin; unfold summarize_event in Hin.
  all: repeat (destruct Hin as [Hin|Hin];
               [simplify_eq; try discriminate|]); try contradiction.
  all: auto.
Qed.





(** ** joy-news-scraper.ts *)

Import JoyNewsScraperWorkflow.

Lemma quiet_refl w : quiet w w.
Proof. split; reflexivity. Qed.

Lemma quiet_trans w1 w2 w3 : quiet w1 w2 -> quiet w2 w3 -> quiet w1 w3.
Proof. intros [] []; split; congruence. Qed.

Lemma console_log_quiet line w :
  exists w',
    console_log line w = (Returned tt, w')
    /\ quiet w w'
    /\ console w' = console w ++ [line].
Proof. eexists. split; [reflexivity|]. split; [split|]; reflexivity. Qed.

Lemma triggered_urls_snoc evs ev :
  triggered_urls (evs ++ [ev]) = triggered_urls evs ++ triggered_urls [ev].
Proof. unfold triggered_urls. apply flat_map_app. Qed.

Lemma untouched_step name w : untouched w (record_event (EvStep name) w).
Proof.
  split; cbn; [reflexivity|].
  rewrite triggered_urls_snoc. cbn. apply app_nil_r.
Qed.

Lemma untouched_trans w1 w2 w3 :
  untouched w1 w2 -> untouched w2 w3 -> untouched w1 w3.
Proof. intros [] []. split; congruence. Qed.

(** *** Steps 1 and 2: the fetches never raise *)

Lemma ky_get_run svc target w :
  exists o w', ky_get svc target w = (o, w') /\ untouched w w'.
Proof.
  unfold ky_get, external. eexists _, _. split; [reflexivity|].
  split; cbn; [reflexivity|].
  rewrite triggered_urls_snoc. cbn. apply app_nil_r.
Qed.

Lemma scrapeMainPage_run svc target w :
  exists links w',
    scrapeMainPage svc target w = (Returned links, w') /\ untouched w w'.
Proof.
  unfold scrapeMainPage, try_catch, bind.
  destruct (ky_get_run svc target w) as ([html|e] & w1 & -> & [Hc Ht]).
  - destruct (HTMLRewriter_hrefs svc html); eexists _, _;
      (split; [reflexivity|]); split; cbn; auto.
  - eexists _, _. split; [reflexivity|]. split; cbn; auto.
Qed.

Lemma scrapeFeed_run svc target w :
  exists feed w',
    scrapeFeed svc target w = (Returned feed, w') /\ untouched w w'.
Proof.
  unfold scrapeFeed, parseRSSFeed, try_catch, bind.
  destruct (ky_get_run svc target w) as ([xml|e] & w1 & -> & [Hc Ht]).
  - destruct (XMLParser_items svc xml) as [[items|]|]; eexists _, _;
      (split; [reflexivity|]); split; cbn; auto.
  - eexists _, _. split; [reflexivity|]. split; cbn; auto.
Qed.

Lemma fetch_article_links_run svc payload w :
  exists links w',
    fetch_article_links svc payload w = (Returned links, w')
    /\ untouched w w'.
Proof.
  unfold fetch_article_links.
  match goal with
  | |- context [scrapeMainPage svc ?t] =>
      destruct (scrapeMainPage_run svc t
                  (record_event (EvStep "fetch_article_links") w))
        as (links & w' & Hrun & Hu)
  end.
  exists links, w'. split.
  - apply attempt_returned. exact Hrun.
  - eapply untouched_trans; [apply untouched_step|exact Hu].
Qed.

Lemma fetch_feed_entries_run svc payload w :
  exists feed w',
    fetch_feed_entries svc payload w = (Returned feed, w')
    /\ untouched w w'.
Proof.
  unfold fetch_feed_entries.
  match goal with
  | |- context [scrapeFeed svc ?t] =>
      destruct (scrapeFeed_run svc t
                  (record_event (EvStep "fetch_feed_entries") w))
        as (feed & w' & Hrun & Hu)
  end.
  exists feed, w'. split.
  - apply attempt_returned. exact Hrun.
  - eapply untouched_trans; [apply untouched_step|exact Hu].
Qed.

(** *** Step 3: the bulk check *)

(** The [Map] of a bulk read binds exactly the requested keys. *)
Lemma bulk_lookup (f : string -> option string) keys key :
  (list_to_map (map (fun k => (k, f k)) keys) : gmap string (option string))
    !! key = if decide (key ∈ keys) then Some (f key) else None.
Proof.
  induction keys as [|k keys IH]; cbn.
  - rewrite lookup_empty. case_decide as H; [|reflexivity].
    by apply elem_of_nil in H.
  - destruct (decide (k = key)) as [->|Hne].
    + rewrite lookup_insert_eq.
      rewrite decide_True; [reflexivity|]. apply elem_of_cons; auto.
    + rewrite lookup_insert_ne by exact Hne. rewrite IH.
      destruct (decide (key ∈ keys)) as [Hin|Hnin].
      * rewrite decide_True; [reflexivity|]. apply elem_of_cons; auto.
      * rewrite decide_False; [reflexivity|].
        rewrite elem_of_cons. intros [?|?]; congruence.
Qed.

(** Names that no object inherits. *)
Lemma own_name_not_proto u :
  inherited u = false -> String.eqb u "__proto__" = false.
Proof.
  intros H. destruct (String.eqb_spec u "__proto__") as [->|]; [|reflexivity].
  discriminate H.
Qed.

Lemma entry_at_own_name (feed : gmap string FeedEntry) u :
  inherited u = false -> entry_at feed u = feed !! u.
Proof.
  intros H. unfold entry_at. rewrite H. destruct (feed !! u); reflexivity.
Qed.

(** The dictionary built by the loop of step 3. *)
Lemma processed_lookup (f : string -> bool) links (m : gmap string bool) u :
  fold_left (fun processed link => set_flag link (f link) processed) links m
    !! u
  = if decide (u ∈ links /\ u <> "__proto__") then Some (f u) else m !! u.
Proof.
  revert m. induction links as [|l links IH]; intros m; cbn [fold_left].
  - rewrite decide_False; [reflexivity|].
    intros [H _]. by apply elem_of_nil in H.
  - rewrite IH. destruct (decide (u ∈ links /\ u <> "__proto__"))
      as [[Hin Hne]|Hnot].
    + rewrite decide_True; [reflexivity|]. split; [|exact Hne].
      apply elem_of_cons; auto.
    + unfold set_flag. destruct (String.eqb_spec l "__proto__") as [->|Hl].
      * rewrite decide_False; [reflexivity|].
        intros [Hin Hne]. apply Hnot. split; [|exact Hne].
        apply elem_of_cons in Hin as [?|?]; [congruence|assumption].
      * destruct (decide (l = u)) as [->|Hlu].
        -- rewrite lookup_insert_eq.
           rewrite decide_True; [reflexivity|].
           split; [apply elem_of_cons; auto|exact Hl].
        -- rewrite lookup_insert_ne by exact Hlu.
           rewrite decide_False; [reflexivity|].
           intros [Hin Hne]. apply Hnot. split; [|exact Hne].
           apply elem_of_cons in Hin as [?|?]; [congruence|assumption].
Qed.

(** On a listing of at most 100 links the bulk check returns: every link
    but [__proto__] is flagged with whether its cache entry is live. *)
Lemma check_processed_articles_run links w :
  (List.length links <= 100)%nat ->
  exists processed w',
    check_processed_articles links w = (Returned processed, w')
    /\ now w' = now w
    /\ GH_NEWS_CACHE w' = GH_NEWS_CACHE w
    /\ console w' = console w
    /\ triggered_urls (trace w') = triggered_urls (trace w)
    /\ forall u,
         processed !! u =
           if decide (u ∈ links /\ u <> "__proto__")
           then Some (is_live (now w) (GH_NEWS_CACHE w) u) else None.
Proof.
  intros Hshort.
  unfold check_processed_articles.
  destruct (decide (List.length links = 0%nat)) as [Hlen|Hlen].
  - destruct links; [|discriminate].
    exists ∅, w. do 5 (split; [reflexivity|]). intros u.
    rewrite lookup_empty.
    rewrite decide_False; [reflexivity|].
    intros [H _]. by apply elem_of_nil in H.
  - unfold bind, KV_get_bulk, ret, KV_bulk_limit. rewrite length_map.
    destruct (Nat.ltb_spec 100 (List.length links)) as [Hlong|_]; [lia|].
    eexists _, _. split; [reflexivity|].
    cbn. do 3 (split; [reflexivity|]). split.
    + rewrite triggered_urls_snoc. cbn. apply app_nil_r.
    + intros u. rewrite processed_lookup.
      destruct (decide (u ∈ links /\ u <> "__proto__")) as [[Hin _]|];
        [|apply lookup_empty].
      f_equal. unfold not_null. rewrite bulk_lookup.
      rewrite decide_True by (apply list_elem_of_fmap; exists u; auto).
      unfold is_live, cacheKey, CACHE_KEY_PREFIX.
      destruct (kv_lookup (now w) (GH_NEWS_CACHE w) ("article:" +:+ u)).
      * rewrite bool_decide_eq_true_2; congruence.
      * rewrite bool_decide_eq_false_2; congruence.
Qed.

(** On a longer listing the store rejects the read, and the step body
    raises after the one call. *)
Lemma check_processed_articles_rejected links w :
  (100 < List.length links)%nat ->
  check_processed_articles links w
  = (Raised KV_bulk_error,
     record_event
       (EvKVGetBulk (map (fun link => "article:" +:+ link) links)) w).
Proof.
  intros Hlong. unfold check_processed_articles.
  destruct (decide (List.length links = 0%nat)) as [Hlen|Hlen]; [lia|].
  unfold bind, KV_get_bulk, KV_bulk_limit. rewrite length_map.
  destruct (Nat.ltb_spec 100 (List.length links)) as [_|Hshort]; [|lia].
  reflexivity.
Qed.

Lemma processed_default (links : list string) t kv
  (processed : gmap string bool) :
  (forall u, processed !! u =
     if decide (u ∈ links /\ u <> "__proto__")
     then Some (is_live t kv u) else None) ->
  forall u, u ∈ links -> flagged processed u = marked t kv u.
Proof.
  intros H u Hin. unfold flagged, marked. rewrite H.
  destruct (String.eqb_spec u "__proto__") as [->|Hne].
  - rewrite decide_False by (intros [_ ?]; congruence). reflexivity.
  - rewrite decide_True by (split; assumption). reflexivity.
Qed.

Lemma is_live_false w u :
  is_live (now w) (GH_NEWS_CACHE w) u = false <-> ~ live w u.
Proof.
  unfold is_live, live. split.
  - intros H. apply bool_decide_eq_false in H. exact H.
  - intros H. apply bool_decide_eq_false. exact H.
Qed.

(** *** Step 4: article assembly *)

Lemma or_else_same s : or_else (Some s) "" = s.
Proof. destruct s; reflexivity. Qed.

(** When every entry it selects has a date that converts, the loop returns
    the assembled articles in listing order and logs every link it drops. *)
Lemma prepare_loop_returns svc processed feed links :
  (forall u entry, u ∈ links -> flagged processed u = false ->
     entry_at feed u = Some entry -> ~ unconvertible svc entry) ->
  forall articles w,
  exists w',
    prepare_loop svc processed feed links articles w
      = (Returned
           (articles ++ omap (assemble svc (now w) processed feed) links),
         w')
    /\ quiet w w'
    /\ console w' = console w ++ omap (log_line processed feed) links.
Proof.
  induction links as [|link rest IH]; intros Hok articles w.
  - exists w. cbn. rewrite !app_nil_r.
    split; [reflexivity|]. split; [apply quiet_refl|reflexivity].
  - assert (forall u entry, u ∈ rest ->
              flagged processed u = false ->
              entry_at feed u = Some entry -> ~ unconvertible svc entry)
      as Hrest.
    { intros u entry Hin. apply Hok. apply elem_of_cons; auto. }
    cbn [prepare_loop omap list_omap].
    unfold assemble at 1. unfold log_line at 1.
    destruct (flagged processed link) eqn:Hdone.
    + destruct (console_log_quiet
                  ("Skipping already processed article: " +:+ link) w)
        as (w1 & Hlog & Hq1 & Hc1).
      rewrite (bind_returned _ _ _ _ _ Hlog).
      destruct (IH Hrest articles w1) as (w' & Hrun & Hq & Hc).
      exists w'. rewrite Hrun. rewrite (quiet_now _ _ Hq1).
      split; [reflexivity|]. split; [eapply quiet_trans; eauto|].
      rewrite Hc, Hc1. rewrite <- app_assoc. reflexivity.
    + destruct (entry_at feed link) as [entry|] eqn:Hfeed;
        cbn [fmap option_fmap option_map].
      * assert (exists w1,
          (if truthy (fe_published entry)
           then Date_toISOString svc (fe_published entry)
           else await t <- Utils.getCurrentUTCDate; ret (ISO_string svc t)) w
          = (Returned (date_text svc (now w) (fe_published entry)), w1)
          /\ w1 = w) as (w1 & Hdate & ->).
        { unfold date_text. destruct (truthy (fe_published entry)) eqn:Htruthy.
          - unfold Date_toISOString.
            destruct (Date_parse svc (fe_published entry)) eqn:Hparse.
            + exists w. split; reflexivity.
            + exfalso. eapply Hok; eauto; [apply elem_of_cons; auto|].
              split; auto.
          - exists w. split; reflexivity. }
        rewrite (bind_returned _ _ _ _ _ Hdate).
        destruct (IH Hrest
                    (articles ++
                     [{| title := or_else (Some (fe_title entry)) "";
                         url := link;
                         date_published :=
                           date_text svc (now w) (fe_published entry);
                         content := or_else (Some (fe_summary entry)) "";
                         image_url :=
                           Some (or_else (head (fe_media_content entry))
                                   "") |}])
                    w) as (w' & Hrun & Hq & Hc).
        exists w'. rewrite Hrun.
        rewrite !or_else_same. rewrite <- app_assoc.
        split; [reflexivity|]. split; [exact Hq|exact Hc].
      * destruct (console_log_quiet ("Article not found in feed: " +:+ link)
                    w) as (w1 & Hlog & Hq1 & Hc1).
        rewrite (bind_returned _ _ _ _ _ Hlog).
        destruct (IH Hrest articles w1) as (w' & Hrun & Hq & Hc).
        exists w'. rewrite Hrun. rewrite (quiet_now _ _ Hq1).
        split; [reflexivity|]. split; [eapply quiet_trans; eauto|].
        rewrite Hc, Hc1. rewrite <- app_assoc. reflexivity.
Qed.

(** When an entry it selects has a date that does not convert, the loop
    raises the [RangeError] of [toISOString]. *)
Lemma prepare_loop_raises svc processed feed links :
  (exists u entry, u ∈ links /\ flagged processed u = false /\
     entry_at feed u = Some entry /\ unconvertible svc entry) ->
  forall articles w,
  exists w',
    prepare_loop svc processed feed links articles w
      = (Raised (RangeError "Invalid time value"), w')
    /\ quiet w w'.
Proof.
  induction links as [|link rest IH];
    intros (u & entry & Hin & Hnew & Hfeed & Hbad) articles w.
  - by apply elem_of_nil in Hin.
  - assert (u <> link ->
            exists u entry, u ∈ rest /\
              flagged processed u = false /\
              entry_at feed u = Some entry /\ unconvertible svc entry)
      as Hrest.
    { intros Hne. exists u, entry. repeat split; auto; try apply Hbad.
      apply elem_of_cons in Hin as [?|?]; congruence. }
    cbn [prepare_loop].
    destruct (flagged processed link) eqn:Hdone.
    + destruct (console_log_quiet
                  ("Skipping already processed article: " +:+ link) w)
        as (w1 & Hlog & Hq1 & _).
      rewrite (bind_returned _ _ _ _ _ Hlog).
      destruct (IH (Hrest ltac:(congruence)) articles w1)
        as (w' & Hrun & Hq).
      exists w'. split; [exact Hrun|]. eapply quiet_trans; eauto.
    + destruct (entry_at feed link) as [entry'|] eqn:Hfeed'.
      * destruct (truthy (fe_published entry')) eqn:Htruthy.
        -- unfold Date_toISOString.
           destruct (Date_parse svc (fe_published entry')) eqn:Hparse.
           ++ erewrite bind_returned by reflexivity.
              edestruct IH as (w' & Hrun & Hq);
                [|exists w'; split; [exact Hrun|exact Hq]].
              apply Hrest. intros ->. destruct Hbad. congruence.
           ++ exists w. split; [reflexivity|apply quiet_refl].
        -- erewrite bind_returned by reflexivity.
           edestruct IH as (w' & Hrun & Hq);
             [|exists w'; split; [exact Hrun|exact Hq]].
           apply Hrest. intros ->. destruct Hbad. congruence.
      * destruct (console_log_quiet ("Article not found in feed: " +:+ link)
                    w) as (w1 & Hlog & Hq1 & _).
        rewrite (bind_returned _ _ _ _ _ Hlog).
        destruct (IH (Hrest ltac:(congruence)) articles w1)
          as (w' & Hrun & Hq).
        exists w'. split; [exact Hrun|]. eapply quiet_trans; eauto.
Qed.

(** The URLs of the assembled articles are the eligible links, in order. *)
Lemma assembled_urls svc t processed feed (live_at : string -> bool) l :
  (forall u, u ∈ l -> flagged processed u = live_at u) ->
  map url (omap (assemble svc t processed feed) l)
  = List.filter
      (fun u => negb (live_at u) && bool_decide (is_Some (entry_at feed u)))
      l.
Proof.
  induction l as [|u l IH]; intros Hlive; [reflexivity|].
  cbn [omap list_omap List.filter]. unfold assemble at 1.
  rewrite (Hlive u) by (apply elem_of_cons; auto).
  rewrite <- IH by (intros v Hv; apply Hlive, elem_of_cons; auto).
  destruct (live_at u); cbn; [reflexivity|].
  destruct (entry_at feed u) as [entry|]; cbn; reflexivity.
Qed.

(** Every link that is not eligible leaves its line on the console. *)
Lemma dropped_links_logged processed feed (live_at : string -> bool)
  (l : list string) u :
  (forall v, v ∈ l -> flagged processed v = live_at v) ->
  u ∈ l ->
  negb (live_at u) && bool_decide (is_Some (entry_at feed u)) = false ->
  In ((if live_at u then "Skipping already processed article: "
       else "Article not found in feed: ") +:+ u)
    (omap (log_line processed feed) l).
Proof.
  intros Hlive Hin Hdrop.
  apply list_elem_of_In. apply list_elem_of_omap. exists u. split; [exact Hin|].
  unfold log_line. rewrite (Hlive u Hin).
  destruct (live_at u); [reflexivity|].
  cbn in Hdrop. apply bool_decide_eq_false in Hdrop.
  destruct (entry_at feed u) as [entry|]; [|reflexivity].
  exfalso. apply Hdrop. eauto.
Qed.

(** *** Step 5: the fan-out *)

Lemma batch_data_run svc articles w :
  exists batch w',
    batch_data svc articles w = (Returned batch, w')
    /\ map batch_article batch = articles
    /\ GH_NEWS_CACHE w' = GH_NEWS_CACHE w
    /\ console w' = console w
    /\ trace w' = trace w.
Proof.
  revert w. induction articles as [|a rest IH]; intros w.
  - exists [], w. repeat split; reflexivity.
  - cbn [batch_data].
    erewrite bind_returned by (unfold crypto_randomUUID; reflexivity).
    match goal with
    | |- context [bind (batch_data svc rest) _ ?w1] =>
        destruct (IH w1) as (batch & w' & Hrun & Hmap & Hc & Hl & Ht)
    end.
    rewrite (bind_returned _ _ _ _ _ Hrun).
    eexists _, w'. split; [reflexivity|].
    cbn. rewrite Hmap. repeat split; auto.
Qed.

Lemma triggered_from_run done articles instances w :
  List.length instances = List.length articles ->
  triggered_from (done ++ articles) (List.length done) instances w
    = (Returned (zip_with triggered_record articles instances), w).
Proof.
  revert done articles. induction instances as [|i rest IH];
    intros done [|a articles] Hlen; try discriminate.
  - reflexivity.
  - cbn [triggered_from].
    rewrite lookup_app_r by reflexivity.
    replace (List.length done - List.length done)%nat with 0%nat by lia.
    cbn [lookup list_lookup].
    specialize (IH (done ++ [a]) articles).
    rewrite length_app in IH. cbn [List.length] in IH.
    replace (List.length done + 1)%nat with (S (List.length done)) in IH
      by lia.
    rewrite <- app_assoc in IH. cbn [app] in IH.
    erewrite bind_returned by (apply IH; cbn in Hlen; lia).
    reflexivity.
Qed.

Lemma triggered_record_urls articles instances :
  List.length instances = List.length articles ->
  map trig_url (zip_with triggered_record articles instances)
    = map url articles.
Proof.
  revert instances. induction articles as [|a l IH]; intros [|i rest] Hlen;
    try discriminate; cbn; [reflexivity|].
  f_equal. apply IH. cbn in Hlen. lia.
Qed.

(** One instance is created per assembled article, in one batch. *)
Lemma trigger_processors_run svc articles w :
  exists triggered w',
    trigger_processors svc articles w = (Returned triggered, w')
    /\ map trig_url triggered = map url articles
    /\ GH_NEWS_CACHE w' = GH_NEWS_CACHE w
    /\ console w' = console w
    /\ triggered_urls (trace w') = triggered_urls (trace w) ++ map url articles.
Proof.
  unfold trigger_processors.
  destruct (decide (List.length articles = 0%nat)) as [Hlen|Hlen].
  - destruct articles; [|discriminate].
    exists [], w. cbn. rewrite app_nil_r. repeat split; reflexivity.
  - destruct (batch_data_run svc articles w)
      as (batch & w1 & Hrun & Hmap & Hc & Hl & Ht).
    rewrite (bind_returned _ _ _ _ _ Hrun).
    unfold bind at 1. unfold createBatch at 1.
    assert (List.length (map batch_id batch) = List.length articles)
      as Hsame.
    { rewrite length_map. rewrite <- Hmap. rewrite length_map. reflexivity. }
    rewrite (triggered_from_run [] articles (map batch_id batch) _ Hsame).
    eexists _, _. split; [reflexivity|].
    split; [apply triggered_record_urls, Hsame|].
    cbn. split; [exact Hc|]. split; [exact Hl|].
    rewrite Ht. rewrite triggered_urls_snoc. cbn.
    rewrite app_nil_r. rewrite <- Hmap. rewrite map_map. reflexivity.
Qed.

(** *** The whole Discovery run *)

Section Discovery.

Variables (svc : Services) (payload : option ScraperParams).
Variables (w w1 w2 : World).
Variables (links : list string) (feed : gmap string FeedEntry).

(** What the two fetch steps of this run returned. *)
Hypothesis Hlinks :
  fetch_article_links svc payload w = (Returned links, w1).
Hypothesis Hfeed :
  fetch_feed_entries svc payload w1 = (Returned feed, w2).

Lemma fetched_untouched : untouched w w2.
Proof using Hlinks Hfeed.
  destruct (fetch_article_links_run svc payload w) as (l & w1' & H1 & Hu1).
  destruct (fetch_feed_entries_run svc payload w1) as (f & w2' & H2 & Hu2).
  rewrite Hlinks in H1. rewrite Hfeed in H2. simplify_eq.
  eapply untouched_trans; eauto.
Qed.

(** The listing is one the store reads at once, and none of its links is
    the name of a property that every object inherits. *)
Hypothesis Hshort : (List.length links <= 100)%nat.
Hypothesis Hown : forall u, u ∈ links -> inherited u = false.

Lemma listed_flags t kv (processed : gmap string bool) :
  (forall u, processed !! u =
     if decide (u ∈ links /\ u <> "__proto__")
     then Some (is_live t kv u) else None) ->
  forall u, u ∈ links -> flagged processed u = is_live t kv u.
Proof using Hown.
  intros H u Hin. rewrite (processed_default links t kv processed H u Hin).
  unfold marked. rewrite (own_name_not_proto u (Hown u Hin)). reflexivity.
Qed.

Lemma listed_eligible :
  List.filter
    (fun u =>
       negb (is_live (now w2) (GH_NEWS_CACHE w2) u)
       && bool_decide (is_Some (entry_at feed u))) links
  = List.filter (eligible w2 feed) links.
Proof using Hown.
  apply List.filter_ext_in. intros u Hin. unfold eligible.
  rewrite entry_at_own_name; [reflexivity|].
  apply Hown, list_elem_of_In, Hin.
Qed.

(** The run completes when every entry it selects has a date that
    converts: it triggers the eligible links, in listing order, and logs
    the others. *)
Lemma discovery_returns :
  (forall u entry, u ∈ links -> ~ live w2 u -> feed !! u = Some entry ->
     ~ unconvertible svc entry) ->
  exists r w',
    run svc payload w = (Returned r, w')
    /\ triggered_urls (trace w') =
         triggered_urls (trace w) ++ List.filter (eligible w2 feed) links
    /\ map trig_url (processors r) = List.filter (eligible w2 feed) links
    /\ total_links r = List.length links
    /\ total_processed r
       = List.length (List.filter (eligible w2 feed) links)
    /\ GH_NEWS_CACHE w' = GH_NEWS_CACHE w
    /\ forall u, u ∈ links -> eligible w2 feed u = false ->
         In ((if is_live (now w2) (GH_NEWS_CACHE w2) u
              then "Skipping already processed article: "
              else "Article not found in feed: ") +:+ u) (console w').
Proof using Hlinks Hfeed Hshort Hown.
  intros Hdates.
  destruct fetched_untouched as [Hc2 Ht2].
  unfold run, step_do_default.
  rewrite (bind_returned _ _ _ _ _ Hlinks).
  rewrite (bind_returned _ _ _ _ _ Hfeed).
  destruct (check_processed_articles_run links
              (record_event (EvStep "check_processed_articles") w2) Hshort)
    as (processed & w3 & Hcheck & Hn3 & Hc3 & _ & Ht3 & Hprocessed).
  rewrite (bind_returned _ _ _ _ _ (attempt_returned _ _ _ _ _ _ Hcheck)).
  cbn [now GH_NEWS_CACHE record_event] in Hprocessed, Hn3, Hc3.
  pose proof (listed_flags _ _ _ Hprocessed) as Hdefault.
  destruct (prepare_loop_returns svc processed feed links) with
    (articles := @nil Article)
    (w := record_event (EvStep "prepare_articles") w3)
    as (w4 & Hprep & [Hn4 Hc4 Ht4 _] & Hl4).
  { intros u entry Hin Hnew Hentry.
    rewrite entry_at_own_name in Hentry by (apply Hown, Hin).
    apply (Hdates u entry Hin); [|exact Hentry].
    rewrite Hdefault in Hnew by exact Hin. by apply is_live_false. }
  rewrite (bind_returned _ _ _ _ _ (attempt_returned _ _ _ _ _ _ Hprep)).
  cbn [app].
  match goal with
  | |- context [trigger_processors svc ?arts] =>
      set (articles := arts) in *;
      destruct (trigger_processors_run svc articles
                  (record_event (EvStep "trigger_processors") w4))
        as (triggered & w5 & Htrig & Hurls & Hc5 & Hl5 & Ht5)
  end.
  rewrite (bind_returned _ _ _ _ _ (attempt_returned _ _ _ _ _ _ Htrig)).
  assert (map url articles = List.filter (eligible w2 feed) links) as Hsel.
  { unfold articles. rewrite <- listed_eligible.
    apply assembled_urls. exact Hdefault. }
  eexists _, w5. split; [reflexivity|].
  cbn [processors total_links total_processed].
  split.
  { cbn [trace record_event] in Ht5, Ht4, Ht3.
    rewrite triggered_urls_snoc in Ht5, Ht3. cbn in Ht5, Ht3.
    rewrite app_nil_r in Ht5, Ht3.
    rewrite Ht5, Ht4, triggered_urls_snoc. cbn. rewrite app_nil_r.
    rewrite Ht3, Ht2, Hsel. reflexivity. }
  split; [congruence|]. split; [reflexivity|].
  split; [rewrite <- Hsel; rewrite length_map; reflexivity|].
  split; [rewrite Hc5; cbn; rewrite Hc4; cbn; rewrite Hc3; exact Hc2|].
  intros u Hin Hdrop.
  rewrite Hl5. cbn [console record_event]. rewrite Hl4.
  apply in_or_app. right.
  apply (dropped_links_logged processed feed
           (is_live (now w2) (GH_NEWS_CACHE w2)) links u Hdefault Hin).
  unfold eligible in Hdrop.
  rewrite entry_at_own_name by (apply Hown, Hin). exact Hdrop.
Qed.

(** The run raises, after the retries of the assembly step, when an entry
    it selects has a date that does not convert; nothing is triggered. *)
Lemma discovery_raises :
  (exists u entry, u ∈ links /\ ~ live w2 u /\ feed !! u = Some entry /\
     unconvertible svc entry) ->
  exists w',
    run svc payload w = (Raised (RangeError "Invalid time value"), w')
    /\ triggered_urls (trace w') = triggered_urls (trace w)
    /\ GH_NEWS_CACHE w' = GH_NEWS_CACHE w.
Proof using Hlinks Hfeed Hshort Hown.
  intros (u & entry & Hin & Hnew & Hentry & Hbad).
  destruct fetched_untouched as [Hc2 Ht2].
  unfold run, step_do_default.
  rewrite (bind_returned _ _ _ _ _ Hlinks).
  rewrite (bind_returned _ _ _ _ _ Hfeed).
  destruct (check_processed_articles_run links
              (record_event (EvStep "check_processed_articles") w2) Hshort)
    as (processed & w3 & Hcheck & Hn3 & Hc3 & _ & Ht3 & Hprocessed).
  rewrite (bind_returned _ _ _ _ _ (attempt_returned _ _ _ _ _ _ Hcheck)).
  cbn [now GH_NEWS_CACHE record_event] in Hprocessed, Hn3, Hc3.
  pose proof (listed_flags _ _ _ Hprocessed) as Hdefault.
  destruct (attempt_raising "prepare_articles"
              (prepare_articles svc processed feed links)
              (RangeError "Invalid time value")) with
    (n := default_retry_limit svc) (w := w3)
    as (w4 & Hprep & Hn4 & Hc4 & _ & Ht4).
  { intros w0. apply prepare_loop_raises.
    exists u, entry. repeat split; auto; try apply Hbad.
    - rewrite Hdefault by exact Hin. by apply is_live_false.
    - rewrite entry_at_own_name by (apply Hown, Hin). exact Hentry. }
  rewrite (bind_raised _ _ _ _ _ Hprep).
  exists w4. split; [reflexivity|]. split.
  - cbn [trace record_event] in Ht3.
    rewrite triggered_urls_snoc in Ht3. cbn in Ht3.
    rewrite app_nil_r in Ht3.
    rewrite Ht4. unfold triggered_urls at 1. rewrite flat_map_app.
    fold (triggered_urls (trace w3)).
    replace (flat_map _ (repeat _ _)) with (@nil string).
    + rewrite app_nil_r. rewrite Ht3. exact Ht2.
    + generalize (S (default_retry_limit svc)) as n.
      induction n; cbn; auto.
  - rewrite Hc4, Hc3. exact Hc2.
Qed.

End Discovery.





(** A link named like a property every object inherits, here
    [constructor], is triggered although the feed mapping does not hold
    it. *)
Lemma inherited_name_is_triggered :
  fst (fetch_article_links Scenario.inheriting None Sample.fresh)
    = Returned ["constructor"]
  /\ match fst (scrapeFeed Scenario.inheriting DEFAULT_FEED_URL Sample.fresh)
     with
     | Returned feed => feed !! "constructor"
     | Raised _ => Some inherited_entry
     end = None
  /\ triggered_urls (trace (snd (run Scenario.inheriting None Sample.fresh)))
     = ["constructor"].
Proof.
  repeat split; vm_compute; reflexivity.
Qed.

(** A listing of 101 links: the store rejects the bulk read on each of the
    six attempts of the step, and the run fails with nothing triggered. *)
Lemma long_listing_is_rejected :
  fst (run Scenario.long_listing None Sample.fresh) = Raised KV_bulk_error
  /\ List.length
       (List.filter is_cache_read
          (trace (snd (run Scenario.long_listing None Sample.fresh))))
     = 6%nat
  /\ triggered_urls
       (trace (snd (run Scenario.long_listing None Sample.fresh))) = [].
Proof.
  repeat split; vm_compute; reflexivity.
Qed.

(** A link the feed mapping lacks, in a run whose assembly completes on a
    listing of at most 100 links, none of them the name of an inherited
    property, is in neither the batch nor the result list, and its line is
    on the console. *)
Lemma feed_absent_link_dropped svc payload w links w1 feed w2 u :
  fetch_article_links svc payload w = (Returned links, w1) ->
  fetch_feed_entries svc payload w1 = (Returned feed, w2) ->
  (List.length links <= 100)%nat ->
  (forall v, v ∈ links -> inherited v = false) ->
  (forall v entry, v ∈ links -> ~ live w2 v -> feed !! v = Some entry ->
     ~ unconvertible svc entry) ->
  In u links ->
  feed !! u = None ->
  exists r w' triggered,
    run svc payload w = (Returned r, w')
    /\ triggered_urls (trace w') = triggered_urls (trace w) ++ triggered
    /\ ~ In u triggered
    /\ ~ In u (map trig_url (processors r))
    /\ In ((if is_live (now w2) (GH_NEWS_CACHE w2) u
            then "Skipping already processed article: "
            else "Article not found in feed: ") +:+ u) (console w').
Proof.
  intros Hlinks Hfeed Hshort Hown Hdates Hin Habsent.
  destruct (discovery_returns svc payload w w1 w2 links feed Hlinks Hfeed
              Hshort Hown Hdates)
    as (r & w' & Hrun & Htrig & Hres & _ & _ & _ & Hlog).
  assert (eligible w2 feed u = false) as Hdrop.
  { unfold eligible. rewrite Habsent.
    rewrite bool_decide_eq_false_2 by (intros [? ?]; discriminate).
    apply andb_false_r. }
  assert (~ In u (List.filter (eligible w2 feed) links)) as Hout.
  { intros H. apply filter_In in H as [_ H]. congruence. }
  exists r, w', (List.filter (eligible w2 feed) links).
  split; [exact Hrun|]. split; [exact Htrig|]. split; [exact Hout|].
  split; [rewrite Hres; exact Hout|].
  apply Hlog; [apply list_elem_of_In; exact Hin|exact Hdrop].
Qed.

(** C7, the failing input: the listing names an article whose feed entry
    has the publish date ["soon"], then a link the feed lacks. The assembly
    step raises at the first link on each of its attempts, so the loop never
    reaches the second: the run ends in the [RangeError] and the console
    holds no line for the dropped link. *)
Lemma absent_link_unlogged_after_unreadable_date :
  fst (fetch_article_links Sample.undated_then_absent None Sample.fresh)
    = Returned ["https://x/a"; "https://x/b"]
  /\ match fst (scrapeFeed Sample.undated_then_absent
                  "https://www.myjoyonline.com/feed/" Sample.fresh) with
     | Returned feed => feed !! "https://x/b"
     | Raised _ => None
     end = None
  /\ fst (run Sample.undated_then_absent None Sample.fresh)
     = Raised (RangeError "Invalid time value")
  /\ console (snd (run Sample.undated_then_absent None Sample.fresh)) = []
  /\ triggered_urls
       (trace (snd (run Sample.undated_then_absent None Sample.fresh)))
     = [].
Proof. repeat split; vm_compute; reflexivity. Qed.

(** C9, the failing input: one feed entry whose publish date is ["soon"],
    a non-empty text that [new Date] cannot read. [toISOString] raises on
    each attempt of the assembly step, the run ends in the [RangeError]
    and no article is assembled or triggered. *)
Lemma unreadable_date_aborts_assembly :
  Date_parse Sample.undated "soon" = None
  /\ fst (run Sample.undated None Sample.fresh)
     = Raised (RangeError "Invalid time value")
  /\ steps_of (trace (snd (run Sample.undated None Sample.fresh)))
     = ["fetch_article_links"; "fetch_feed_entries";
        "check_processed_articles"; "prepare_articles"; "prepare_articles";
        "prepare_articles"; "prepare_articles"; "prepare_articles";
        "prepare_articles"]
  /\ triggered_urls (trace (snd (run Sample.undated None Sample.fresh)))
     = [].
Proof. repeat split; vm_compute; reflexivity. Qed.

(** The part of C9 the code meets: an entry without a publish date gets the
    current time, an entry whose date converts gets that date. *)
Lemma assembled_date svc t link entry :
  (truthy (fe_published entry) = false ->
   date_published (article_of svc t link entry) = ISO_string svc t)
  /\ (forall d, truthy (fe_published entry) = true ->
        Date_parse svc (fe_published entry) = Some d ->
        date_published (article_of svc t link entry) = ISO_string svc d).
Proof.
  unfold article_of, date_text. cbn. split.
  - intros ->. reflexivity.
  - intros d -> ->. reflexivity.
Qed.


(** ** Runs of the sample services *)

(** The model call fails: one attempt of the summary step, then the fatal
    error. *)
Example run_without_summary :
  let r :=
    GHNewsProcessorWorkflow.run
      (Sample.services (Raised (External "quota")) (fun _ => Sample.accepted)
         [] [])
      Sample.env Sample.unit_a Sample.fresh in
  fst r = Raised (Error "Failed to generate summary for article: https://x/a")
  /\ trace (snd r) =
       [EvStep "check_if_processed"; EvKVGet "article:https://x/a" None;
        EvStep "generate_summary";
        summarize_event Sample.article_a (Raised (External "quota"))]
  /\ GH_NEWS_CACHE (snd r) = ∅.
Proof. repeat split; vm_compute; reflexivity. Qed.

(** Telegram rejects both images: two calls, then the fatal error, and no
    cache entry. *)
Example run_without_delivery :
  let r :=
    GHNewsProcessorWorkflow.run
      (Sample.services (Returned "Two paragraphs.")
         (fun _ => Sample.rejected) [] [])
      Sample.env Sample.unit_a Sample.fresh in
  fst r
    = Raised (Error "Failed to send Telegram message for article: https://x/a")
  /\ map sent_ok (List.filter is_send (trace (snd r))) = [false; false]
  /\ existsb is_put (trace (snd r)) = false
  /\ GH_NEWS_CACHE (snd r) = ∅.
Proof. repeat split; vm_compute; reflexivity. Qed.

(** A delivered article is skipped by the next Delivery run and by the next
    Discovery run. *)
Example delivered_then_skipped :
  let delivered :=
    snd (GHNewsProcessorWorkflow.run Sample.working Sample.env Sample.unit_a
           Sample.fresh) in
  fst (GHNewsProcessorWorkflow.run Sample.working Sample.env Sample.unit_a
         delivered)
    = Returned (GHNewsProcessorWorkflow.Skipped true true
                  "Article already processed" "https://x/a")
  /\ triggered_urls
       (trace (snd (run (Sample.site [Some Sample.page_a]
                           [Sample.item Sample.page_a Sample.stamp])
                      None delivered)))
     = [].
Proof. repeat split; vm_compute; reflexivity. Qed.

(** * Further properties *)

(** ** The image URL on its way to Telegram *)

Lemma encodeURI_length s :
  String.length (encodeURI s) = (String.length s + 2 * escaped s)%nat.
Proof.
  induction s as [|c rest IH]; [reflexivity|].
  cbn [encodeURI escaped].
  destruct (uri_kept c); cbn [String.length]; rewrite IH; lia.
Qed.

Lemma encodeURI_all_kept s : all_kept (encodeURI s) = all_kept s.
Proof.
  induction s as [|c rest IH]; [reflexivity|].
  cbn [encodeURI all_kept]. destruct (uri_kept c) eqn:Hc.
  - cbn [all_kept]. rewrite Hc, IH. reflexivity.
  - reflexivity.
Qed.

Lemma all_kept_escaped s : all_kept s = true <-> escaped s = 0%nat.
Proof.
  induction s as [|c rest IH]; cbn; [tauto|].
  destruct (uri_kept c); cbn; [exact IH|]. split; [discriminate|lia].
Qed.

Lemma encodeURI_fixed_iff_kept s :
  encodeURI s = s <-> all_kept s = true.
Proof.
  split.
  - intros Hfix. apply all_kept_escaped.
    pose proof (encodeURI_length s) as Hlen. rewrite Hfix in Hlen. lia.
  - induction s as [|c rest IH]; [reflexivity|].
    cbn [all_kept encodeURI]. destruct (uri_kept c); [|discriminate].
    cbn. intros H. rewrite (IH H). reflexivity.
Qed.

(** The send step encodes the image URL and [sendTelegramMessage] encodes
    it again. The second pass changes nothing exactly when the URL holds no
    byte that [encodeURI] escapes; otherwise the text posted is longer than
    the URL encoded once, by two bytes for each of its [%]. *)
Theorem encodeURI_twice s :
  (encodeURI (encodeURI s) = encodeURI s <-> all_kept s = true)
  /\ String.length (encodeURI (encodeURI s))
     = (String.length (encodeURI s) + 2 * escaped s)%nat.
Proof.
  split.
  - rewrite encodeURI_fixed_iff_kept. rewrite encodeURI_all_kept. tauto.
  - rewrite (encodeURI_length (encodeURI s)). f_equal. f_equal.
    induction s as [|c rest IH]; [reflexivity|].
    cbn [encodeURI escaped]. destruct (uri_kept c) eqn:Hc.
    + cbn [escaped]. rewrite Hc, IH. reflexivity.
    + cbn [escaped]. rewrite IH.
      assert (uri_kept "%" = false) as -> by reflexivity.
      assert (forall n, uri_kept (hex_digit n) = true) as Hhex.
      { intros [|p]; [reflexivity|].
        do 4 (destruct p as [p|p|]; try reflexivity). }
      rewrite !Hhex. reflexivity.
Qed.

Ltac members H :=
  repeat (destruct H as [H|H]; [simplify_eq; try discriminate|]);
  try contradiction.

(** ** gh-news-processor.ts, continued *)

(** Every photo a Delivery run posts is either the article's image (the
    fallback image when the article has none) passed through [encodeURI]
    twice, sent with a retry limit of 2, or the fallback image as it is,
    sent with a retry limit of 3. A run for an article without an image
    posts the fallback image only. *)
Theorem posted_photo_is_encoded_twice svc env p w :
  exists out w' evs,
    GHNewsProcessorWorkflow.run svc env p w = (out, w')
    /\ trace w' = trace w ++ evs
    /\ (forall req o, In (EvSendPhoto req o) evs ->
          (retry_limit req = 2%nat
           /\ photo req =
                encodeURI
                  (encodeURI (or_else (image_url (article p))
                                Utils.fallbackImageUrl)))
          \/ (retry_limit req = 3%nat
              /\ photo req = Utils.fallbackImageUrl))
    /\ (truthy_opt (image_url (article p)) = false ->
        forall req o, In (EvSendPhoto req o) evs ->
          photo req = Utils.fallbackImageUrl).
Proof.
  destruct (run_shape svc env p w) as (out & w' & evs & Hrun & Htrace & Hshape).
  exists out, w', evs. split; [exact Hrun|]. split; [exact Htrace|].
  split.
  - intros req o Hin.
    invert_shapes; cbn [In app idempotency_check] in Hin;
      unfold summarize_event in Hin; members Hin.
    all: first [ left; split; reflexivity | right; split; reflexivity ].
  - intros Hnone req o Hin.
    assert (or_else (image_url (article p)) Utils.fallbackImageUrl
            = Utils.fallbackImageUrl) as Himg.
    { destruct (image_url (article p)) as [s|]; [|reflexivity].
      cbn in Hnone |- *. rewrite Hnone. reflexivity. }
    invert_shapes; cbn [In app idempotency_check] in Hin;
      unfold summarize_event in Hin; members Hin.
    all: cbn [photo first_send first_request fallback_send fallback_request
              Utils.sendPhoto_request].
    all: rewrite ?Himg; vm_compute; reflexivity.
Qed.


(** A Delivery run leaves the cache rows of every other key as they were.
    The row of its own key is either as it was, or new: then the run
    returned, and the row expires 86400 seconds after the instant the run
    ended at. *)
Theorem other_entries_untouched svc env p w :
  exists out w',
    GHNewsProcessorWorkflow.run svc env p w = (out, w')
    /\ (forall key, key <> "article:" +:+ url (article p) ->
          GH_NEWS_CACHE w' !! key = GH_NEWS_CACHE w !! key)
    /\ (GH_NEWS_CACHE w' !! ("article:" +:+ url (article p))
          = GH_NEWS_CACHE w !! ("article:" +:+ url (article p))
        \/ exists value,
             GH_NEWS_CACHE w' !! ("article:" +:+ url (article p))
               = Some {| kv_value := value;
                         kv_expiration := now w' + 1000 * 86400 |}
             /\ exists r, out = Returned r).
Proof.
  destruct (run_shape svc env p w) as (out & w' & evs & Hrun & Htrace & Hshape).
  exists out, w'. split; [exact Hrun|].
  assert (GH_NEWS_CACHE w' = GH_NEWS_CACHE w
          \/ exists value r,
               out = Returned r /\
               GH_NEWS_CACHE w' =
                 kv_insert (now w') ("article:" +:+ url (article p)) value
                   86400 (GH_NEWS_CACHE w)) as [Hsame | (value & r & -> & Hkv)].
  { invert_shapes; eauto. }
  - rewrite Hsame. split; auto.
  - rewrite Hkv. unfold kv_insert. split.
    + intros key Hne. apply lookup_insert_ne. congruence.
    + right. exists value. rewrite lookup_insert_eq. eauto.
Qed.



(** The result of a run that processed the article, the caption of every
    photo it posted and the metadata it cached all carry the one summary the
    model returned, and that summary is not empty; every photo goes to the
    configured channel with a button to the article. *)
Theorem one_summary_everywhere svc env p w :
  exists out w' evs,
    GHNewsProcessorWorkflow.run svc env p w = (out, w')
    /\ trace w' = trace w ++ evs
    /\ forall success u t s sent stamp,
         out = Returned (GHNewsProcessorWorkflow.Processed success u t s sent
                           stamp) ->
         success = true /\ sent = true
         /\ u = url (article p) /\ t = title (article p)
         /\ truthy s = true
         /\ In (summarize_event (article p) (Returned s)) evs
         /\ (forall req o, In (EvSendPhoto req o) evs ->
               caption req
                 = GHNewsProcessorWorkflow.telegram_message (article p) s
               /\ reply_markup_url req = url (article p)
               /\ chat_id req = TELEGRAM_CHANNEL_ID env)
         /\ (forall key value ttl, In (EvKVPut key value ttl) evs ->
               exists at_,
                 value = JSON_stringify svc
                           {| processed_at := ISO_string svc at_;
                              meta_title := title (article p);
                              meta_url := url (article p);
                              meta_summary := s |}).
Proof.
  destruct (run_shape svc env p w) as (out & w' & evs & Hrun & Htrace & Hshape).
  exists out, w', evs. split; [exact Hrun|]. split; [exact Htrace|].
  intros success u t s sent stamp Hout.
  invert_shapes; simplify_eq.
  all: do 5 (split; [first [reflexivity | assumption]|]).
  all: split; [cbn; auto|].
  all: split.
  all: try (intros req o Hin; cbn in Hin; unfold summarize_event in Hin;
            members Hin; repeat split; reflexivity).
  all: intros key value ttl Hin; cbn in Hin; unfold summarize_event in Hin;
    members Hin; eexists; reflexivity.
Qed.

(** ** utils.ts, the single-photo variant *)


(** The variant's [summarizeArticle] never raises: it makes one call to
    the model [gemini-2.5-flash-preview-04-17], with the prompt of the other
    variant, and returns the model's summary, or null (and one console line)
    when the call raises. *)
Theorem single_photo_summary svc content w :
  exists o w',
    UtilsSinglePhoto.summarizeArticle svc content w
      = (Returned (summary_of o), w')
    /\ trace w' = trace w ++
         [EvGenerateObject "gemini-2.5-flash-preview-04-17"
            (Utils.summary_prompt content) o]
    /\ GH_NEWS_CACHE w' = GH_NEWS_CACHE w
    /\ console w' = console w ++
         match o with
         | Returned _ => []
         | Raised _ => ["Summarization failed:"]
         end.
Proof.
  unfold UtilsSinglePhoto.summarizeArticle, try_catch, bind, external.
  match goal with
  | |- context [generateObject ?s ?n ?m ?p] =>
      destruct (generateObject s n m p) as [o dt]
  end.
  exists o. destruct o; cbn; eexists; (split; [reflexivity|]); cbn;
    rewrite ?app_nil_r; repeat split; reflexivity.
Qed.
(** ** joy-news-scraper.ts, continued *)





Lemma pushed_links_spec hrefs l :
  In l (pushed_links hrefs) <-> In (Some l) hrefs /\ truthy l = true.
Proof.
  unfold pushed_links. rewrite <- !list_elem_of_In. rewrite list_elem_of_omap.
  split.
  - intros (href & Hin & Hsome). destruct href as [s|]; cbn in Hsome; [|discriminate].
    destruct (truthy s) eqn:Hs; simplify_eq. auto.
  - intros [Hin Hs]. exists (Some l). split; [exact Hin|]. cbn. rewrite Hs. reflexivity.
Qed.

(** [scrapeMainPage] never raises and makes one request. The links it
    returns are the non-empty [href]s of the matching anchors, in document
    order, repeats included; when the request or the rewriter fails it
    returns no link and logs one line. *)
Theorem scrapeMainPage_links svc target w :
  exists links w' o,
    scrapeMainPage svc target w = (Returned links, w')
    /\ trace w' = trace w ++ [EvGet target o]
    /\ GH_NEWS_CACHE w' = GH_NEWS_CACHE w
    /\ Forall (fun l => truthy l = true) links
    /\ (forall e, o = Raised e ->
          links = [] /\
          console w' = console w ++
            ["Failed to fetch or parse " +:+ target +:+ ":"])
    /\ (forall html e, o = Returned html ->
          HTMLRewriter_hrefs svc html = Raised e ->
          links = [] /\
          console w' = console w ++
            ["Failed to fetch or parse " +:+ target +:+ ":"])
    /\ (forall html hrefs, o = Returned html ->
          HTMLRewriter_hrefs svc html = Returned hrefs ->
          links = omap (fun href => if truthy_opt href then href else None) hrefs
          /\ (forall l, In l links <-> In (Some l) hrefs /\ truthy l = true)
          /\ console w' = console w).
Proof.
  unfold scrapeMainPage, try_catch, bind, ky_get, external.
  destruct (ky_get_text svc (List.length (trace w)) (ky_get_request target))
    as [[html|e] dt];
    cbn [outcome elapsed].
  - destruct (HTMLRewriter_hrefs svc html) as [hrefs|e'] eqn:Hrw; cbn.
    + eexists _, _, _. split; [reflexivity|]. split; [reflexivity|].
      split; [reflexivity|]. split.
      { apply Forall_forall. intros l Hl. apply list_elem_of_In in Hl.
        apply pushed_links_spec in Hl. tauto. }
      repeat split; intros; simplify_eq; try reflexivity; try congruence.
      all: match goal with
           | H1 : HTMLRewriter_hrefs _ _ = Returned ?a,
             H2 : HTMLRewriter_hrefs _ _ = Returned ?b |- _ =>
               assert (a = b) by congruence; subst
           end.
      all: first [ reflexivity | apply pushed_links_spec; tauto
                 | apply pushed_links_spec; assumption
                 | match goal with
                   | H : In ?l (pushed_links ?hs) |- _ =>
                       apply (pushed_links_spec hs l); assumption
                   end ].
    + eexists _, _, _. split; [reflexivity|]. split; [reflexivity|].
      split; [reflexivity|]. split; [constructor|].
      repeat split; intros; simplify_eq; try reflexivity; try congruence.
  - eexists _, _, _. split; [reflexivity|]. split; [reflexivity|].
    split; [reflexivity|]. split; [constructor|].
    repeat split; intros; simplify_eq; try reflexivity; try congruence.
Qed.

(** *** The whole run, event by event *)


Lemma unreadable_spec svc entry :
  unreadable svc entry = true <-> unconvertible svc entry.
Proof.
  unfold unreadable, unconvertible. rewrite andb_true_iff, negb_true_iff.
  rewrite bool_decide_eq_false. split; intros [H1 H2]; split; auto.
  - destruct (Date_parse svc _); [exfalso; apply H2; eauto|reflexivity].
  - rewrite H2. intros [? ?]; discriminate.
Qed.

Lemma blocked_true svc w feed links :
  blocked svc w feed links = true ->
  exists u entry,
    u ∈ links /\ marked (now w) (GH_NEWS_CACHE w) u = false
    /\ entry_at feed u = Some entry /\ unconvertible svc entry.
Proof.
  unfold blocked. rewrite existsb_exists. intros (u & Hin & Hu).
  apply andb_true_iff in Hu as [Hlive Hbad].
  apply negb_true_iff in Hlive.
  destruct (entry_at feed u) as [entry|] eqn:Hfeed; [|discriminate].
  exists u, entry. split; [apply list_elem_of_In; exact Hin|].
  split; [exact Hlive|]. split; [exact Hfeed|].
  apply unreadable_spec. exact Hbad.
Qed.

Lemma blocked_false svc w feed links :
  blocked svc w feed links = false ->
  forall u entry,
    u ∈ links -> marked (now w) (GH_NEWS_CACHE w) u = false ->
    entry_at feed u = Some entry -> ~ unconvertible svc entry.
Proof.
  intros Hfree u entry Hin Hdead Hfeed Hbad.
  assert (blocked svc w feed links = true); [|congruence].
  unfold blocked. apply existsb_exists. exists u.
  split; [apply list_elem_of_In; exact Hin|].
  rewrite Hdead, Hfeed. cbn.
  apply unreadable_spec. exact Hbad.
Qed.

Lemma fetch_article_links_once svc payload w :
  exists links w1 o,
    fetch_article_links svc payload w = (Returned links, w1)
    /\ trace w1 = trace w ++
         [EvStep "fetch_article_links"; EvGet (main_target payload) o]
    /\ GH_NEWS_CACHE w1 = GH_NEWS_CACHE w
    /\ uuids_drawn w1 = uuids_drawn w
    /\ Forall (fun l => truthy l = true) links
    /\ (forall e, o = Raised e -> links = []).
Proof.
  assert (or_else (payload ≫= main_url) DEFAULT_MAIN_URL = main_target payload)
    as Htarget.
  { destruct payload as [[[u|] f]|]; reflexivity. }
  unfold fetch_article_links. rewrite Htarget.
  unfold scrapeMainPage, try_catch, bind, ky_get, external, step_do.
  match goal with |- context [attempt ?n ?k ?b w] =>
    set (body := b) end.
  destruct (ky_get_text svc
              (List.length (trace (record_event (EvStep "fetch_article_links") w)))
              (ky_get_request (main_target payload)))
    as [[html|e] dt] eqn:Hget.
  - destruct (HTMLRewriter_hrefs svc html) as [hrefs|e'] eqn:Hrw.
    + eexists _, _, _. split.
      { apply attempt_returned. unfold body. rewrite Hget. cbn. rewrite Hrw.
        reflexivity. }
      cbn. rewrite <- app_assoc. repeat split; try discriminate.
      apply Forall_forall. intros l Hl. unfold pushed_links in Hl.
      apply list_elem_of_omap in Hl as (href & _ & Hsome).
      destruct href as [s|]; cbn in Hsome; [|discriminate].
      destruct (truthy s) eqn:Hs; simplify_eq. exact Hs.
    + eexists _, _, _. split.
      { apply attempt_returned. unfold body. rewrite Hget. cbn. rewrite Hrw.
        reflexivity. }
      cbn. rewrite <- app_assoc. repeat split; try discriminate. constructor.
  - eexists _, _, _. split.
    { apply attempt_returned. unfold body. rewrite Hget. reflexivity. }
    cbn. rewrite <- app_assoc. repeat split; constructor.
Qed.

Lemma fetch_feed_entries_once svc payload w :
  exists feed w1 o,
    fetch_feed_entries svc payload w = (Returned feed, w1)
    /\ trace w1 = trace w ++
         [EvStep "fetch_feed_entries"; EvGet (feed_target payload) o]
    /\ GH_NEWS_CACHE w1 = GH_NEWS_CACHE w
    /\ uuids_drawn w1 = uuids_drawn w
    /\ (forall e, o = Raised e -> feed = ∅).
Proof.
  assert (or_else (payload ≫= feed_url) DEFAULT_FEED_URL = feed_target payload)
    as Htarget.
  { destruct payload as [[m [u|]]|]; reflexivity. }
  unfold fetch_feed_entries. rewrite Htarget.
  unfold scrapeFeed, parseRSSFeed, try_catch, bind, ky_get, external, step_do.
  match goal with |- context [attempt ?n ?k ?b w] =>
    set (body := b) end.
  destruct (ky_get_text svc
              (List.length (trace (record_event (EvStep "fetch_feed_entries") w)))
              (ky_get_request (feed_target payload)))
    as [[xml|e] dt] eqn:Hget.
  - destruct (XMLParser_items svc xml) as [[items|]|e'] eqn:Hp.
    all: eexists _, _, _; split;
      [apply attempt_returned; unfold body; rewrite Hget; cbn; rewrite Hp;
       reflexivity|];
      cbn; rewrite <- app_assoc; repeat split; discriminate.
  - eexists _, _, _. split.
    { apply attempt_returned. unfold body. rewrite Hget. reflexivity. }
    cbn. rewrite <- app_assoc. repeat split.
Qed.

Lemma check_processed_articles_exact links w :
  (List.length links <= 100)%nat ->
  exists processed w',
    check_processed_articles links w = (Returned processed, w')
    /\ now w' = now w
    /\ GH_NEWS_CACHE w' = GH_NEWS_CACHE w
    /\ uuids_drawn w' = uuids_drawn w
    /\ console w' = console w
    /\ trace w' = trace w ++ bulk_read links
    /\ forall u, u ∈ links ->
         flagged processed u = marked (now w) (GH_NEWS_CACHE w) u.
Proof.
  intros Hshort.
  destruct (check_processed_articles_run links w Hshort)
    as (processed & w' & Hrun & Hn & Hc & Hl & _ & Hp).
  exists processed, w'. split; [exact Hrun|]. split; [exact Hn|].
  split; [exact Hc|].
  assert (uuids_drawn w' = uuids_drawn w /\ trace w' = trace w ++ bulk_read links)
    as [Hu Ht].
  { unfold check_processed_articles in Hrun.
    destruct (decide (List.length links = 0%nat)) as [Hlen|Hlen].
    - destruct links; [|discriminate]. unfold ret in Hrun. simplify_eq.
      split; [reflexivity|]. cbn. rewrite app_nil_r. reflexivity.
    - destruct links as [|l links]; [contradiction Hlen; reflexivity|].
      unfold bind, KV_get_bulk, KV_bulk_limit, ret in Hrun.
      rewrite length_map in Hrun.
      destruct (Nat.ltb_spec 100 (List.length (l :: links))) as [Hlong|_];
        [lia|].
      simplify_eq. split; reflexivity. }
  split; [exact Hu|]. split; [exact Hl|]. split; [exact Ht|].
  apply (processed_default links). exact Hp.
Qed.

Lemma selected_assembled svc w feed links (processed : gmap string bool) :
  (forall u, u ∈ links ->
     flagged processed u = marked (now w) (GH_NEWS_CACHE w) u) ->
  omap (assemble svc (now w) processed feed) links = selected svc w feed links
  /\ omap (log_line processed feed) links = omap (notice w feed) links.
Proof.
  unfold selected. induction links as [|u links IH]; intros Hp;
    [split; reflexivity|].
  destruct IH as [IH1 IH2];
    [intros v Hv; apply Hp, elem_of_cons; auto|].
  cbn [omap list_omap]. unfold assemble at 1, log_line at 1, notice at 1.
  rewrite (Hp u) by (apply elem_of_cons; auto).
  rewrite IH1, IH2. split; reflexivity.
Qed.

Lemma batch_data_exact svc articles w :
  exists w',
    batch_data svc articles w
      = (Returned (batch_of svc (uuids_drawn w) articles), w')
    /\ now w' = now w
    /\ GH_NEWS_CACHE w' = GH_NEWS_CACHE w
    /\ console w' = console w
    /\ trace w' = trace w.
Proof.
  revert w. induction articles as [|a rest IH]; intros w.
  - exists w. repeat split; reflexivity.
  - cbn [batch_data batch_of].
    erewrite bind_returned by (unfold crypto_randomUUID; reflexivity).
    match goal with
    | |- context [bind (batch_data svc rest) _ ?w1] =>
        destruct (IH w1) as (w' & Hrun & Hn & Hc & Hl & Ht)
    end.
    rewrite (bind_returned _ _ _ _ _ Hrun).
    exists w'. split; [reflexivity|]. repeat split; assumption.
Qed.

Lemma zip_batch svc n articles :
  zip_with triggered_record articles (map batch_id (batch_of svc n articles))
  = map triggered_of (batch_of svc n articles).
Proof.
  revert n. induction articles as [|a rest IH]; intros n; [reflexivity|].
  cbn. rewrite IH. reflexivity.
Qed.

Lemma batch_of_articles svc n articles :
  map batch_article (batch_of svc n articles) = articles.
Proof.
  revert n. induction articles as [|a rest IH]; intros n; [reflexivity|].
  cbn. rewrite IH. reflexivity.
Qed.

Lemma trigger_processors_exact svc articles w :
  exists w',
    trigger_processors svc articles w
      = (Returned (map triggered_of (batch_of svc (uuids_drawn w) articles)),
         w')
    /\ now w' = now w
    /\ GH_NEWS_CACHE w' = GH_NEWS_CACHE w
    /\ console w' = console w
    /\ trace w' = trace w ++ batch_call (batch_of svc (uuids_drawn w) articles).
Proof.
  unfold trigger_processors.
  destruct (decide (List.length articles = 0%nat)) as [Hlen|Hlen].
  - destruct articles; [|discriminate].
    exists w. cbn. rewrite app_nil_r. repeat split; reflexivity.
  - destruct (batch_data_exact svc articles w)
      as (w1 & Hrun & Hn & Hc & Hl & Ht).
    rewrite (bind_returned _ _ _ _ _ Hrun).
    unfold bind at 1. unfold createBatch at 1.
    rewrite (triggered_from_run [] articles).
    2:{ rewrite length_map.
        rewrite <- (batch_of_articles svc (uuids_drawn w) articles) at 2.
        rewrite length_map. reflexivity. }
    rewrite zip_batch.
    eexists. split; [reflexivity|]. cbn. split; [exact Hn|].
    split; [exact Hc|]. split; [exact Hl|].
    rewrite Ht. destruct articles; [contradiction Hlen; reflexivity|].
    reflexivity.
Qed.

(** A step whose body raises after one recorded call, in every world, is
    attempted as often as its retry limit allows. *)
Lemma attempt_rejected {A} name (body : M A) e ev :
  (forall w, body w = (Raised e, record_event ev w)) ->
  forall n w,
  exists w',
    attempt name n body w = (Raised e, w')
    /\ now w' = now w
    /\ GH_NEWS_CACHE w' = GH_NEWS_CACHE w
    /\ uuids_drawn w' = uuids_drawn w
    /\ console w' = console w
    /\ trace w' = trace w ++ concat (repeat [EvStep name; ev] (S n)).
Proof.
  intros Hbody. induction n as [|n IH]; intros w.
  - eexists. cbn [attempt]. rewrite Hbody. split; [reflexivity|].
    cbn. rewrite <- app_assoc. repeat split; reflexivity.
  - destruct (IH (record_event ev (record_event (EvStep name) w)))
      as (w' & Hrun & Hn & Hc & Hu & Hl & Ht).
    exists w'. cbn [attempt]. rewrite Hbody. split; [exact Hrun|].
    cbn in Hn, Hc, Hu, Hl, Ht.
    split; [exact Hn|]. split; [exact Hc|]. split; [exact Hu|].
    split; [exact Hl|].
    rewrite Ht. change (concat (repeat [EvStep name; ev] (S (S n))))
      with ([EvStep name; ev] ++ concat (repeat [EvStep name; ev] (S n))).
    rewrite <- !app_assoc. reflexivity.
Qed.

(** Every Discovery run, event by event: the two fetches; then either the
    rejected bulk reads of a listing of more than 100 links, or the bulk
    read followed by the failed attempts of the assembly step, or the bulk
    read, the assembly and the batch. *)
Lemma discovery_outcome svc payload w :
  exists links w1 o1 feed w2 o2,
    fetch_article_links svc payload w = (Returned links, w1)
    /\ fetch_feed_entries svc payload w1 = (Returned feed, w2)
    /\ trace w2 = trace w ++
         [EvStep "fetch_article_links"; EvGet (main_target payload) o1;
          EvStep "fetch_feed_entries"; EvGet (feed_target payload) o2]
    /\ (forall e, o1 = Raised e -> links = [])
    /\ (forall e, o2 = Raised e -> feed = ∅)
    /\ exists out w',
         run svc payload w = (out, w')
         /\ GH_NEWS_CACHE w' = GH_NEWS_CACHE w
         /\ if crowded links
            then
              out = Raised KV_bulk_error
              /\ trace w' = trace w2 ++ rejected_reads svc links
            else if blocked svc w2 feed links
            then
              out = Raised (RangeError "Invalid time value")
              /\ trace w' =
                   trace w2 ++ [EvStep "check_processed_articles"] ++
                   bulk_read links ++
                   repeat (EvStep "prepare_articles")
                     (S (default_retry_limit svc))
            else
              out = Returned
                      {| success := true;
                         total_links := List.length links;
                         total_processed :=
                           List.length (selected svc w2 feed links);
                         processors :=
                           map triggered_of
                             (batch_of svc (uuids_drawn w)
                                (selected svc w2 feed links));
                         timestamp := ISO_string svc (now w2) |}
              /\ trace w' =
                   trace w2 ++ [EvStep "check_processed_articles"] ++
                   bulk_read links ++
                   [EvStep "prepare_articles"; EvStep "trigger_processors"] ++
                   batch_call
                     (batch_of svc (uuids_drawn w)
                        (selected svc w2 feed links))
              /\ console w' = console w2 ++ omap (notice w2 feed) links.
Proof.
  destruct (fetch_article_links_once svc payload w)
    as (links & w1 & o1 & Hlinks & Ht1 & Hc1 & Hu1 & _ & Hfail1).
  destruct (fetch_feed_entries_once svc payload w1)
    as (feed & w2 & o2 & Hfeed & Ht2 & Hc2 & Hu2 & Hfail2).
  exists links, w1, o1, feed, w2, o2.
  split; [exact Hlinks|]. split; [exact Hfeed|].
  split; [rewrite Ht2, Ht1, <- app_assoc; reflexivity|].
  split; [exact Hfail1|]. split; [exact Hfail2|].
  unfold run, step_do_default.
  rewrite (bind_returned _ _ _ _ _ Hlinks).
  rewrite (bind_returned _ _ _ _ _ Hfeed).
  unfold crowded.
  destruct (Nat.ltb_spec 100 (List.length links)) as [Hlong|Hshort].
  { destruct (attempt_rejected "check_processed_articles"
                (check_processed_articles links) KV_bulk_error
                (EvKVGetBulk (map (fun link => "article:" +:+ link) links)))
      with (n := default_retry_limit svc) (w := w2)
      as (w3 & Hcheck & _ & Hc3 & _ & _ & Ht3).
    { intros w0. apply check_processed_articles_rejected. exact Hlong. }
    rewrite (bind_raised _ _ _ _ _ Hcheck).
    exists (Raised KV_bulk_error), w3. split; [reflexivity|].
    split; [congruence|]. split; [reflexivity|exact Ht3]. }
  destruct (check_processed_articles_exact links
              (record_event (EvStep "check_processed_articles") w2) Hshort)
    as (processed & w3 & Hcheck & Hn3 & Hc3 & Hu3 & Hl3 & Ht3 & Hdefault).
  rewrite (bind_returned _ _ _ _ _ (attempt_returned _ _ _ _ _ _ Hcheck)).
  cbn [now GH_NEWS_CACHE uuids_drawn trace console record_event]
    in Hdefault, Hn3, Hc3, Hu3, Hl3, Ht3.
  destruct (selected_assembled svc w2 feed links processed Hdefault)
    as [Hselected Hnotices].
  destruct (blocked svc w2 feed links) eqn:Hblocked.
  - destruct (attempt_raising "prepare_articles"
                (prepare_articles svc processed feed links)
                (RangeError "Invalid time value")) with
      (n := default_retry_limit svc) (w := w3)
      as (w4 & Hprep & Hn4 & Hc4 & _ & Ht4).
    { intros w0. apply prepare_loop_raises.
      destruct (blocked_true _ _ _ _ Hblocked)
        as (u & entry & Hin & Hdead & Hentry & Hbad).
      exists u, entry. repeat split; auto; try apply Hbad.
      rewrite Hdefault by exact Hin. exact Hdead. }
    rewrite (bind_raised _ _ _ _ _ Hprep).
    exists (Raised (RangeError "Invalid time value")), w4.
    split; [reflexivity|]. split; [congruence|]. split; [reflexivity|].
    rewrite Ht4, Ht3. rewrite <- !app_assoc. reflexivity.
  - destruct (prepare_loop_returns svc processed feed links) with
      (articles := @nil Article)
      (w := record_event (EvStep "prepare_articles") w3)
      as (w4 & Hprep & [Hn4 Hc4 Ht4 Hu4] & Hl4).
    { intros u entry Hin Hnew.
      apply (blocked_false _ _ _ _ Hblocked); auto.
      rewrite Hdefault in Hnew by exact Hin. exact Hnew. }
    cbn [now GH_NEWS_CACHE uuids_drawn trace console record_event app]
      in Hprep, Hn4, Hc4, Ht4, Hu4, Hl4.
    rewrite Hn3 in Hprep. rewrite Hselected in Hprep.
    rewrite (bind_returned _ _ _ _ _ (attempt_returned _ _ _ _ _ _ Hprep)).
    destruct (trigger_processors_exact svc (selected svc w2 feed links)
                (record_event (EvStep "trigger_processors") w4))
      as (w5 & Htrig & Hn5 & Hc5 & Hl5 & Ht5).
    cbn [now GH_NEWS_CACHE uuids_drawn trace console record_event]
      in Htrig, Hn5, Hc5, Hl5, Ht5.
    rewrite (bind_returned _ _ _ _ _ (attempt_returned _ _ _ _ _ _ Htrig)).
    eexists _, w5. split; [reflexivity|].
    split; [congruence|].
    split; [|split].
    + unfold Utils.getCurrentUTCDate, Date_now. cbn.
      rewrite Hn5, Hn4, Hn3, Hu4, Hu3, Hu2, Hu1. reflexivity.
    + rewrite Ht5, Ht4, Ht3, Hu4, Hu3, Hu2, Hu1. rewrite <- !app_assoc.
      reflexivity.
    + rewrite Hl5, Hl4, Hl3, Hnotices. reflexivity.
Qed.


Lemma pairs_exists (f : Event -> bool) a b n :
  f a = false -> f b = false -> existsb f (concat (repeat [a; b] n)) = false.
Proof.
  intros Ha Hb. induction n as [|n IH]; cbn [repeat concat app existsb];
    [reflexivity|].
  rewrite Ha, Hb, IH. reflexivity.
Qed.

Lemma rejected_steps svc links :
  steps_of (rejected_reads svc links)
  = repeat "check_processed_articles" (S (default_retry_limit svc)).
Proof.
  unfold rejected_reads. generalize (S (default_retry_limit svc)) as n.
  induction n as [|n IH]; [reflexivity|].
  cbn [repeat concat app]. cbn. unfold steps_of in IH. rewrite IH.
  reflexivity.
Qed.


Ltac discovery_cases H :=
  match type of H with
  | if crowded ?l then _ else _ =>
      destruct (crowded l) eqn:Hcrowded;
      [ destruct H as [-> H]
      | match type of H with
        | if ?b then _ else _ =>
            destruct b eqn:Hblocked;
            [ destruct H as [-> H]
            | let Hconsole := fresh "Hconsole" in
              destruct H as (-> & H & Hconsole) ]
        end ]
  end.

Ltac events_of Hrun Hcase Ht2 :=
  eexists; split; [exact Hrun|];
  split; [rewrite Hcase, Ht2, <- !app_assoc; reflexivity|].


(** Every Discovery run starts with one attempt of each fetch step, each
    making one [ky.get] call: the listing page, then the feed, at the URLs
    of the payload or else the defaults. No further [ky.get] call and no
    further attempt of a fetch step follows: the retry limit of the steps
    never comes into play, because the scrape functions absorb every
    failure of the call. (What the client repeats inside a call is not
    counted here.) *)
Theorem sources_fetched_once svc payload w :
  exists out w' o1 o2 rest,
    run svc payload w = (out, w')
    /\ trace w' = trace w ++
         [EvStep "fetch_article_links";
          EvGet (or_else (payload ≫= main_url) "https://www.myjoyonline.com/")
            o1;
          EvStep "fetch_feed_entries";
          EvGet (or_else (payload ≫= feed_url)
                   "https://www.myjoyonline.com/feed/") o2] ++ rest
    /\ existsb is_fetch rest = false
    /\ ~ In "fetch_article_links" (steps_of rest)
    /\ ~ In "fetch_feed_entries" (steps_of rest).
Proof.
  destruct (discovery_outcome svc payload w)
    as (links & w1 & o1 & feed & w2 & o2 & _ & _ & Ht2 & _ & _ & out & w'
        & Hrun & Hkv & Hcase).
  assert (or_else (payload ≫= main_url) "https://www.myjoyonline.com/"
          = main_target payload) as ->
    by (destruct payload as [[[u|] f]|]; reflexivity).
  assert (or_else (payload ≫= feed_url) "https://www.myjoyonline.com/feed/"
          = feed_target payload) as ->
    by (destruct payload as [[m [u|]]|]; reflexivity).
  exists out, w', o1, o2.
  assert (forall n,
            existsb is_fetch (repeat (EvStep "prepare_articles") n) = false
            /\ ~ In "fetch_article_links"
                 (steps_of (repeat (EvStep "prepare_articles") n))
            /\ ~ In "fetch_feed_entries"
                 (steps_of (repeat (EvStep "prepare_articles") n))) as Hrep.
  { induction n as [|n (IH1 & IH2 & IH3)]; cbn; [tauto|].
    repeat split; auto; intros [H|H]; try discriminate; auto. }
  discovery_cases Hcase.
  - events_of Hrun Hcase Ht2.
    split; [apply pairs_exists; reflexivity|].
    rewrite rejected_steps.
    split; intros H; apply repeat_spec in H; discriminate.
  - events_of Hrun Hcase Ht2.
    destruct (Hrep (S (default_retry_limit svc))) as (R1 & R2 & R3).
    unfold steps_of in *.
    destruct links; cbn [bulk_read app]; cbn -[repeat];
      rewrite ?R1; repeat split; auto; intros [H|H]; try discriminate; auto.
  - events_of Hrun Hcase Ht2.
    destruct links; cbn [bulk_read app];
      destruct (batch_of svc (uuids_drawn w) _); cbn;
      repeat split; auto; intuition discriminate.
Qed.

(** When the listing yields no link, the run still fetches the feed, then
    goes through the three remaining steps without a cache read and without
    a [createBatch] call, and returns zero counts. *)
Theorem empty_listing_run svc payload w w1 :
  fetch_article_links svc payload w = (Returned [], w1) ->
  exists w' o2 stamp,
    run svc payload w
      = (Returned {| success := true; total_links := 0; total_processed := 0;
                     processors := []; timestamp := stamp |}, w')
    /\ trace w' = trace w1 ++
         [EvStep "fetch_feed_entries";
          EvGet (or_else (payload ≫= feed_url)
                   "https://www.myjoyonline.com/feed/") o2;
          EvStep "check_processed_articles"; EvStep "prepare_articles";
          EvStep "trigger_processors"]
    /\ GH_NEWS_CACHE w' = GH_NEWS_CACHE w.
Proof.
  intros Hempty.
  destruct (fetch_feed_entries_once svc payload w1)
    as (feed' & w2' & o2' & Hfeed' & Ht2' & _).
  destruct (discovery_outcome svc payload w)
    as (links & w1' & o1 & feed & w2 & o2 & Hlinks & Hfeed & Ht2 & _ & _ & out
        & w' & Hrun & Hkv & Hcase).
  rewrite Hempty in Hlinks. simplify_eq.
  rewrite Hfeed' in Hfeed. simplify_eq.
  assert (or_else (payload ≫= feed_url) "https://www.myjoyonline.com/feed/"
          = feed_target payload) as ->
    by (destruct payload as [[m [u|]]|]; reflexivity).
  cbn in Hcase. destruct Hcase as (-> & Ht & _).
  exists w', o2', (ISO_string svc (now w2)).
  split; [exact Hrun|]. split; [|exact Hkv].
  rewrite Ht, Ht2', <- !app_assoc. reflexivity.
Qed.

Lemma batch_ids svc n articles :
  map batch_id (batch_of svc n articles)
  = map (randomUUID svc) (seq n (List.length articles)).
Proof.
  revert n. induction articles as [|a rest IH]; intros n; [reflexivity|].
  cbn. rewrite IH. reflexivity.
Qed.

Lemma selected_shorter svc w feed links :
  (List.length (selected svc w feed links) <= List.length links)%nat.
Proof.
  unfold selected. induction links as [|u links IH]; cbn; [lia|].
  destruct (marked _ _ u); [lia|].
  destruct (entry_at feed u); cbn; lia.
Qed.

(** The result of a returning Discovery run agrees with what it did:
    [total_processed] is the number of [processors] and at most
    [total_links]; every processor has status [triggered]; with none there
    was no [createBatch] call; otherwise there was exactly one, the last
    event of the run, and its entries carry the ids and the URLs of
    [processors], in order. *)
Theorem result_matches_batch svc payload w :
  exists out w' evs,
    run svc payload w = (out, w')
    /\ trace w' = trace w ++ evs
    /\ forall r, out = Returned r ->
         success r = true
         /\ List.length (processors r) = total_processed r
         /\ (total_processed r <= total_links r)%nat
         /\ Forall (fun t => status t = "triggered") (processors r)
         /\ (total_processed r = 0%nat -> existsb is_batch evs = false)
         /\ (total_processed r <> 0%nat ->
             exists batch,
               List.filter is_batch evs = [EvCreateBatch batch]
               /\ last evs = Some (EvCreateBatch batch)
               /\ map batch_id batch = map processor_id (processors r)
               /\ map (fun b => url (batch_article b)) batch
                  = map trig_url (processors r)).
Proof.
  destruct (discovery_outcome svc payload w)
    as (links & w1 & o1 & feed & w2 & o2 & _ & _ & Ht2 & _ & _ & out & w'
        & Hrun & Hkv & Hcase).
  exists out, w'.
  discovery_cases Hcase.
  - events_of Hrun Hcase Ht2. discriminate.
  - events_of Hrun Hcase Ht2. discriminate.
  - events_of Hrun Hcase Ht2.
    intros r [= <-]. cbn [success processors total_processed total_links].
    set (articles := selected svc w2 feed links).
    set (batch := batch_of svc (uuids_drawn w) articles).
    assert (List.length batch = List.length articles) as Hlen.
    { unfold batch.
      rewrite <- (batch_of_articles svc (uuids_drawn w) articles) at 2.
      rewrite length_map. reflexivity. }
    split; [reflexivity|]. split; [rewrite length_map; exact Hlen|].
    split; [apply selected_shorter|].
    split.
    { apply Forall_forall. intros t Ht.
      apply list_elem_of_fmap in Ht as (b & -> & _). reflexivity. }
    split.
    + intros Hzero. rewrite Hzero in Hlen.
      destruct batch; [|discriminate]. destruct links; reflexivity.
    + intros Hsome. exists batch.
      destruct batch as [|b batch']; [cbn in Hlen; congruence|].
      rewrite !map_map.
      destruct links; cbn; repeat split; reflexivity.
Qed.

Lemma batch_members svc n articles b :
  In b (batch_of svc n articles) -> In (batch_article b) articles.
Proof.
  intros Hin. rewrite <- (batch_of_articles svc n articles).
  apply in_map. exact Hin.
Qed.

Lemma selected_member svc w feed links a :
  In a (selected svc w feed links) ->
  exists u entry,
    In u links /\ marked (now w) (GH_NEWS_CACHE w) u = false
    /\ entry_at feed u = Some entry /\ a = article_of svc (now w) u entry.
Proof.
  unfold selected. rewrite <- list_elem_of_In, list_elem_of_omap.
  intros (u & Hin & Hsome). apply list_elem_of_In in Hin.
  destruct (marked (now w) (GH_NEWS_CACHE w) u) eqn:Hlive; [discriminate|].
  destruct (entry_at feed u) as [entry|] eqn:Hfeed; [|discriminate].
  cbn in Hsome. exists u, entry. simplify_eq. auto.
Qed.


Lemma empty_listing_run_witness :
  exists w' stamp,
    run Scenario.bare None Sample.fresh
      = (Returned {| success := true; total_links := 0; total_processed := 0;
                     processors := []; timestamp := stamp |}, w')
    /\ GH_NEWS_CACHE w' = ∅.
Proof.
  destruct (empty_listing_run Scenario.bare None Sample.fresh
              (snd (fetch_article_links Scenario.bare None Sample.fresh)))
    as (w' & o2 & stamp & Hrun & _ & Hkv).
  - vm_compute. reflexivity.
  - exists w', stamp. split; [exact Hrun|exact Hkv].
Defined.



(** The ids of a returning run's processors are pairwise distinct whenever
    [crypto.randomUUID] does not repeat itself: each article gets a draw of
    its own. *)
Theorem instance_ids_distinct svc payload w :
  (forall n m, randomUUID svc n = randomUUID svc m -> n = m) ->
  exists out w',
    run svc payload w = (out, w')
    /\ forall r, out = Returned r ->
         List.NoDup (map processor_id (processors r)).
Proof.
  intros Hinj.
  destruct (discovery_outcome svc payload w)
    as (links & w1 & o1 & feed & w2 & o2 & _ & _ & Ht2 & _ & _ & out & w'
        & Hrun & Hkv & Hcase).
  exists out, w'. split; [exact Hrun|]. intros r Hout.
  discovery_cases Hcase; try discriminate. injection Hout as <-.
  cbn [processors]. rewrite map_map. cbn.
  change (map (fun b => batch_id b) ?l) with (map batch_id l).
  rewrite batch_ids.
  apply Finite.Injective_map_NoDup; [exact Hinj|apply seq_NoDup].
Qed.

Lemma sample_ids_length n :
  String.length (String.concat "" (repeat "i" n)) = n.
Proof.
  induction n as [|n IH]; [reflexivity|].
  destruct n as [|n]; [reflexivity|].
  change (S (String.length (String.concat "" (repeat "i" (S n))))
          = S (S n)).
  rewrite IH. reflexivity.
Qed.

Lemma sample_ids_injective summary post hrefs items n m :
  randomUUID (Sample.services summary post hrefs items) n
  = randomUUID (Sample.services summary post hrefs items) m -> n = m.
Proof.
  intros H. apply (f_equal String.length) in H.
  lazy beta iota zeta delta
    [randomUUID Sample.services String.append String.length] in H.
  fold String.length in H. rewrite !sample_ids_length in H. lia.
Qed.

Lemma instance_ids_distinct_witness :
  exists out w',
    run Sample.three None Sample.fresh = (out, w')
    /\ forall r, out = Returned r ->
         List.NoDup (map processor_id (processors r)).
Proof.
  apply (instance_ids_distinct Sample.three None Sample.fresh).
  apply sample_ids_injective.
Defined.

(** In a returning run whose feed has no item linked [__proto__], every
    listed link that is not the name of an inherited property is accounted
    for: with a live cache entry it is logged as skipped and not triggered;
    when the feed lacks it, it is logged as not found and not triggered;
    otherwise it is triggered. *)
Theorem every_link_accounted_for svc payload w :
  exists links w1 feed w2 out w',
    fetch_article_links svc payload w = (Returned links, w1)
    /\ fetch_feed_entries svc payload w1 = (Returned feed, w2)
    /\ run svc payload w = (out, w')
    /\ (feed !! "__proto__" = None ->
        forall r, out = Returned r ->
        forall u, In u links -> inherited u = false ->
          if is_live (now w2) (GH_NEWS_CACHE w2) u
          then In ("Skipping already processed article: " +:+ u) (console w')
               /\ ~ In u (map trig_url (processors r))
          else
            match feed !! u with
            | None =>
                In ("Article not found in feed: " +:+ u) (console w')
                /\ ~ In u (map trig_url (processors r))
            | Some _ => In u (map trig_url (processors r))
            end).
Proof.
  destruct (discovery_outcome svc payload w)
    as (links & w1 & o1 & feed & w2 & o2 & Hlinks & Hfeed & Ht2 & _ & _ & out
        & w' & Hrun & Hkv & Hcase).
  exists links, w1, feed, w2, out, w'.
  split; [exact Hlinks|]. split; [exact Hfeed|]. split; [exact Hrun|].
  intros _ r Hout u Hin Hown.
  discovery_cases Hcase; try discriminate. injection Hout as <-.
  cbn [processors]. rewrite map_map.
  assert (marked (now w2) (GH_NEWS_CACHE w2) u
          = is_live (now w2) (GH_NEWS_CACHE w2) u) as Hmark.
  { unfold marked. rewrite (own_name_not_proto u Hown). reflexivity. }
  assert (forall v,
            In v (map (fun b => trig_url (triggered_of b))
                    (batch_of svc (uuids_drawn w) (selected svc w2 feed links)))
            <-> In v (map url (selected svc w2 feed links))) as Hurls.
  { intros v.
    rewrite <- (batch_of_articles svc (uuids_drawn w)
                  (selected svc w2 feed links)) at 2.
    rewrite map_map. reflexivity. }
  assert (In u (map url (selected svc w2 feed links))
          <-> is_live (now w2) (GH_NEWS_CACHE w2) u = false
              /\ is_Some (feed !! u)) as Hsel.
  { rewrite in_map_iff. split.
    - intros (a & Hurl & Ha).
      apply selected_member in Ha as (v & entry & Hv & Hdead & Hentry & ->).
      cbn in Hurl. subst v. rewrite Hmark in Hdead.
      rewrite (entry_at_own_name feed u Hown) in Hentry. eauto.
    - intros [Hdead [entry Hentry]].
      exists (article_of svc (now w2) u entry). split; [reflexivity|].
      unfold selected. apply list_elem_of_In, list_elem_of_omap.
      exists u. split; [apply list_elem_of_In; exact Hin|].
      rewrite Hmark, Hdead, (entry_at_own_name feed u Hown), Hentry.
      reflexivity. }
  assert (forall line, notice w2 feed u = Some line -> In line (console w'))
    as Hnotice.
  { intros line Hline. rewrite Hconsole. apply in_or_app. right.
    apply list_elem_of_In, list_elem_of_omap. exists u.
    split; [apply list_elem_of_In; exact Hin|exact Hline]. }
  unfold notice in Hnotice.
  rewrite Hmark, (entry_at_own_name feed u Hown) in Hnotice.
  destruct (is_live (now w2) (GH_NEWS_CACHE w2) u).
  - split; [apply Hnotice; reflexivity|].
    intros H. apply Hurls, Hsel in H as [H _]. discriminate.
  - destruct (feed !! u) as [entry|].
    + apply Hurls, Hsel. eauto.
    + split; [apply Hnotice; reflexivity|].
      intros H. apply Hurls, Hsel in H as [_ [? H]]. discriminate.
Qed.

(** Every article handed to [createBatch] whose URL is not the name of an
    inherited property, in a run whose feed has no item linked [__proto__],
    was listed, has no live cache entry, and is built from the feed entry of
    its URL: title, content, the first media URL (the empty string when
    there is none), and the entry's date converted, or the current time when
    the entry has no date. *)
Theorem triggered_articles_come_from_feed svc payload w :
  exists links w1 feed w2 out w' evs,
    fetch_article_links svc payload w = (Returned links, w1)
    /\ fetch_feed_entries svc payload w1 = (Returned feed, w2)
    /\ run svc payload w = (out, w')
    /\ trace w' = trace w ++ evs
    /\ (feed !! "__proto__" = None ->
        forall batch b, In (EvCreateBatch batch) evs -> In b batch ->
        inherited (url (batch_article b)) = false ->
        exists entry,
          In (url (batch_article b)) links
          /\ ~ live w2 (url (batch_article b))
          /\ feed !! url (batch_article b) = Some entry
          /\ title (batch_article b) = fe_title entry
          /\ content (batch_article b) = fe_summary entry
          /\ image_url (batch_article b)
             = Some (or_else (head (fe_media_content entry)) "")
          /\ if truthy (fe_published entry)
             then exists t,
                    Date_parse svc (fe_published entry) = Some t
                    /\ date_published (batch_article b) = ISO_string svc t
             else date_published (batch_article b)
                  = ISO_string svc (now w2)).
Proof.
  destruct (discovery_outcome svc payload w)
    as (links & w1 & o1 & feed & w2 & o2 & Hlinks & Hfeed & Ht2 & _ & _ & out
        & w' & Hrun & Hkv & Hcase).
  exists links, w1, feed, w2, out, w'.
  discovery_cases Hcase.
  - eexists. split; [exact Hlinks|]. split; [exact Hfeed|].
    split; [exact Hrun|].
    split; [rewrite Hcase, Ht2, <- !app_assoc; reflexivity|].
    intros _ batch b Hin _ _. exfalso.
    cbn [app] in Hin. do 4 (destruct Hin as [Hin|Hin]; [discriminate|]).
    assert (existsb is_batch (rejected_reads svc links) = false) as Hnone
      by (apply pairs_exists; reflexivity).
    assert (existsb is_batch (rejected_reads svc links) = true); [|congruence].
    apply existsb_exists. eexists. split; [exact Hin|reflexivity].
  - eexists. split; [exact Hlinks|]. split; [exact Hfeed|].
    split; [exact Hrun|].
    split; [rewrite Hcase, Ht2, <- !app_assoc; reflexivity|].
    intros _ batch b Hin _ _. exfalso.
    cbn [app] in Hin. repeat (destruct Hin as [Hin|Hin]; [discriminate|]).
    apply in_app_or in Hin as [Hin|Hin].
    + destruct links; cbn in Hin; members Hin.
    + apply repeat_spec in Hin. discriminate.
  - eexists. split; [exact Hlinks|]. split; [exact Hfeed|].
    split; [exact Hrun|].
    split; [rewrite Hcase, Ht2, <- !app_assoc; reflexivity|].
    intros _ batch b Hin Hb Hown.
    assert (batch = batch_of svc (uuids_drawn w) (selected svc w2 feed links))
      as ->.
    { cbn [app] in Hin. repeat (destruct Hin as [Hin|Hin]; [discriminate|]).
      apply in_app_or in Hin as [Hin|Hin].
      { destruct links; cbn in Hin; members Hin. }
      cbn [app] in Hin. repeat (destruct Hin as [Hin|Hin]; [discriminate|]).
      destruct (batch_of svc (uuids_drawn w) (selected svc w2 feed links));
        cbn in Hin; [contradiction|].
      destruct Hin as [Hin|Hin]; [|contradiction].
      injection Hin as <-. reflexivity. }
    apply batch_members, selected_member in Hb
      as (u & entry & Hu & Hdead & Hentry & Hb).
    rewrite Hb in Hown |- *.
    cbn [article_of url title content image_url date_published] in Hown |- *.
    unfold marked in Hdead. rewrite (own_name_not_proto u Hown) in Hdead.
    cbn [orb] in Hdead.
    rewrite (entry_at_own_name feed u Hown) in Hentry.
    exists entry.
    split; [exact Hu|].
    split; [apply is_live_false; exact Hdead|].
    split; [exact Hentry|]. do 3 (split; [reflexivity|]).
    unfold date_text.
    destruct (truthy (fe_published entry)) eqn:Hdate; [|reflexivity].
    destruct (Date_parse svc (fe_published entry)) as [t|] eqn:Hparse.
    + exists t. split; reflexivity.
    + exfalso.
      apply (blocked_false _ _ _ _ Hblocked u entry).
      * apply list_elem_of_In. exact Hu.
      * unfold marked. rewrite (own_name_not_proto u Hown). exact Hdead.
      * rewrite (entry_at_own_name feed u Hown). exact Hentry.
      * split; assumption.
Qed.


(** ** From a feed entry to the photo *)

(** An article assembled from a feed entry that carries no media has the
    empty string for image, so the Delivery run started for it posts the
    fallback image only. *)
Theorem entry_without_media_gets_fallback svc env t link entry flag w :
  fe_media_content entry = [] ->
  exists out w' evs,
    GHNewsProcessorWorkflow.run svc env
      {| article := article_of svc t link entry; reprocess := flag |} w
      = (out, w')
    /\ trace w' = trace w ++ evs
    /\ forall req o, In (EvSendPhoto req o) evs ->
         photo req = Utils.fallbackImageUrl.
Proof.
  intros Hmedia.
  assert (or_else (image_url (article_of svc t link entry))
            Utils.fallbackImageUrl = Utils.fallbackImageUrl) as Himg.
  { cbn [article_of image_url]. rewrite Hmedia. reflexivity. }
  revert Himg. generalize (article_of svc t link entry) as a. intros a Himg.
  destruct (run_shape svc env {| article := a; reprocess := flag |} w)
    as (out & w' & evs & Hrun & Htrace & Hshape).
  exists out, w', evs. split; [exact Hrun|]. split; [exact Htrace|].
  intros req o Hin.
  cbn [article] in *.
  invert_shapes; cbn [In app idempotency_check] in Hin;
    unfold summarize_event in Hin; members Hin.
  all: cbn [photo first_send first_request fallback_send fallback_request
            Utils.sendPhoto_request].
  all: rewrite ?Himg; vm_compute; reflexivity.
Qed.

Lemma entry_without_media_gets_fallback_witness :
  exists out w',
    GHNewsProcessorWorkflow.run Sample.working Sample.env
      {| article :=
           article_of Sample.working 0 Sample.page_a
             (entry_of_item Sample.page_a
                {| item_link := Some Sample.page_a;
                   item_title := Some "Revised"; item_pubDate := None;
                   item_description := None; item_media_content := None |});
         reprocess := None |} Sample.fresh = (out, w')
    /\ forall req o, In (EvSendPhoto req o) (trace w') ->
         photo req = Utils.fallbackImageUrl.
Proof.
  destruct (entry_without_media_gets_fallback Sample.working Sample.env 0
              Sample.page_a
              (entry_of_item Sample.page_a
                 {| item_link := Some Sample.page_a;
                    item_title := Some "Revised"; item_pubDate := None;
                    item_description := None; item_media_content := None |})
              None Sample.fresh)
    as (out & w' & evs & Hrun & Htrace & Hphoto).
  - reflexivity.
  - exists out, w'. split; [exact Hrun|]. rewrite Htrace. exact Hphoto.
Defined.

(** ** index.ts *)

Lemma start_processor_complete wf svc b calls w :
  complete b = true ->
  exists response answer w',
    Index.start_processor wf svc (Returned b) (calls, w)
      = (response,
         (calls ++
          [Index.CreateProcessor (randomUUID svc (uuids_drawn w))
             (requested b (ISO_string svc (now w))) answer], w'))
    /\ answer =
         Index.processor_create wf (List.length calls)
           (randomUUID svc (uuids_drawn w))
           (requested b (ISO_string svc (now w)))
    /\ uuids_drawn w' = S (uuids_drawn w)
    /\ GH_NEWS_CACHE w' = GH_NEWS_CACHE w
    /\ trace w' = trace w
    /\ response =
         match answer with
         | Returned instance =>
             {| Index.http_status := 200;
                Index.payload :=
                  Index.ProcessorStarted true instance
                    "News processor workflow started"
                    (default false (Index.body_reprocess b)) |}
         | Raised e => Index.failed 500 (Index.message_of e)
         end.
Proof.
  intros Hok. unfold complete in Hok.
  apply andb_true_iff in Hok as [Hok Hcontent].
  apply andb_true_iff in Hok as [Hurl Htitle].
  cbn. rewrite Hurl, Htitle, Hcontent. cbn.
  destruct (Index.processor_create wf _ _ _) as [instance|e] eqn:Hans.
  - eexists _, _, _. split; [reflexivity|].
    split; [reflexivity|].
    cbn. repeat split. destruct (default false _); reflexivity.
  - eexists _, _, _. split; [reflexivity|].
    split; [reflexivity|].
    cbn. repeat split.
Qed.

(** A request to the processor route whose body cannot be read, or lacks
    a URL, a title or a content (the empty string counts as lacking), creates
    no workflow instance and draws no id: the answer is an error, with
    status 400 when the body was read. *)
Theorem incomplete_request_creates_nothing wf svc body calls w :
  (forall b, body = Returned b -> complete b = false) ->
  exists response w',
    Index.start_processor wf svc body (calls, w) = (response, (calls, w'))
    /\ (Index.http_status response = 400%nat
        \/ Index.http_status response = 500%nat)
    /\ (exists error, Index.payload response = Index.Failure false error)
    /\ uuids_drawn w' = uuids_drawn w
    /\ (forall b, body = Returned b ->
          w' = w /\ Index.http_status response = 400%nat).
Proof.
  intros Hbad. destruct body as [b|e]; cbn.
  - specialize (Hbad b eq_refl). unfold complete in Hbad.
    destruct (truthy_opt (Index.body_url b)),
      (truthy_opt (Index.body_title b)),
      (truthy_opt (Index.body_content b)); try discriminate; cbn.
    all: eexists _, _; split; [reflexivity|]; cbn; repeat split; eauto.
  - eexists _, _. split; [reflexivity|]. cbn.
    split; [eauto|]. split; [eauto|]. split; [reflexivity|].
    intros b0 Hb. discriminate.
Qed.

(** A body with an empty title is refused with status 400. *)
Lemma incomplete_request_creates_nothing_witness :
  exists response,
    Index.start_processor Scenario.bindings Sample.working
      (Returned Scenario.untitled) ([], Sample.fresh)
      = (response, ([], Sample.fresh))
    /\ Index.http_status response = 400%nat.
Proof.
  destruct (incomplete_request_creates_nothing Scenario.bindings
              Sample.working (Returned Scenario.untitled) [] Sample.fresh)
    as (response & w' & Hrun & _ & _ & _ & Hread).
  - intros b [= <-]. reflexivity.
  - destruct (Hread Scenario.untitled eq_refl) as [-> Hstatus].
    exists response. split; [exact Hrun|exact Hstatus].
Defined.

(** A request to the processor route that names a URL, a title and a
    content creates exactly one instance, under a fresh id, for an article
    with these three fields, the image of the body (the empty string when it
    has none), the current time as publish date, and the body's reprocess
    flag (false when absent). The answer has status 200 and the instance's
    id, or status 500 and the error's message when the creation raises. *)
Theorem complete_request_creates_one wf svc b calls w :
  complete b = true ->
  exists response id answer w',
    Index.start_processor wf svc (Returned b) (calls, w)
      = (response,
         (calls ++
          [Index.CreateProcessor id (requested b (ISO_string svc (now w)))
             answer], w'))
    /\ id = randomUUID svc (uuids_drawn w)
    /\ uuids_drawn w' = S (uuids_drawn w)
    /\ GH_NEWS_CACHE w' = GH_NEWS_CACHE w
    /\ truthy (url (article (requested b (ISO_string svc (now w))))) = true
    /\ (forall instance, answer = Returned instance ->
          response =
            {| Index.http_status := 200;
               Index.payload :=
                 Index.ProcessorStarted true instance
                   "News processor workflow started"
                   (default false (Index.body_reprocess b)) |})
    /\ (forall e, answer = Raised e ->
          response = Index.failed 500 (Index.message_of e)).
Proof.
  intros Hok.
  destruct (start_processor_complete wf svc b calls w Hok)
    as (response & answer & w' & Hrun & _ & Hu & Hkv & _ & Hresponse).
  exists response, (randomUUID svc (uuids_drawn w)), answer, w'.
  split; [exact Hrun|]. split; [reflexivity|]. split; [exact Hu|].
  split; [exact Hkv|]. split.
  - unfold complete in Hok. cbn.
    destruct (Index.body_url b); cbn in *; [|discriminate].
    destruct (truthy s); [reflexivity|discriminate].
  - split; intros ? ->; exact Hresponse.
Qed.

Lemma complete_request_creates_one_witness :
  exists response w',
    Index.start_processor Scenario.bindings Sample.working
      (Returned Scenario.body_a) ([], Sample.fresh)
      = (response,
         ([Index.CreateProcessor "instance-"
             (requested Scenario.body_a "1970-01-01T00:00:00.000Z")
             (Returned "instance-")], w'))
    /\ Index.http_status response = 200%nat.
Proof.
  destruct (complete_request_creates_one Scenario.bindings Sample.working
              Scenario.body_a [] Sample.fresh)
    as (response & id & answer & w' & Hrun & -> & _ & _ & _ & Hok & _).
  - reflexivity.
  - assert (answer = Returned "instance-") as ->.
    { vm_compute in Hrun. injection Hrun as _ H _. symmetry. exact H. }
    exists response, w'. split; [exact Hrun|].
    rewrite (Hok "instance-" eq_refl). reflexivity.
Defined.

(** Every request to the scraper route creates exactly one scraper
    instance, under a fresh id. A body that cannot be read does not stop it:
    the instance is then created with empty params. The answer has status
    200 and the instance's id, or status 500 and the error's message, with
    one console line, when the creation raises. The cache is not touched. *)
Theorem scraper_route_creates_one wf svc body calls w :
  exists response answer w',
    Index.start_scraper wf svc body (calls, w)
      = (response,
         (calls ++
          [Index.CreateScraper (randomUUID svc (uuids_drawn w))
             (Some match body with
                   | Returned b => b
                   | Raised _ => {| main_url := None; feed_url := None |}
                   end) answer], w'))
    /\ uuids_drawn w' = S (uuids_drawn w)
    /\ GH_NEWS_CACHE w' = GH_NEWS_CACHE w
    /\ trace w' = trace w
    /\ match answer with
       | Returned instance =>
           response =
             {| Index.http_status := 200;
                Index.payload :=
                  Index.ScraperStarted true instance
                    "News scraper workflow started" |}
           /\ console w' = console w
       | Raised e =>
           response = Index.failed 500 (Index.message_of e)
           /\ console w' = console w ++ ["Error starting scraper workflow:"]
       end.
Proof.
  cbn.
  destruct (Index.scraper_create wf _ _ _) as [instance|e] eqn:Hans.
  - eexists _, (Returned instance), _. split; [reflexivity|].
    cbn. repeat split.
  - eexists _, (Raised e), _. split; [reflexivity|].
    cbn. repeat split.
Qed.

(** The status route looks an instance up only for the types [scraper] and
    [processor], each on its own binding; any other type is answered 400
    without a lookup. A lookup that finds nothing is answered 404; one that
    finds an instance is answered 200 with the id and the type of the
    request and the instance's status; a lookup or a status call that raises
    is answered 500. No instance is ever created, and the cache is not
    touched. *)
Theorem status_route_classifies wf type id calls w :
  exists response calls' w',
    Index.get_status wf type id (calls, w) = (response, (calls', w'))
    /\ GH_NEWS_CACHE w' = GH_NEWS_CACHE w
    /\ trace w' = trace w
    /\ uuids_drawn w' = uuids_drawn w
    /\ (type <> "scraper" -> type <> "processor" ->
        calls' = calls /\ w' = w
        /\ response = Index.failed 400 Index.invalid_type)
    /\ (type = "scraper" \/ type = "processor" ->
        exists answer,
          calls' =
            calls ++
            [Index.GetInstance
               (if String.eqb type "scraper"
                then "JOY_NEWS_SCRAPER_WORKFLOW"
                else "GH_NEWS_PROCESSOR_WORKFLOW") id answer]
          /\ response =
               match answer with
               | Returned None =>
                   Index.failed 404 "Workflow instance not found"
               | Returned (Some (Returned status)) =>
                   {| Index.http_status := 200;
                      Index.payload :=
                        Index.StatusReport true id type status |}
               | Returned (Some (Raised e)) | Raised e =>
                   Index.failed 500 (Index.message_of e)
               end).
Proof.
  unfold Index.get_status.
  destruct (String.eqb_spec type "scraper") as [->|Hs].
  - destruct (Index.instance_get wf _ _ _) as [[[status|e]|]|e] eqn:Hans.
    all: eexists _, _, _; split; [reflexivity|]; cbn.
    all: do 3 (split; [reflexivity|]).
    all: split; [intros H; contradiction H; reflexivity|].
    all: intros _; eexists; split; reflexivity.
  - destruct (String.eqb_spec type "processor") as [->|Hp].
    + destruct (Index.instance_get wf _ _ _) as [[[status|e]|]|e] eqn:Hans.
      all: eexists _, _, _; split; [reflexivity|]; cbn.
      all: do 3 (split; [reflexivity|]).
      all: split; [intros _ H; contradiction H; reflexivity|].
      all: intros _; eexists; split; reflexivity.
    + eexists _, _, _. split; [reflexivity|]. do 3 (split; [reflexivity|]).
      split; [auto|]. intros [H|H]; contradiction.
Qed.

(** The scheduled handler creates one scraper instance without params, and
    the scraper route one with empty params when its body cannot be read. A
    Discovery run started with either reads the default listing page and
    then the default feed. *)
Theorem scrape_without_params_uses_defaults wf svc calls w e w0 :
  (exists answer w',
     Index.scheduled wf svc (calls, w)
       = (calls ++
          [Index.CreateScraper (randomUUID svc (uuids_drawn w)) None answer],
          w')
     /\ GH_NEWS_CACHE w' = GH_NEWS_CACHE w /\ trace w' = trace w)
  /\ (exists response answer w',
        Index.start_scraper wf svc (Raised e) (calls, w)
          = (response,
             (calls ++
              [Index.CreateScraper (randomUUID svc (uuids_drawn w))
                 (Some {| main_url := None; feed_url := None |}) answer],
              w')))
  /\ forall payload,
       In payload [None; Some {| main_url := None; feed_url := None |}] ->
       exists out w0' o1 o2 rest,
         run svc payload w0 = (out, w0')
         /\ trace w0' = trace w0 ++
              [EvStep "fetch_article_links";
               EvGet "https://www.myjoyonline.com/" o1;
               EvStep "fetch_feed_entries";
               EvGet "https://www.myjoyonline.com/feed/" o2] ++ rest.
Proof.
  split; [|split].
  - cbn. destruct (Index.scraper_create wf _ _ _) as [instance|e'] eqn:Hans.
    + eexists (Returned instance), _. split; [reflexivity|].
      split; reflexivity.
    + eexists (Raised e'), _. split; [reflexivity|]. split; reflexivity.
  - cbn. destruct (Index.scraper_create wf _ _ _) as [instance|e'] eqn:Hans.
    + eexists _, (Returned instance), _. reflexivity.
    + eexists _, (Raised e'), _. reflexivity.
  - intros payload Hin.
    destruct (discovery_outcome svc payload w0)
      as (links & w1 & o1 & feed & w2 & o2 & _ & _ & Ht2 & _ & _ & out & w0'
          & Hrun & _ & Hcase).
    assert (main_target payload = "https://www.myjoyonline.com/"
            /\ feed_target payload = "https://www.myjoyonline.com/feed/")
      as [Hmain Hfeed].
    { destruct Hin as [<-|[<-|[]]]; split; reflexivity. }
    rewrite Hmain, Hfeed in Ht2.
    exists out, w0', o1, o2.
    destruct (crowded links);
      [destruct Hcase as [_ Ht]
      |destruct (blocked svc w2 feed links);
       [destruct Hcase as [_ Ht]|destruct Hcase as (_ & Ht & _)]].
    all: eexists; split; [exact Hrun|];
      rewrite Ht, Ht2, <- !app_assoc; reflexivity.
Qed.

(** ** From a manual request to the Delivery run *)

(** The reprocess flag of a manual request is honoured by the run of the
    instance it creates. With the flag absent or false and a live cache
    entry for the URL, the run returns the skipped result after the one
    cache read; with the flag true the run does not read the cache and
    starts with the model call. *)
Theorem manual_request_flag_is_honoured wf svc env b calls w w0 :
  complete b = true ->
  live w0 (default "" (Index.body_url b)) ->
  exists response id params answer w' out w0' evs,
    Index.start_processor wf svc (Returned b) (calls, w)
      = (response, (calls ++ [Index.CreateProcessor id params answer], w'))
    /\ GHNewsProcessorWorkflow.run svc env params w0 = (out, w0')
    /\ trace w0' = trace w0 ++ evs
    /\ if default false (Index.body_reprocess b)
       then existsb is_cache_read evs = false
            /\ head evs = Some (EvStep "generate_summary")
       else out =
              Returned
                (GHNewsProcessorWorkflow.Skipped true true
                   "Article already processed"
                   (default "" (Index.body_url b)))
            /\ steps_of evs = ["check_if_processed"]
            /\ existsb is_summarize evs = false
            /\ existsb is_send evs = false
            /\ GH_NEWS_CACHE w0' = GH_NEWS_CACHE w0.
Proof.
  intros Hok Hlive.
  destruct (start_processor_complete wf svc b calls w Hok)
    as (response & answer & w' & Hstart & _).
  set (p := requested b (ISO_string svc (now w))) in *.
  destruct (run_shape svc env p w0)
    as (out & w0' & evs & Hrun & Htrace & Hshape).
  exists response, (randomUUID svc (uuids_drawn w)), p, answer, w', out, w0',
    evs.
  split; [exact Hstart|]. split; [exact Hrun|]. split; [exact Htrace|].
  assert (reprocess p = Some (default false (Index.body_reprocess b)))
    as Hflag by reflexivity.
  assert (url (article p) = default "" (Index.body_url b)) as Hurl
    by reflexivity.
  unfold live in Hlive. rewrite <- Hurl in *. clearbody p.
  destruct (default false (Index.body_reprocess b)).
  - invert_shapes; try congruence; split; reflexivity.
  - invert_shapes; try congruence. repeat split; auto.
Qed.

Lemma manual_request_flag_is_honoured_witness :
  exists params out w0',
    GHNewsProcessorWorkflow.run Sample.working Sample.env params
      (Sample.holding "article:https://x/a") = (out, w0')
    /\ article params
       = article (requested Scenario.body_a "1970-01-01T00:00:00.000Z")
    /\ out =
         Returned
           (GHNewsProcessorWorkflow.Skipped true true
              "Article already processed" "https://x/a").
Proof.
  destruct (manual_request_flag_is_honoured Scenario.bindings Sample.working
              Sample.env Scenario.body_a [] Sample.fresh
              (Sample.holding "article:https://x/a"))
    as (response & id & params & answer & w' & out & w0' & evs & Hstart
        & Hrun & _ & Hout & _).
  - reflexivity.
  - unfold live. vm_compute. discriminate.
  - exists params, out, w0'. split; [exact Hrun|].
    split; [|exact Hout].
    vm_compute in Hstart. injection Hstart as _ _ <- _. reflexivity.
Defined.

(** A manual request without an image (none, or the empty string) still
    leads to a photo message: the instance it creates posts the fallback
    image only. *)
Theorem manual_request_without_image wf svc env b calls w w0 :
  complete b = true ->
  truthy_opt (Index.body_image_url b) = false ->
  exists response id params answer w' out w0' evs,
    Index.start_processor wf svc (Returned b) (calls, w)
      = (response, (calls ++ [Index.CreateProcessor id params answer], w'))
    /\ image_url (article params) = Some ""
    /\ GHNewsProcessorWorkflow.run svc env params w0 = (out, w0')
    /\ trace w0' = trace w0 ++ evs
    /\ forall req o, In (EvSendPhoto req o) evs ->
         photo req = Utils.fallbackImageUrl.
Proof.
  intros Hok Hnone.
  destruct (start_processor_complete wf svc b calls w Hok)
    as (response & answer & w' & Hstart & _).
  set (p := requested b (ISO_string svc (now w))) in *.
  destruct (run_shape svc env p w0)
    as (out & w0' & evs & Hrun & Htrace & Hshape).
  exists response, (randomUUID svc (uuids_drawn w)), p, answer, w', out, w0',
    evs.
  assert (image_url (article p) = Some "") as Himage.
  { cbn. destruct (Index.body_image_url b) as [s|]; [|reflexivity].
    cbn in Hnone |- *. rewrite Hnone. reflexivity. }
  split; [exact Hstart|]. split; [exact Himage|]. split; [exact Hrun|].
  split; [exact Htrace|]. clearbody p.
  intros req o Hin.
  invert_shapes; cbn [In app idempotency_check] in Hin;
    unfold summarize_event in Hin; members Hin.
  all: cbn [photo first_send first_request fallback_send fallback_request
            Utils.sendPhoto_request].
  all: rewrite ?Himage; vm_compute; reflexivity.
Qed.

Lemma manual_request_without_image_witness :
  exists params out w0',
    GHNewsProcessorWorkflow.run Sample.working Sample.env params Sample.fresh
      = (out, w0')
    /\ image_url (article params) = Some ""
    /\ forall req o, In (EvSendPhoto req o) (trace w0') ->
         photo req = Utils.fallbackImageUrl.
Proof.
  destruct (manual_request_without_image Scenario.bindings Sample.working
              Sample.env Scenario.body_a [] Sample.fresh Sample.fresh)
    as (response & id & params & answer & w' & out & w0' & evs & _ & Himage
        & Hrun & Htrace & Hphoto).
  - reflexivity.
  - reflexivity.
  - exists params, out, w0'. split; [exact Hrun|]. split; [exact Himage|].
    rewrite Htrace. exact Hphoto.
Defined.

